(** * Corrective-retrieval workflow and hybrid synthesis pipeline

    A shallow embedding of the orchestration core of the legal research
    assistant:

    - [src/core/legal_models.py]       (RetryableError, FinalResponse),
    - [src/core/workflow_builder.py]   (routing functions, error handler, graph),
    - [src/agents/document_grader.py]  (grade_documents),
    - [src/agents/streaming/hybrid_legal_processor.py]
                                       (searches, 4-part synthesis, validators),
    - [src/agents/streaming/response_synthesizer.py] (synthesize_response).

    Python [str] values are sequences of Unicode code points, language-model
    agents are oracles consulted through an explicit call log, and exceptions
    are values of a result type threaded through a small monad. *)

From Stdlib Require Import ZArith NArith QArith List Ascii String Bool Lia.
From stdpp Require Import gmap strings list pretty.

Local Open Scope N_scope.

(* ===================================================================== *)
(** * Python strings *)
(* ===================================================================== *)

Module PyStr.

(** A Python [str]: the list of its code points. *)
Abbreviation str := (list N).

(** ** Literals

    Source literals are written as UTF-8 text and decoded to code points. *)

Definition bytes_of (s : string) : list N :=
  List.map N_of_ascii (list_ascii_of_string s).

Definition cont (b : N) : N := N.land b 63.

Fixpoint utf8_decode (bs : list N) : str :=
  match bs with
  | [] => []
  | b0 :: r0 =>
    if b0 <? 128 then b0 :: utf8_decode r0
    else match r0 with
    | [] => [b0]
    | b1 :: r1 =>
      if b0 <? 224 then (N.land b0 31 * 64 + cont b1) :: utf8_decode r1
      else match r1 with
      | [] => [b0; b1]
      | b2 :: r2 =>
        if b0 <? 240
        then (N.land b0 15 * 4096 + cont b1 * 64 + cont b2) :: utf8_decode r2
        else match r2 with
        | [] => [b0; b1; b2]
        | b3 :: r3 =>
          (N.land b0 7 * 262144 + cont b1 * 4096 + cont b2 * 64 + cont b3)
            :: utf8_decode r3
        end
      end
    end
  end.

Definition lit (s : string) : str := utf8_decode (bytes_of s).
Arguments lit s%_string : simpl never.

(** ** Whitespace: the code points for which [str.isspace()] holds; these
    are the separators of [str.split()] and what [str.strip()] removes. *)

Definition is_space (c : N) : bool :=
  ((9 <=? c) && (c <=? 13)) || ((28 <=? c) && (c <=? 32))
  || (c =? 133) || (c =? 160) || (c =? 5760)
  || ((8192 <=? c) && (c <=? 8202))
  || (c =? 8232) || (c =? 8233) || (c =? 8239) || (c =? 8287)
  || (c =? 12288).

Fixpoint lstrip (s : str) : str :=
  match s with
  | [] => []
  | c :: r => if is_space c then lstrip r else s
  end.

Definition rstrip (s : str) : str := rev (lstrip (rev s)).

(** [s.strip()] *)
Definition strip (s : str) : str := rstrip (lstrip s).

(** [s.split()]: the maximal runs of non-whitespace. [cur] is the word
    being read, reversed. *)
Fixpoint split_ws_from (cur : str) (s : str) : list str :=
  match s with
  | [] => match cur with [] => [] | _ => [rev cur] end
  | c :: r =>
    if is_space c
    then match cur with
         | [] => split_ws_from [] r
         | _ => rev cur :: split_ws_from [] r
         end
    else split_ws_from (c :: cur) r
  end.

Definition split_ws (s : str) : list str := split_ws_from [] s.

(** [len(s.split())] *)
Definition word_count (s : str) : nat := length (split_ws s).

(** [s.split(sep)] for a one-character separator: always at least one
    piece. *)
Fixpoint split_on (sep : N) (s : str) : list str :=
  match s with
  | [] => [[]]
  | c :: r =>
    if c =? sep then [] :: split_on sep r
    else match split_on sep r with
         | p :: ps => (c :: p) :: ps
         | [] => [[c]]
         end
  end.

(** [s.split(sep, 1)[1]]: what follows the first separator, if any. *)
Fixpoint after_first (sep : N) (s : str) : option str :=
  match s with
  | [] => None
  | c :: r => if c =? sep then Some r else after_first sep r
  end.

Fixpoint startswith (p s : str) : bool :=
  match p, s with
  | [], _ => true
  | _ :: _, [] => false
  | a :: p', b :: s' => (a =? b) && startswith p' s'
  end.

(** [sub in s] *)
Fixpoint contains (sub s : str) : bool :=
  startswith sub s ||
  match s with
  | [] => false
  | _ :: r => contains sub r
  end.

(** [sep.join(parts)] *)
Fixpoint join (sep : str) (parts : list str) : str :=
  match parts with
  | [] => []
  | [p] => p
  | p :: ps => p ++ sep ++ join sep ps
  end.

(** Several source lines of literal text, joined by line feeds. *)
Definition text (ls : list string) : str := join [10] (List.map lit ls).
Arguments text ls : simpl never.

(** [s[:n]], on strings and on lists. *)
Definition upto {A} (n : nat) (s : list A) : list A := take n s.

(** [str(n)] for an integer. *)
Definition str_of_nat (n : nat) : str := lit (pretty n).
Definition str_of_Z (z : Z) : str := lit (pretty z).

(** [==] on strings, as a boolean. *)
Definition str_eqb (a b : str) : bool := bool_decide (a = b).

Definition newline : N := 10.
Definition dot : N := 46.
Definition colon : N := 58.
Definition quote : N := 34.

End PyStr.
Import PyStr.

(* ===================================================================== *)
(** * Exceptions, results and floats *)
(* ===================================================================== *)

(** The exception classes that occur in the modelled code. All of them
    derive from [Exception], so [except Exception] catches every one. *)
Inductive exn_class :=
| TimeoutError | ValidationError | ValueError | AttributeError | TypeError
| RuntimeError.

(** An exception value: its class and [str(e)]. For pydantic validation
    errors the message kept is that of the first failing check, not
    pydantic's multi-line report. *)
Record exn := mkExn { exn_cls : exn_class; exn_msg : str }.

Inductive Result (A : Type) :=
| Ok (a : A)
| Exc (e : exn).
Arguments Ok {A} a.
Arguments Exc {A} e.

Definition is_ok {A} (r : Result A) : bool :=
  match r with Ok _ => true | Exc _ => false end.

Definition validation_error {A} (msg : string) : Result A :=
  Exc (mkExn ValidationError (lit msg)).

(** A Python [float]. Finite values are held exactly: the modelled code
    only compares them with the bounds 0 and 1 and passes them on. *)
Inductive pyfloat :=
| FFinite (q : Q)
| FInf (negative : bool)
| FNaN.

(** [x >= 0] and [x <= 1]; every comparison with NaN is false. *)
Definition float_ge0 (x : pyfloat) : bool :=
  match x with
  | FFinite q => Qle_bool 0 q
  | FInf negative => negb negative
  | FNaN => false
  end.

Definition float_le1 (x : pyfloat) : bool :=
  match x with
  | FFinite q => Qle_bool q 1
  | FInf negative => negative
  | FNaN => false
  end.

(** The pydantic constraint [Field(ge=0, le=1)]. *)
Definition unit_interval (x : pyfloat) : bool := float_ge0 x && float_le1 x.

(** Built-ins whose behaviour is fixed by the Unicode database or by the
    interpreter's number grammar. The development is parametric in them:
    every theorem below holds whatever they compute. [None] stands for the
    [ValueError] that [float()] and [int()] raise. *)
Class PyBuiltins := {
  lower : str -> str;            (* s.lower() *)
  upper : str -> str;            (* s.upper() *)
  py_float : str -> option pyfloat;  (* float(s) *)
  py_int : str -> option Z;          (* int(s) *)
  repr_list : list str -> str;       (* str(l) for a list of strings *)
  repr_dict : gmap string str -> str;  (* str(d) for a dict of strings *)
}.

(* ===================================================================== *)
(** * Data model ([src/core/legal_models.py]) *)
(* ===================================================================== *)

Inductive Status :=
| PENDING | PROCESSING | REVIEWING | COMPLETED | FAILED | CANCELLED.

Inductive Priority := LOW | MEDIUM | HIGH | URGENT.

(** ** RetryableError: a frozen model with a derived predicate. *)
Record RetryableError := mkRetryableError {
  error_type : str;
  message : str;
  retry_count : Z;
  max_retries : Z;
  backoff_factor : pyfloat;
}.

(** Construction: [retry_count] defaults to 0 and must be [>= 0];
    [max_retries] defaults to 3 and must be [>= 1]; [backoff_factor]
    defaults to 1.0 and must be [>= 0]. *)
Definition RetryableError_init (error_type message : str)
    (retry_count max_retries : option Z) (backoff_factor : option pyfloat)
    : Result RetryableError :=
  let rc := default 0%Z retry_count in
  let mr := default 3%Z max_retries in
  let bf := default (FFinite 1) backoff_factor in
  if negb (0 <=? rc)%Z then validation_error "retry_count: greater_than_equal"
  else if negb (1 <=? mr)%Z then validation_error "max_retries: greater_than_equal"
  else if negb (float_ge0 bf) then validation_error "backoff_factor: greater_than_equal"
  else Ok (mkRetryableError error_type message rc mr bf).

(** The property [can_retry]. *)
Definition can_retry (self : RetryableError) : bool :=
  (retry_count self <? max_retries self)%Z.

(** The fields an assignment [self.<field> = value] can name, with the
    value assigned. *)
Inductive RetryableError_assignment :=
| set_error_type (v : str)
| set_message (v : str)
| set_retry_count (v : Z)
| set_max_retries (v : Z)
| set_backoff_factor (v : pyfloat).

(** [model_config = ConfigDict(frozen=True)]: every attribute assignment
    raises and leaves the instance as it was. The result pairs the outcome
    of the statement with the instance afterwards. *)
Definition RetryableError_setattr (self : RetryableError)
    (a : RetryableError_assignment) : Result unit * RetryableError :=
  (validation_error "Instance is frozen", self).

(** ** LegalQuery and DocumentSnippet: the fields the workflow reads. *)
Record LegalQuery := mkLegalQuery {
  lq_id : str;
  lq_text : str;
  lq_priority : Priority;
  lq_status : Status;
}.

Record DocumentSnippet := mkDocumentSnippet {
  ds_id : str;
  ds_source_id : str;
  ds_text : str;
  ds_authority : option str;   (* metadata.authority *)
}.

(** ** FinalResponse

    Generated defaults that differ from run to run ([response_id],
    [generated_at]) and the list fields that every caller here leaves
    empty ([detailed_analyses], [search_results]) are not part of the
    record. *)
Record FinalResponse := mkFinalResponse {
  query_id : str;
  overall_summary : str;
  overall_confidence : pyfloat;
  completeness_score : pyfloat;
  disclaimer : str;
  warnings : list str;
  status : Status;
  validated : bool;
  human_reviewed : bool;
}.

Definition default_disclaimer : str :=
  lit "Esta informação é gerada por IA e não substitui assessoria jurídica profissional. Busque sempre orientação de advogado especializado para sua situação específica.".

Definition value_error {A} (msg : string) : Result A :=
  Exc (mkExn ValueError (lit msg)).

Section Models.
Context `{PyBuiltins}.

(** [[s.strip() for s in v.split('.') if s.strip()]] *)
Definition sentences (v : str) : list str :=
  filter (fun s => s <> []) (List.map strip (split_on dot v)).

(** [set(words)] *)
Definition unique_words (words : list str) : gset str := list_to_set words.

(** The validator of [overall_summary]. The last test is
    [len(unique_words) / len(words) < 0.25]; both counts are integers and
    0.25 is a binary fraction, so it is the integer test [4 * u < w]. *)
Definition validate_summary_quality (v : str) : Result str :=
  if (length (sentences v) <? 2)%nat
  then value_error "Resposta deve conter pelo menos 2 frases completas"
  else if (length (strip v) <? 50)%nat
  then value_error "Resposta muito curta - mínimo 50 caracteres"
  else
    let words := split_ws (lower v) in
    if (length words <? 10)%nat then Ok v
    else if (4 * size (unique_words words) <? length words)%nat
    then value_error "Resposta muito repetitiva"
    else Ok v.

(** The field [overall_summary]: the length bounds of its annotation, then
    the validator. A [ValueError] of the validator surfaces as a
    [ValidationError]. *)
Definition check_overall_summary (v : str) : Result str :=
  if (length v <? 100)%nat then validation_error "overall_summary: string_too_short"
  else if (15000 <? Z.of_nat (length v))%Z
  then validation_error "overall_summary: string_too_long"
  else match validate_summary_quality v with
       | Ok v' => Ok v'
       | Exc e => Exc (mkExn ValidationError (exn_msg e))
       end.

(** [FinalResponse(...)]. [None] for an argument means the keyword was not
    passed. [query_id] and [overall_summary] have no default; keywords that
    name no field are ignored by pydantic and so have no counterpart. *)
Definition FinalResponse_init
    (query_id overall_summary : option str)
    (overall_confidence completeness_score : option pyfloat)
    (disclaimer : option str) (warnings : option (list str))
    (status : option Status) : Result FinalResponse :=
  match query_id with
  | None => validation_error "query_id: Field required"
  | Some qid =>
    match overall_summary with
    | None => validation_error "overall_summary: Field required"
    | Some v =>
      match check_overall_summary v with
      | Exc e => Exc e
      | Ok v' =>
        let conf := default (FFinite 0) overall_confidence in
        let comp := default (FFinite 0) completeness_score in
        if negb (unit_interval conf)
        then validation_error "overall_confidence: out of range"
        else if negb (unit_interval comp)
        then validation_error "completeness_score: out of range"
        else Ok {| query_id := qid;
                   overall_summary := v';
                   overall_confidence := conf;
                   completeness_score := comp;
                   disclaimer := default default_disclaimer disclaimer;
                   warnings := default [] warnings;
                   status := default COMPLETED status;
                   validated := false;
                   human_reviewed := false |}
      end
    end
  end.

End Models.

(* ===================================================================== *)
(** * Language-model agents and the effect monad *)
(* ===================================================================== *)

(** The module-level agents of the repository. *)
Inductive AgentId :=
| grader_agent_id
| search_decision_agent
| vectordb_search_agent
| groq_search_agent
| legal_analyzer_agent
| final_synthesizer_agent
| quality_validator_agent
| guardrail_checker_agent.

(** One [await agent.run(prompt)]. [call_timeout] is [Some t] when the
    call is wrapped in [asyncio.wait_for(..., timeout=t)]. *)
Record Call := mkCall {
  call_agent : AgentId;
  call_prompt : str;
  call_timeout : option Q;
}.

(** Inference is opaque: given the calls made so far and the present call,
    the world answers with the agent's [output] or with an exception. The
    expiry of a [wait_for] timeout is the exception [TimeoutError]. *)
Definition World := list Call -> Call -> Result str.

(** Computations that consult agents: the log of calls is threaded
    through, exceptions short-circuit. *)
Definition M (A : Type) : Type := World -> list Call -> Result A * list Call.

Definition ret {A} (a : A) : M A := fun _ log => (Ok a, log).

Definition raise {A} (e : exn) : M A := fun _ log => (Exc e, log).

Definition bind {A B} (c : M A) (k : A -> M B) : M B :=
  fun w log =>
    match c w log with
    | (Ok a, log') => k a w log'
    | (Exc e, log') => (Exc e, log')
    end.

(** [try: body except Exception as e: handler(e)] *)
Definition try_except {A} (body : M A) (handler : exn -> M A) : M A :=
  fun w log =>
    match body w log with
    | (Ok a, log') => (Ok a, log')
    | (Exc e, log') => handler e w log'
    end.

Definition lift {A} (r : Result A) : M A := fun _ log => (r, log).

Definition agent_run_with (timeout : option Q) (agent : AgentId) (prompt : str)
    : M str :=
  fun w log =>
    let c := mkCall agent prompt timeout in
    (w log c, log ++ [c]).

(** [(await agent.run(prompt, deps=deps)).output] *)
Definition agent_run : AgentId -> str -> M str := agent_run_with None.

(** [(await asyncio.wait_for(agent.run(prompt, deps=deps), timeout=t)).output] *)
Definition wait_for_agent_run (agent : AgentId) (prompt : str) (t : Q) : M str :=
  agent_run_with (Some t) agent prompt.

Notation "x <- c ;; k" := (bind c (fun x => k))
  (at level 20, c at level 99, k at level 200, only parsing).

(* ===================================================================== *)
(** * Workflow state ([src/core/workflow_state.py]) *)
(* ===================================================================== *)

(** A key of the state dictionary: absent, present with value [None], or
    present with a value of the declared type. *)
Inductive entry (A : Type) :=
| Absent
| PyNone
| Val (a : A).
Arguments Absent {A}.
Arguments PyNone {A}.
Arguments Val {A} a.

(** [state.get(key)] *)
Definition get {A} (e : entry A) : option A :=
  match e with
  | Val a => Some a
  | _ => None
  end.

Record TavilySearchResult := mkTavily {
  tv_title : option str;
  tv_content : str;
}.

Record LexMLDocumento := mkLexML {
  lx_urn : option str;
  lx_ementa : option str;
}.

(** [AgentState], restricted to the keys the modelled nodes read or write.
    The same record is the type of the partial update a node returns: there
    a key that the returned dict does not contain is [Absent]. *)
Record AgentState := mkAgentState {
  st_query : entry LegalQuery;
  st_retrieved_docs : entry (list DocumentSnippet);
  st_grade : entry str;
  st_tavily_results : entry (list TavilySearchResult);
  st_lexml_results : entry (list LexMLDocumento);
  st_needs_web_search : entry bool;
  st_should_synthesize : entry bool;
  st_final_response : entry FinalResponse;   (* a [model_dump()] *)
  st_error : entry str;
}.

(** The dict [{}]. *)
Definition no_update : AgentState :=
  mkAgentState Absent Absent Absent Absent Absent Absent Absent Absent Absent.

(** [{"grade": g}] *)
Definition update_grade (g : str) : AgentState :=
  mkAgentState Absent Absent (Val g) Absent Absent Absent Absent Absent Absent.

(** [{"final_response": r.model_dump()}] *)
Definition update_final_response (r : FinalResponse) : AgentState :=
  mkAgentState Absent Absent Absent Absent Absent Absent Absent (Val r) Absent.

(** [{"error": msg, "final_response": r.model_dump()}] *)
Definition update_error_final_response (msg : str) (r : FinalResponse)
    : AgentState :=
  mkAgentState Absent Absent Absent Absent Absent Absent Absent (Val r) (Val msg).

(** How the state machine merges one key of a partial update. *)
Definition merge_entry {A} (old new : entry A) : entry A :=
  match new with
  | Absent => old
  | _ => new
  end.

Definition merge (state update : AgentState) : AgentState :=
  {| st_query := merge_entry (st_query state) (st_query update);
     st_retrieved_docs :=
       merge_entry (st_retrieved_docs state) (st_retrieved_docs update);
     st_grade := merge_entry (st_grade state) (st_grade update);
     st_tavily_results :=
       merge_entry (st_tavily_results state) (st_tavily_results update);
     st_lexml_results :=
       merge_entry (st_lexml_results state) (st_lexml_results update);
     st_needs_web_search :=
       merge_entry (st_needs_web_search state) (st_needs_web_search update);
     st_should_synthesize :=
       merge_entry (st_should_synthesize state) (st_should_synthesize update);
     st_final_response :=
       merge_entry (st_final_response state) (st_final_response update);
     st_error := merge_entry (st_error state) (st_error update) |}.

(* ===================================================================== *)
(** * The workflow graph ([src/core/workflow_builder.py]) *)
(* ===================================================================== *)

Definition NODE_RETRIEVE : string := "retrieve_documents".
Definition NODE_GRADE : string := "grade_documents".
Definition NODE_TRANSFORM : string := "transform_query".
Definition NODE_LEXML : string := "lexml_search".
Definition NODE_EVALUATE : string := "evaluate_search_necessity".
Definition NODE_WEB_SEARCH : string := "conditional_web_search".
Definition NODE_SYNTHESIZE : string := "synthesize_response".
Definition NODE_ERROR : string := "error_handler".
Definition END : string := "__end__".

(** [value == "literal"] for a value read with [state.get]. *)
Definition eq_literal (value : option str) (literal : string) : bool :=
  match value with
  | Some s => str_eqb s (lit literal)
  | None => false
  end.

Definition route_after_grading (state : AgentState) : string :=
  let grade := get (st_grade state) in
  if eq_literal grade "relevant" then NODE_LEXML
  else if eq_literal grade "irrelevant" then NODE_TRANSFORM
  else NODE_LEXML.

Definition route_after_transform (state : AgentState) : string := NODE_LEXML.

Definition route_after_evaluation (state : AgentState) : string :=
  (* state.get("needs_web_search", False) *)
  let needs_web :=
    match st_needs_web_search state with
    | Val b => b
    | _ => false
    end in
  if needs_web then NODE_WEB_SEARCH else NODE_SYNTHESIZE.

(** A [StateGraph] under construction: node names, entry point, plain
    edges in insertion order, and per node a router with the dict that maps
    the router's result to the next node. The node bodies are the functions
    modelled in the other sections. *)
Record StateGraph := mkStateGraph {
  g_nodes : gset string;
  g_entry : option string;
  g_edges : list (string * string);
  g_conditional : gmap string ((AgentState -> string) * gmap string string);
}.

Definition new_graph : StateGraph := mkStateGraph ∅ None [] ∅.

Definition add_node (name : string) (g : StateGraph) : StateGraph :=
  mkStateGraph ({[ name ]} ∪ g_nodes g) (g_entry g) (g_edges g) (g_conditional g).

Definition set_entry_point (name : string) (g : StateGraph) : StateGraph :=
  mkStateGraph (g_nodes g) (Some name) (g_edges g) (g_conditional g).

Definition add_edge (a b : string) (g : StateGraph) : StateGraph :=
  mkStateGraph (g_nodes g) (g_entry g) (g_edges g ++ [(a, b)]) (g_conditional g).

Definition add_conditional_edges (source : string)
    (path : AgentState -> string) (path_map : gmap string string)
    (g : StateGraph) : StateGraph :=
  mkStateGraph (g_nodes g) (g_entry g) (g_edges g)
    (<[ source := (path, path_map) ]> (g_conditional g)).

Definition build_graph : StateGraph :=
  let workflow := new_graph in
  let workflow := add_node NODE_RETRIEVE workflow in
  let workflow := add_node NODE_GRADE workflow in
  let workflow := add_node NODE_TRANSFORM workflow in
  let workflow := add_node NODE_LEXML workflow in
  let workflow := add_node NODE_EVALUATE workflow in
  let workflow := add_node NODE_WEB_SEARCH workflow in
  let workflow := add_node NODE_SYNTHESIZE workflow in
  let workflow := add_node NODE_ERROR workflow in
  let workflow := set_entry_point NODE_RETRIEVE workflow in
  let workflow := add_edge NODE_RETRIEVE NODE_GRADE workflow in
  let workflow :=
    add_conditional_edges NODE_GRADE route_after_grading
      (<[ NODE_LEXML := NODE_LEXML ]> (<[ NODE_TRANSFORM := NODE_TRANSFORM ]> ∅))
      workflow in
  let workflow :=
    add_conditional_edges NODE_TRANSFORM route_after_transform
      (<[ NODE_LEXML := NODE_LEXML ]> ∅) workflow in
  let workflow := add_edge NODE_LEXML NODE_EVALUATE workflow in
  let workflow :=
    add_conditional_edges NODE_EVALUATE route_after_evaluation
      (<[ NODE_WEB_SEARCH := NODE_WEB_SEARCH ]>
        (<[ NODE_SYNTHESIZE := NODE_SYNTHESIZE ]> ∅)) workflow in
  let workflow := add_edge NODE_WEB_SEARCH NODE_SYNTHESIZE workflow in
  let workflow := add_edge NODE_SYNTHESIZE END workflow in
  let workflow := add_edge NODE_ERROR END workflow in
  workflow.

(** The nodes that run after [node] has produced [state]: the target of
    its conditional edge, then the targets of its plain edges. *)
Definition successors (g : StateGraph) (node : string) (state : AgentState)
    : list string :=
  match g_conditional g !! node with
  | Some (path, path_map) =>
    match path_map !! path state with
    | Some target => [target]
    | None => []
    end
  | None => []
  end
  ++ List.map snd (filter (fun e => fst e = node) (g_edges g)).

Section Workflow.
Context `{PyBuiltins}.

(** [handle_error]. The keywords [retrieved_documents] and
    [detailed_analysis] that the source passes name no field of
    [FinalResponse]; pydantic ignores them. [query_id] is not passed. *)
Definition handle_error (state : AgentState) : Result AgentState :=
  (* state.get('error', 'Unknown error'), formatted into the f-string *)
  let error_message :=
    match st_error state with
    | Absent => lit "Unknown error"
    | PyNone => lit "None"
    | Val msg => msg
    end in
  match FinalResponse_init
          None
          (Some (lit "Desculpe, ocorreu um erro: " ++ error_message))
          None None None None None with
  | Ok error_response => Ok (update_final_response error_response)
  | Exc e => Exc e
  end.

End Workflow.

(* ===================================================================== *)
(** * The document grader ([src/agents/document_grader.py]) *)
(* ===================================================================== *)

(** Matching one pattern letter (given in lower case) under
    [re.IGNORECASE]: the subject character matches when its simple
    lower-case mapping is the letter or one of the letter's registered
    equivalents. For the letters of the grader's pattern this adds, to the
    two ASCII cases, U+0130 and U+0131 for [i], U+017F for [s] and U+212A
    for [k]. *)
Definition ci_char (p c : N) : bool :=
  (c =? p)
  || ((97 <=? p) && (p <=? 122) && (c =? p - 32))
  || ((p =? 105) && ((c =? 304) || (c =? 305)))
  || ((p =? 115) && (c =? 383))
  || ((p =? 107) && (c =? 8490)).

(** Match [pat] at the start of [s]: the matched text and what follows. *)
Fixpoint ci_prefix (pat s : str) : option (str * str) :=
  match pat, s with
  | [], _ => Some ([], s)
  | _ :: _, [] => None
  | p :: pat', c :: s' =>
    if ci_char p c
    then match ci_prefix pat' s' with
         | Some (m, rest) => Some (c :: m, rest)
         | None => None
         end
    else None
  end.

(** The alternation [(a1|a2|...)] at the start of [s]: the text matched by
    the first alternative that matches. *)
Fixpoint first_alternative (alts : list str) (s : str) : option str :=
  match alts with
  | [] => None
  | a :: alts' =>
    match ci_prefix a s with
    | Some (m, _) => Some m
    | None => first_alternative alts' s
    end
  end.

(** The pattern [RELEVANCIA:\s*(relevant|irrelevant|needs_web_search)]
    anchored at the start of [s]: group 1 when it matches. The alternatives
    begin with a letter, so the greedy [\s*] never has to give back. *)
Definition match_relevancia_here (s : str) : option str :=
  match ci_prefix (lit "relevancia:") s with
  | Some (_, rest) =>
    first_alternative
      [lit "relevant"; lit "irrelevant"; lit "needs_web_search"]
      (lstrip rest)
  | None => None
  end.

(** [re.search(pattern, text, re.IGNORECASE)]: the leftmost match. *)
Fixpoint search_relevancia (text : str) : option str :=
  match match_relevancia_here text with
  | Some g => Some g
  | None =>
    match text with
    | [] => None
    | _ :: rest => search_relevancia rest
    end
  end.

Section Grader.
Context `{PyBuiltins}.

Definition format_docs_for_grading (docs : list DocumentSnippet) : str :=
  match docs with
  | [] => lit "Nenhum documento recuperado."
  | _ =>
    let formatted :=
      imap (fun i doc =>
              let source := ds_source_id doc in
              (* source = metadata.authority or source *)
              let source :=
                match ds_authority doc with
                | Some (c :: a) => c :: a
                | _ => source
                end in
              let text_content := upto 500 (ds_text doc) in
              lit "Documento " ++ str_of_nat (i + 1) ++ lit " (Fonte: "
                ++ source ++ lit "):" ++ [newline] ++ text_content ++ lit "...")
           docs in
    join ([newline] ++ lit "---" ++ [newline]) formatted
  end.

Definition parse_grader_response (text : str) : str :=
  match search_relevancia text with
  | Some group1 => lower group1
  | None =>
    let text_lower := lower text in
    if contains (lit "irrelevant") text_lower then lit "irrelevant"
    else if contains (lit "needs_web_search") text_lower
    then lit "needs_web_search"
    else lit "relevant"
  end.

(** [grade_documents]. [grader_agent] is the module-level agent: [None]
    when its construction raised at import. *)
Definition grade_documents (grader_agent : option AgentId)
    (state : AgentState) : M AgentState :=
  match grader_agent with
  | None => ret (update_grade (lit "relevant"))
  | Some agent =>
    let query := get (st_query state) in
    let retrieved_docs := get (st_retrieved_docs state) in
    match query, retrieved_docs with
    | Some query, Some (d :: ds) =>
      let retrieved_docs := d :: ds in
      let query_text := lq_text query in
      let formatted_docs := format_docs_for_grading retrieved_docs in
      let agent_input_content :=
        lit "Pergunta do Usuário: " ++ query_text ++ [newline; newline]
        ++ lit "Documentos Recuperados:" ++ [newline] ++ formatted_docs
        ++ [newline; newline]
        ++ lit "Avalie a relevância destes documentos para a pergunta e responda no formato JSON solicitado." in
      try_except
        (grader_text <- agent_run agent agent_input_content ;;
         ret (update_grade (parse_grader_response grader_text)))
        (fun e => ret (update_grade (lit "relevant")))
    | _, _ =>
      (* not query or not retrieved_docs *)
      ret (update_grade (lit "irrelevant"))
    end
  end.

End Grader.

(* ===================================================================== *)
(** * The hybrid processor
      ([src/agents/streaming/hybrid_legal_processor.py]) *)
(* ===================================================================== *)

(** The [deps] argument that the source passes along (configuration and
    session identifiers) is read by no modelled function and is left
    out; log statements are left out as well. *)

Record VectorSearchResult := mkVectorSearchResult {
  documents_found : Z;
  relevant_snippets : list str;
  search_quality : pyfloat;
  vs_summary : str;
}.

(** [search_quality] carries [Field(ge=0, le=1)]. *)
Definition VectorSearchResult_init (documents_found : Z)
    (relevant_snippets : list str) (search_quality : pyfloat) (summary : str)
    : Result VectorSearchResult :=
  if unit_interval search_quality
  then Ok (mkVectorSearchResult documents_found relevant_snippets
             search_quality summary)
  else validation_error "search_quality: out of range".

Record GroqSearchResult := mkGroqSearchResult {
  web_results : gmap string str;
  lexml_results : gmap string str;
  total_sources : Z;
  gs_summary : str;
}.

Record QualityAssessment := mkQualityAssessment {
  overall_score : pyfloat;
  completeness : pyfloat;
  accuracy : pyfloat;
  clarity : pyfloat;
  needs_improvement : bool;
  improvement_suggestions : list str;
  needs_human_review : bool;
  review_reason : str;
}.

(** The four scores carry [Field(ge=0, le=1)]. *)
Definition QualityAssessment_init (qa : QualityAssessment)
    : Result QualityAssessment :=
  if unit_interval (overall_score qa) && unit_interval (completeness qa)
     && unit_interval (accuracy qa) && unit_interval (clarity qa)
  then Ok qa
  else validation_error "QualityAssessment: score out of range".

Record GuardrailCheck := mkGuardrailCheck {
  passed : bool;
  violations : list str;
  overall_risk_level : str;
}.

(** [line.split(':')[1]]; the index exists whenever the line has a colon. *)
Definition second_field (line : str) : option str := split_on colon line !! 1%nat.

(** [line.strip().startswith('- ')] and [line.strip()[2:]] *)
Definition is_bullet (line : str) : bool := startswith (lit "- ") (strip line).
Definition bullet_text (line : str) : str := drop 2 (strip line).

Section Searches.
Context `{PyBuiltins}.

(** One iteration of the parsing loop of
    [execute_vectordb_search_openrouter]. *)
Definition vectordb_line (acc : VectorSearchResult) (line : str)
    : VectorSearchResult :=
  if contains (lit "DOCUMENTOS_ENCONTRADOS:") line then
    match second_field line ≫= (fun f => py_int (strip f)) with
    | Some n => mkVectorSearchResult n (relevant_snippets acc)
                  (search_quality acc) (vs_summary acc)
    | None => acc
    end
  else if contains (lit "QUALIDADE_BUSCA:") line then
    match second_field line ≫= (fun f => py_float (strip f)) with
    | Some x => mkVectorSearchResult (documents_found acc)
                  (relevant_snippets acc) x (vs_summary acc)
    | None => acc
    end
  else if is_bullet line then
    mkVectorSearchResult (documents_found acc)
      (relevant_snippets acc ++ [bullet_text line])
      (search_quality acc) (vs_summary acc)
  else if contains (lit "RESUMO:") line then
    (* line.split(':', 1)[1].strip(): the label supplies the colon *)
    mkVectorSearchResult (documents_found acc) (relevant_snippets acc)
      (search_quality acc) (strip (default [] (after_first colon line)))
  else acc.

Definition execute_vectordb_search_openrouter (query : str)
    : M VectorSearchResult :=
  try_except
    (let vectordb_prompt :=
       text ["";
         "        Execute busca semântica para esta consulta jurídica:";
         "        ";
         "        CONSULTA: "]
       ++ query
       ++ text ["";
         "        ";
         "        Simule uma busca vectorial retornando informações estruturadas.";
         "        "] in
     response_text <- agent_run vectordb_search_agent vectordb_prompt ;;
     let defaults :=
       mkVectorSearchResult 5 [] (FFinite (8 # 10))
         (lit "Busca vectorial executada com sucesso") in
     let parsed := fold_left vectordb_line (split_on newline response_text) defaults in
     lift (VectorSearchResult_init (documents_found parsed)
             (upto 3 (relevant_snippets parsed))
             (search_quality parsed) (vs_summary parsed)))
    (fun e =>
       ret (mkVectorSearchResult 0 [] (FFinite 0) (lit "Erro na busca vectorial"))).

(** [parse_groq_response]: the text only feeds the summary. *)
Definition parse_groq_response (text : str) : GroqSearchResult :=
  let web_results := {[ "summary" := lit "Busca web executada" ]} in
  let lexml_results := {[ "summary" := lit "Busca LexML executada" ]} in
  let total_sources := 20%Z in
  let summary :=
    match text with
    | [] => lit "Buscas Groq executadas"
    | _ => upto 500 text
    end in
  mkGroqSearchResult web_results lexml_results total_sources summary.

(** The timeout passed to [asyncio.wait_for], in seconds. *)
Definition groq_timeout : Q := 10.

Definition groq_timeout_fallback : GroqSearchResult :=
  mkGroqSearchResult
    {[ "summary" := lit "Timeout na busca web" ]}
    {[ "summary" := lit "Timeout na busca LexML" ]}
    10
    (lit "Buscas Groq com timeout - usando fallback").

Definition groq_error_fallback : GroqSearchResult :=
  mkGroqSearchResult
    {[ "summary" := lit "Erro na busca web" ]}
    {[ "summary" := lit "Erro na busca LexML" ]}
    0
    (lit "Erro nas buscas Groq").

Definition groq_prompt (query : str) : str :=
  text ["";
    "        Consulta: "]
  ++ query
  ++ text ["";
    "        ";
    "        Use as ferramentas search_web_legal e search_lexml_legislation UMA VEZ cada uma.";
    "        Depois forneça um resumo simples das buscas.";
    "        "].

Definition execute_groq_searches (query : str) : M GroqSearchResult :=
  try_except
    (groq_text <-
       wait_for_agent_run groq_search_agent (groq_prompt query) groq_timeout ;;
     ret (parse_groq_response groq_text))
    (fun e =>
       match exn_cls e with
       | TimeoutError => ret groq_timeout_fallback   (* except asyncio.TimeoutError *)
       | _ => ret groq_error_fallback                (* except Exception *)
       end).

Definition analyze_with_openrouter (query : str)
    (vectordb_results : VectorSearchResult) (groq_results : GroqSearchResult)
    : M str :=
  let analysis_prompt :=
    text ["";
      "        Analise esta consulta jurídica com base nos dados coletados:";
      "        ";
      "        CONSULTA ORIGINAL: "]
    ++ query
    ++ text ["";
      "        ";
      "        DADOS DO VECTORDB:";
      "        - Documentos encontrados: "]
    ++ str_of_Z (documents_found vectordb_results)
    ++ text ["";
      "        - Resumo: "]
    ++ vs_summary vectordb_results
    ++ text ["";
      "        - Trechos relevantes: "]
    ++ repr_list (relevant_snippets vectordb_results)
    ++ text ["";
      "        ";
      "        DADOS DAS BUSCAS GROQ:";
      "        - Total de fontes: "]
    ++ str_of_Z (total_sources groq_results)
    ++ text ["";
      "        - Resumo: "]
    ++ gs_summary groq_results
    ++ text ["";
      "        - Resultados web: "]
    ++ repr_dict (web_results groq_results)
    ++ text ["";
      "        - Resultados LexML: "]
    ++ repr_dict (lexml_results groq_results)
    ++ text ["";
      "        ";
      "        Forneça uma análise jurídica estruturada correlacionando:";
      "        1. Legislação aplicável";
      "        2. Doutrina relevante  ";
      "        3. Jurisprudência atual";
      "        4. Princípios jurídicos envolvidos";
      "        "] in
  (* the handler of the source logs and re-raises *)
  agent_run legal_analyzer_agent analysis_prompt.

End Searches.

(* ===================================================================== *)
(** * Four-part synthesis *)
(* ===================================================================== *)

Inductive SectionId :=
| Introduction | Development | DetailedAnalysis | Conclusion.

(** The two synthesis functions that go section by section:
    [synthesize_with_openrouter_4_parts] and
    [synthesize_with_openrouter_streaming]. *)
Inductive Variant := FourParts | Streaming.

(** [analysis_text if analysis_text and len(analysis_text) > 50
     else "Conhecimento jurídico geral"] *)
Definition context_or_general (analysis_text : str) : str :=
  if (50 <? length analysis_text)%nat then analysis_text
  else lit "Conhecimento jurídico geral".

(** ** Prompts of [synthesize_with_openrouter_4_parts] *)

Definition intro_prompt (query analysis_text : str) : str :=
  text ["";
    "        TAREFA: Escreva uma INTRODUÇÃO detalhada e abrangente sobre: "]
  ++ query
  ++ text ["";
    "        ";
    "        CONTEXTO DISPONÍVEL: "]
  ++ context_or_general analysis_text
  ++ text ["";
    "        ";
    "        INSTRUÇÕES ESPECÍFICAS:";
    "        - Escreva uma introdução de EXATAMENTE 200-300 palavras (mínimo obrigatório)";
    "        - Apresente o tema de forma clara, didática e DETALHADA";
    "        - Contextualize profundamente a importância do assunto no direito brasileiro";
    "        - Mencione detalhadamente os aspectos que serão abordados";
    "        - Use linguagem acessível mas técnica e COMPLETA";
    "        - SEJA EXTENSO e ABRANGENTE na apresentação do tema";
    "        ";
    "        FORMATO: Escreva apenas a introdução, sem títulos ou seções.";
    "        "].

Definition intro_expand_prompt (introduction : str) : str :=
  text ["";
    "            Expanda esta introdução para ter pelo menos 200 palavras, mantendo o conteúdo original:";
    "            ";
    "            "]
  ++ introduction
  ++ text ["";
    "            ";
    "            Adicione mais detalhes sobre contexto jurídico, importância do tema, e aspectos que serão abordados.";
    "            "].

Definition dev_prompt (query analysis_text : str) : str :=
  text ["";
    "        TAREFA: Escreva o DESENVOLVIMENTO detalhado sobre: "]
  ++ query
  ++ text ["";
    "        ";
    "        CONTEXTO: "]
  ++ context_or_general analysis_text
  ++ text ["";
    "        ";
    "        INSTRUÇÕES ESPECÍFICAS:";
    "        - Desenvolva adequadamente o tema (aproximadamente 400-500 palavras)";
    "        - Explique MUITO detalhadamente os conceitos fundamentais";
    "        - Aborde extensivamente a fundamentação legal e doutrinária";
    "        - Inclua MÚLTIPLOS exemplos práticos e aplicações";
    "        - Mencione TODOS os aspectos e classificações relevantes";
    "        - Cite VÁRIAS leis e normas aplicáveis com detalhes";
    "        - SEJA EXTREMAMENTE DETALHADO e DIDÁTICO";
    "        ";
    "        FORMATO: Escreva apenas o desenvolvimento, sem títulos. Seja muito detalhado.";
    "        "].

Definition dev_expand_prompt (development : str) : str :=
  text ["";
    "            Expanda este desenvolvimento para ter pelo menos 400 palavras, mantendo o conteúdo original:";
    "            ";
    "            "]
  ++ development
  ++ text ["";
    "            ";
    "            Adicione mais exemplos práticos, detalhes da legislação, classificações e aspectos técnicos.";
    "            "].

Definition analysis_prompt (query analysis_text : str) : str :=
  text ["";
    "        TAREFA: Escreva uma ANÁLISE DETALHADA sobre: "]
  ++ query
  ++ text ["";
    "        ";
    "        CONTEXTO: "]
  ++ context_or_general analysis_text
  ++ text ["";
    "        ";
    "        INSTRUÇÕES ESPECÍFICAS:";
    "        - Analise profundamente o tema (aproximadamente 400-500 palavras)";
    "        - Analise EXTENSIVAMENTE aspectos práticos e teóricos";
    "        - Discuta DETALHADAMENTE implicações e consequências";
    "        - Aborde MÚLTIPLAS perspectivas doutrinárias";
    "        - Mencione VÁRIAS jurisprudências relevantes com detalhes";
    "        - Analise TODOS os casos especiais e exceções";
    "        - Discuta amplamente tendências e evolução do tema";
    "        - SEJA PROFUNDO, CRÍTICO e ANALÍTICO";
    "        ";
    "        FORMATO: Escreva apenas a análise, sem títulos. Seja analítico e crítico.";
    "        ";
    "        Desenvolva uma análise abrangente e detalhada que explore adequadamente todos os aspectos relevantes.";
    "        "].

Definition analysis_expand_prompt (detailed_analysis : str) : str :=
  text ["";
    "            Expanda esta análise para ter pelo menos 400 palavras, mantendo o conteúdo original:";
    "            ";
    "            "]
  ++ detailed_analysis
  ++ text ["";
    "            ";
    "            Adicione mais perspectivas doutrinárias, jurisprudência, casos especiais, tendências e análises críticas.";
    "            "].

Definition conclusion_prompt (query analysis_text : str) : str :=
  text ["";
    "        TAREFA: Escreva uma CONCLUSÃO abrangente sobre: "]
  ++ query
  ++ text ["";
    "        ";
    "        CONTEXTO: "]
  ++ context_or_general analysis_text
  ++ text ["";
    "        ";
    "        INSTRUÇÕES ESPECÍFICAS:";
    "        - Escreva EXATAMENTE 250-300 palavras de conclusão (mínimo obrigatório)";
    "        - Sintetize DETALHADAMENTE os pontos principais abordados";
    "        - Reforce extensivamente a importância do tema";
    "        - Forneça MÚLTIPLAS orientações práticas finais";
    "        - Sugira VÁRIOS próximos passos ou recomendações";
    "        - Termine com uma reflexão PROFUNDA sobre o tema";
    "        - SEJA CONCLUSIVO, PRÁTICO e ORIENTATIVO";
    "        ";
    "        FORMATO: Escreva apenas a conclusão, sem títulos. Seja conclusivo e orientativo.";
    "        ";
    "        Conclua de forma abrangente e consolidada, sintetizando os principais pontos discutidos.";
    "        "].

Definition conclusion_expand_prompt (conclusion : str) : str :=
  text ["";
    "            Expanda esta conclusão para ter pelo menos 250 palavras, mantendo o conteúdo original:";
    "            ";
    "            "]
  ++ conclusion
  ++ text ["";
    "            ";
    "            Adicione mais orientações práticas, próximos passos, recomendações e reflexões finais.";
    "            "].

(** ** Prompts of [synthesize_with_openrouter_streaming] *)

Definition streaming_intro_prompt (query analysis_text : str) : str :=
  text ["";
    "        Escreva uma INTRODUÇÃO sobre: "]
  ++ query
  ++ text ["";
    "        ";
    "        CONTEXTO: "]
  ++ context_or_general analysis_text
  ++ text ["";
    "        ";
    "        INSTRUÇÕES:";
    "        - Escreva 200-250 palavras";
    "        - Apresente o tema de forma clara";
    "        - Contextualize a importância jurídica";
    "        - NÃO use subseções ou subtítulos";
    "        - Escreva um texto corrido e fluido";
    "        ";
    "        Escreva apenas a introdução, sem títulos ou seções.";
    "        "].

Definition streaming_dev_prompt (query analysis_text : str) : str :=
  text ["";
    "        Escreva o DESENVOLVIMENTO sobre: "]
  ++ query
  ++ text ["";
    "        ";
    "        CONTEXTO: "]
  ++ context_or_general analysis_text
  ++ text ["";
    "        ";
    "        INSTRUÇÕES:";
    "        - Escreva 350-400 palavras";
    "        - Explique os conceitos fundamentais";
    "        - Aborde a fundamentação legal";
    "        - Inclua exemplos práticos";
    "        - NÃO use subseções ou subtítulos";
    "        - Escreva um texto corrido e fluido";
    "        ";
    "        Escreva apenas o desenvolvimento, sem títulos ou seções.";
    "        "].

Definition streaming_analysis_prompt (query analysis_text : str) : str :=
  text ["";
    "        Escreva uma ANÁLISE DETALHADA sobre: "]
  ++ query
  ++ text ["";
    "        ";
    "        CONTEXTO: "]
  ++ context_or_general analysis_text
  ++ text ["";
    "        ";
    "        INSTRUÇÕES:";
    "        - Escreva 400-450 palavras";
    "        - Analise aspectos práticos e teóricos";
    "        - Discuta implicações e consequências";
    "        - Mencione jurisprudência relevante";
    "        - NÃO use subseções ou subtítulos";
    "        - Escreva um texto corrido e fluido";
    "        ";
    "        Escreva apenas a análise, sem títulos ou seções.";
    "        "].

Definition streaming_conclusion_prompt (query analysis_text : str) : str :=
  text ["";
    "        Escreva uma CONCLUSÃO sobre: "]
  ++ query
  ++ text ["";
    "        ";
    "        CONTEXTO: "]
  ++ context_or_general analysis_text
  ++ text ["";
    "        ";
    "        INSTRUÇÕES:";
    "        - Escreva 250-300 palavras";
    "        - Sintetize os pontos principais";
    "        - Forneça orientações práticas";
    "        - Sugira próximos passos";
    "        - NÃO use subseções ou subtítulos";
    "        - Escreva um texto corrido e fluido";
    "        ";
    "        Escreva apenas a conclusão, sem títulos ou seções.";
    "        "].

(** ** The per-section tables *)

(** The prompt of the call that writes section [sec]. *)
Definition section_prompt (v : Variant) (sec : SectionId)
    (query analysis_text : str) : str :=
  match v, sec with
  | FourParts, Introduction => intro_prompt query analysis_text
  | FourParts, Development => dev_prompt query analysis_text
  | FourParts, DetailedAnalysis => analysis_prompt query analysis_text
  | FourParts, Conclusion => conclusion_prompt query analysis_text
  | Streaming, Introduction => streaming_intro_prompt query analysis_text
  | Streaming, Development => streaming_dev_prompt query analysis_text
  | Streaming, DetailedAnalysis => streaming_analysis_prompt query analysis_text
  | Streaming, Conclusion => streaming_conclusion_prompt query analysis_text
  end.

(** The word-count floor under which section [sec] is sent back. *)
Definition section_floor (v : Variant) (sec : SectionId) : nat :=
  match v, sec with
  | FourParts, Introduction => 200
  | FourParts, Development => 400
  | FourParts, DetailedAnalysis => 400
  | FourParts, Conclusion => 250
  | Streaming, Introduction => 150
  | Streaming, Development => 250
  | Streaming, DetailedAnalysis => 300
  | Streaming, Conclusion => 200
  end.

(** The prompt of the second call, built around the short section. *)
Definition expansion_prompt (v : Variant) (sec : SectionId) (section : str)
    : str :=
  match v, sec with
  | FourParts, Introduction => intro_expand_prompt section
  | FourParts, Development => dev_expand_prompt section
  | FourParts, DetailedAnalysis => analysis_expand_prompt section
  | FourParts, Conclusion => conclusion_expand_prompt section
  | Streaming, Introduction =>
    lit "Reescreva esta introdução com mais detalhes (200-250 palavras): " ++ section
  | Streaming, Development =>
    lit "Reescreva este desenvolvimento com mais detalhes (350-400 palavras): " ++ section
  | Streaming, DetailedAnalysis =>
    lit "Reescreva esta análise com mais detalhes (400-450 palavras): " ++ section
  | Streaming, Conclusion =>
    lit "Reescreva esta conclusão com mais detalhes (250-300 palavras): " ++ section
  end.

(** ** The synthesis functions *)

(** The block that the source writes out once per section: one call for
    the section, its word count, and below the floor one more call that is
    handed the short section. *)
Definition synthesize_section (v : Variant) (sec : SectionId)
    (query analysis_text : str) : M str :=
  result <- agent_run final_synthesizer_agent
              (section_prompt v sec query analysis_text) ;;
  let section := strip result in
  if (word_count section <? section_floor v sec)%nat
  then
    expand_result <- agent_run final_synthesizer_agent
                       (expansion_prompt v sec section) ;;
    ret (strip expand_result)
  else ret section.

Definition create_fallback_response (query analysis_text : str) : str :=
  text ["";
    "Com base na consulta apresentada sobre "]
  ++ [quote]
  ++ query
  ++ [quote]
  ++ text [", podemos abordar os aspectos fundamentais do tema solicitado. O direito brasileiro oferece diversos mecanismos e institutos jurídicos para tratar questões como esta, sendo importante compreender tanto os aspectos teóricos quanto práticos da matéria.";
    "";
    "A legislação brasileira, incluindo a Constituição Federal, códigos específicos e leis complementares, estabelece o arcabouço normativo necessário para o tratamento adequado da questão. É fundamental considerar a hierarquia das normas e a jurisprudência consolidada dos tribunais superiores.";
    "";
    "Na prática, a implementação dos conceitos jurídicos requer atenção aos procedimentos estabelecidos, prazos legais e formalidades específicas. Cada caso concreto pode apresentar particularidades que influenciam na aplicação das normas gerais.";
    "";
    ""]
  ++ match analysis_text with
     | [] => lit "Baseado em conhecimento jurídico geral sobre o tema, é importante considerar que"
     | _ => upto 300 analysis_text
     end
  ++ text [" a matéria demanda análise cuidadosa das circunstâncias específicas.";
    "";
    "É essencial observar que o direito é uma ciência dinâmica, sujeita a interpretações e mudanças legislativas. Precedentes judiciais e orientações dos órgãos competentes devem ser considerados na análise de casos específicos.";
    "";
    "Para situações concretas, recomenda-se consultar legislação atualizada, verificar jurisprudência recente, analisar particularidades do caso e buscar orientação profissional especializada.";
    "";
    "Esta resposta tem caráter informativo e educacional, não constituindo assessoria jurídica específica. Para questões particulares, é indispensável consultar um advogado devidamente habilitado que possa analisar as circunstâncias específicas do caso e fornecer orientação personalizada.";
    ""].

Definition synthesize_with_openrouter_fallback (query analysis_text : str)
    : M str :=
  try_except
    (let synthesis_prompt :=
       text ["";
         "        PERGUNTA: "]
       ++ query
       ++ text ["";
         "        ";
         "        CONTEXTO: "]
       ++ context_or_general analysis_text
       ++ text ["";
         "        ";
         "        Crie uma resposta jurídica completa e detalhada com aproximadamente 400 palavras.";
         "        ";
         "        Inclua:";
         "        - Explicação clara do conceito";
         "        - Fundamentação legal aplicável  ";
         "        - Exemplos práticos";
         "        - Considerações importantes";
         "        - Orientações para próximos passos";
         "        - Disclaimer sobre assessoria jurídica";
         "        ";
         "        Use texto corrido e fluido, sem subseções marcadas.";
         "        "] in
     synthesis_result <- agent_run final_synthesizer_agent synthesis_prompt ;;
     let response_text := strip synthesis_result in
     if (200 <=? length response_text)%nat
     then ret response_text
     else ret (create_fallback_response query analysis_text))
    (fun e => ret (create_fallback_response query analysis_text)).

Definition synthesize_with_openrouter_4_parts (query analysis_text : str)
    : M str :=
  try_except
    (introduction <- synthesize_section FourParts Introduction query analysis_text ;;
     development <- synthesize_section FourParts Development query analysis_text ;;
     detailed_analysis <-
       synthesize_section FourParts DetailedAnalysis query analysis_text ;;
     conclusion <- synthesize_section FourParts Conclusion query analysis_text ;;
     let final_response :=
       text ["## INTRODUÇÃO";
         "";
         ""]
       ++ introduction
       ++ text ["";
         "";
         "## DESENVOLVIMENTO";
         "";
         ""]
       ++ development
       ++ text ["";
         "";
         "## ANÁLISE DETALHADA";
         "";
         ""]
       ++ detailed_analysis
       ++ text ["";
         "";
         "## CONCLUSÃO";
         "";
         ""]
       ++ conclusion in
     ret final_response)
    (fun e => synthesize_with_openrouter_fallback query analysis_text).

Definition synthesize_with_openrouter : str -> str -> M str :=
  synthesize_with_openrouter_4_parts.

(** An asynchronous generator whose body is a [try] around a sequence of
    steps, each ending in a [yield]: the chunks yielded so far stay
    yielded, the handler yields one last chunk. The result is the list of
    chunks a consumer that exhausts the generator receives. *)
Fixpoint yield_each (steps : list (M str)) (on_error : exn -> str)
    : M (list str) :=
  match steps with
  | [] => ret []
  | step :: rest =>
    r <- try_except (chunk <- step ;; ret (inl chunk)) (fun e => ret (inr e)) ;;
    match r with
    | inl chunk => chunks <- yield_each rest on_error ;; ret (chunk :: chunks)
    | inr e => ret [on_error e]
    end
  end.

Definition synthesize_with_openrouter_streaming (query analysis_text : str)
    : M (list str) :=
  yield_each
    [ (introduction <- synthesize_section Streaming Introduction query analysis_text ;;
       ret (text ["## INTRODUÇÃO"; ""; ""] ++ introduction ++ text [""; ""; ""]));
      (development <- synthesize_section Streaming Development query analysis_text ;;
       ret (text ["## DESENVOLVIMENTO"; ""; ""] ++ development ++ text [""; ""; ""]));
      (detailed_analysis <-
         synthesize_section Streaming DetailedAnalysis query analysis_text ;;
       ret (text ["## ANÁLISE DETALHADA"; ""; ""] ++ detailed_analysis
            ++ text [""; ""; ""]));
      (conclusion <- synthesize_section Streaming Conclusion query analysis_text ;;
       ret (text ["## CONCLUSÃO"; ""; ""] ++ conclusion)) ]
    (fun e => lit "❌ Erro na síntese: " ++ exn_msg e).

(* ===================================================================== *)
(** * Quality validator, guardrail checker and the hybrid run *)
(* ===================================================================== *)

Definition with_overall_score (x : pyfloat) (qa : QualityAssessment) :=
  mkQualityAssessment x (completeness qa) (accuracy qa) (clarity qa)
    (needs_improvement qa) (improvement_suggestions qa)
    (needs_human_review qa) (review_reason qa).

Definition with_completeness (x : pyfloat) (qa : QualityAssessment) :=
  mkQualityAssessment (overall_score qa) x (accuracy qa) (clarity qa)
    (needs_improvement qa) (improvement_suggestions qa)
    (needs_human_review qa) (review_reason qa).

Definition with_accuracy (x : pyfloat) (qa : QualityAssessment) :=
  mkQualityAssessment (overall_score qa) (completeness qa) x (clarity qa)
    (needs_improvement qa) (improvement_suggestions qa)
    (needs_human_review qa) (review_reason qa).

Definition with_clarity (x : pyfloat) (qa : QualityAssessment) :=
  mkQualityAssessment (overall_score qa) (completeness qa) (accuracy qa) x
    (needs_improvement qa) (improvement_suggestions qa)
    (needs_human_review qa) (review_reason qa).

Definition with_needs_improvement (b : bool) (qa : QualityAssessment) :=
  mkQualityAssessment (overall_score qa) (completeness qa) (accuracy qa)
    (clarity qa) b (improvement_suggestions qa)
    (needs_human_review qa) (review_reason qa).

Definition with_suggestion (s : str) (qa : QualityAssessment) :=
  mkQualityAssessment (overall_score qa) (completeness qa) (accuracy qa)
    (clarity qa) (needs_improvement qa) (improvement_suggestions qa ++ [s])
    (needs_human_review qa) (review_reason qa).

Definition with_needs_human_review (b : bool) (qa : QualityAssessment) :=
  mkQualityAssessment (overall_score qa) (completeness qa) (accuracy qa)
    (clarity qa) (needs_improvement qa) (improvement_suggestions qa)
    b (review_reason qa).

Definition with_review_reason (s : str) (qa : QualityAssessment) :=
  mkQualityAssessment (overall_score qa) (completeness qa) (accuracy qa)
    (clarity qa) (needs_improvement qa) (improvement_suggestions qa)
    (needs_human_review qa) s.

(** The values the parsing loop of [validate_with_openrouter] starts from. *)
Definition quality_defaults : QualityAssessment :=
  mkQualityAssessment (FFinite (8 # 10)) (FFinite (8 # 10)) (FFinite (8 # 10))
    (FFinite (8 # 10)) false [] false (lit "Avaliação automática concluída").

(** The assessment returned by the [except] branch. *)
Definition quality_error_default : QualityAssessment :=
  mkQualityAssessment (FFinite (75 # 100)) (FFinite (8 # 10))
    (FFinite (8 # 10)) (FFinite (7 # 10)) false
    [lit "Validação automática falhou - revisão recomendada"]
    false (lit "Erro no sistema de validação").

Section Validators.
Context `{PyBuiltins}.

(** [float(line.split(':')[1].strip())] under [try: ... except: pass]. *)
Definition score_of (line : str) : option pyfloat :=
  second_field line ≫= (fun f => py_float (strip f)).

(** One iteration of the parsing loop of [validate_with_openrouter]. *)
Definition quality_line (acc : QualityAssessment) (line : str)
    : QualityAssessment :=
  if contains (lit "SCORE_GERAL:") line then
    match score_of line with Some x => with_overall_score x acc | None => acc end
  else if contains (lit "COMPLETUDE:") line then
    match score_of line with Some x => with_completeness x acc | None => acc end
  else if contains (lit "PRECISAO:") line then
    match score_of line with Some x => with_accuracy x acc | None => acc end
  else if contains (lit "CLAREZA:") line then
    match score_of line with Some x => with_clarity x acc | None => acc end
  else if contains (lit "PRECISA_MELHORIA:") line then
    with_needs_improvement (contains (lit "SIM") (upper line)) acc
  else if contains (lit "PRECISA_REVISAO_HUMANA:") line then
    with_needs_human_review (contains (lit "SIM") (upper line)) acc
  else if contains (lit "MOTIVO_REVISAO:") line then
    (* line.split(':', 1)[1].strip(): the label supplies the colon *)
    with_review_reason (strip (default [] (after_first colon line))) acc
  else if is_bullet line then
    with_suggestion (bullet_text line) acc
  else acc.

Definition validation_prompt (response_text : str) : str :=
  text ["";
    "        Avalie esta resposta jurídica nos critérios de qualidade:";
    "        ";
    "        RESPOSTA A AVALIAR:";
    "        "]
  ++ upto 1500 response_text
  ++ text ["...";
    "        ";
    "        Avalie objetivamente:";
    "        1. Completude - Aborda todos os aspectos necessários?";
    "        2. Precisão - As informações jurídicas estão corretas?";
    "        3. Clareza - A linguagem é compreensível?";
    "        4. Estrutura - A organização está adequada?";
    "        ";
    "        Forneça scores de 0.0 a 1.0 e sugestões de melhoria.";
    "        "].

Definition validate_with_openrouter (response_text : str)
    : M QualityAssessment :=
  try_except
    (response_text_val <-
       agent_run quality_validator_agent (validation_prompt response_text) ;;
     let lines := split_on newline response_text_val in
     lift (QualityAssessment_init (fold_left quality_line lines quality_defaults)))
    (fun e => ret quality_error_default).

(** One iteration of the parsing loop of
    [check_guardrails_with_openrouter]; the risk level is kept as parsed
    and lower-cased when the result is built. *)
Definition guardrail_line (acc : GuardrailCheck) (line : str) : GuardrailCheck :=
  if contains (lit "PASSOU_VERIFICACAO:") line then
    mkGuardrailCheck (contains (lit "SIM") (upper line)) (violations acc)
      (overall_risk_level acc)
  else if contains (lit "NIVEL_RISCO:") line then
    (* line.split(':')[1].strip().upper(): the label supplies the colon *)
    mkGuardrailCheck (passed acc) (violations acc)
      (upper (strip (default [] (second_field line))))
  else if is_bullet line then
    mkGuardrailCheck (passed acc) (violations acc ++ [bullet_text line])
      (overall_risk_level acc)
  else acc.

Definition guardrail_prompt (response_text : str) : str :=
  text ["";
    "        Verifique se esta resposta jurídica segue as diretrizes éticas:";
    "        ";
    "        RESPOSTA A VERIFICAR:";
    "        "]
  ++ upto 1000 response_text
  ++ text ["...";
    "        ";
    "        VERIFICAÇÕES OBRIGATÓRIAS:";
    "        1. Inclui disclaimers sobre assessoria jurídica?";
    "        2. Não faz afirmações categóricas sobre casos específicos?";
    "        3. Sugere orientação profissional quando necessário?";
    "        4. Mantém neutralidade em questões controversas?";
    "        5. Não promove atividades ilegais?";
    "        ";
    "        Identifique violações e avalie o nível de risco geral.";
    "        "].

Definition check_guardrails_with_openrouter (response_text : str)
    : M GuardrailCheck :=
  try_except
    (response_text_guard <-
       agent_run guardrail_checker_agent (guardrail_prompt response_text) ;;
     let lines := split_on newline response_text_guard in
     let parsed :=
       fold_left guardrail_line lines (mkGuardrailCheck true [] (lit "BAIXO")) in
     ret (mkGuardrailCheck (passed parsed) (violations parsed)
            (lower (overall_risk_level parsed))))
    (fun e =>
       ret (mkGuardrailCheck true
              [lit "Sistema de guardrails falhou: " ++ exn_msg e]
              (lit "medium"))).

Definition hybrid_disclaimer : str :=
  lit "Esta resposta foi gerada por sistema de IA integrado e está suscetível a erro. Para qualquer conclusão e tomada de descisão procure um advogado credenciado e qualificado.".

Definition hybrid_failure_summary : str :=
  lit "Desculpe, ocorreu um erro no sistema híbrido durante o processamento da sua consulta jurídica. O sistema OpenRouter + Groq encontrou dificuldades técnicas que impediram a conclusão da análise. Este tipo de erro pode ser temporário e recomendamos tentar novamente em alguns minutos. Se o problema persistir, entre em contato com o suporte técnico para assistência especializada.".

(** The warnings of the response of a completed run: the validator's
    suggestions when it asks for improvement, then one entry per guardrail
    violation when the guardrails did not pass. *)
Definition advisory_warnings (quality_assessment : QualityAssessment)
    (guardrail_check : GuardrailCheck) : list str :=
  (if needs_improvement quality_assessment
   then improvement_suggestions quality_assessment else [])
  ++ (if negb (passed guardrail_check)
      then List.map (fun violation => lit "Atenção: " ++ violation)
             (violations guardrail_check)
      else []).

(** Stages 1 to 4 of [process_legal_query_hybrid_corrected]: search
    decision, vector search, tool searches, analysis, synthesis. The parsed
    search decision is only logged by the source, and its parser cannot
    raise, so only the call is kept. *)
Definition gather_and_synthesize (query : LegalQuery) : M str :=
  decision_text <- agent_run search_decision_agent
    (lit "Analise esta consulta jurídica e decida quais buscas realizar: "
     ++ lq_text query) ;;
  vectordb_results <- execute_vectordb_search_openrouter (lq_text query) ;;
  groq_results <- execute_groq_searches (lq_text query) ;;
  analysis_text <-
    analyze_with_openrouter (lq_text query) vectordb_results groq_results ;;
  synthesize_with_openrouter (lq_text query) analysis_text.

(** Stages 5 and 6 and the construction of the response. *)
Definition validate_and_respond (query : LegalQuery) (response_text : str)
    : M FinalResponse :=
  quality_assessment <- validate_with_openrouter response_text ;;
  guardrail_check <- check_guardrails_with_openrouter response_text ;;
  final_response <- lift
    (FinalResponse_init
       (Some (lq_id query))
       (Some response_text)
       (Some (overall_score quality_assessment))
       (Some (completeness quality_assessment))
       (Some hybrid_disclaimer)
       (Some (if needs_improvement quality_assessment
              then improvement_suggestions quality_assessment else []))
       (Some COMPLETED)) ;;
  (* if not guardrail_check.passed: final_response.warnings.append(...) *)
  ret {| query_id := query_id final_response;
         overall_summary := overall_summary final_response;
         overall_confidence := overall_confidence final_response;
         completeness_score := completeness_score final_response;
         disclaimer := disclaimer final_response;
         warnings :=
           warnings final_response
           ++ (if negb (passed guardrail_check)
               then List.map (fun violation => lit "Atenção: " ++ violation)
                      (violations guardrail_check)
               else []);
         status := status final_response;
         validated := validated final_response;
         human_reviewed := human_reviewed final_response |}.

Definition process_legal_query_hybrid_corrected (query : LegalQuery)
    : M FinalResponse :=
  try_except
    (response_text <- gather_and_synthesize query ;;
     validate_and_respond query response_text)
    (fun e =>
       lift (FinalResponse_init
               (Some (lq_id query))
               (Some hybrid_failure_summary)
               None None
               (Some (lit "Sistema indisponível. Tente novamente mais tarde."))
               (Some [lit "Falha no sistema híbrido OpenRouter + Groq"])
               (Some FAILED))).

End Validators.

(* ===================================================================== *)
(** * The synthesis node
      ([src/agents/streaming/response_synthesizer.py]) *)
(* ===================================================================== *)

Record SimpleFinalResponse := mkSimpleFinalResponse {
  sfr_overall_summary : str;
  sfr_disclaimer : str;
}.

Definition missing_query_summary : str :=
  lit "Erro interno: Query original não encontrada. O sistema não conseguiu processar adequadamente a consulta jurídica solicitada. Este erro indica um problema técnico que deve ser reportado ao suporte para investigação e correção.".

Definition emergency_summary : str :=
  lit "O sistema encontrou dificuldades técnicas ao processar sua consulta jurídica. Este erro pode estar relacionado à complexidade da consulta ou a problemas temporários de conectividade com os serviços de IA. Tente reformular sua pergunta de forma mais específica ou tente novamente em alguns minutos. Para orientação jurídica imediata, consulte um advogado especializado.".

Section Synthesizer.
Context `{PyBuiltins}.

(** The synthesis call of the node, [synthesize_with_hybrid_corrected_approach],
    and the three prompt formatters are taken as given: the call is any
    computation that returns a [SimpleFinalResponse] or raises, the
    formatters any functions of the lists they format. *)
Variable synthesize_with_hybrid_corrected_approach :
  str -> str -> str -> str -> M SimpleFinalResponse.
Variable format_crag_docs_for_prompt : list DocumentSnippet -> str.
Variable format_tavily_results_for_prompt : list TavilySearchResult -> str.
Variable format_lexml_results_for_prompt : list LexMLDocumento -> str.

(** [f(xs) if xs else fallback] *)
Definition format_or {A} (f : list A -> str) (xs : option (list A))
    (fallback : string) : str :=
  match xs with
  | Some (x :: xs') => f (x :: xs')
  | _ => lit fallback
  end.

Definition synthesize_response (state : AgentState) : M AgentState :=
  match get (st_query state) with
  | None =>
    (* if not query_object *)
    error_response <- lift
      (FinalResponse_init
         (Some (lit "unknown"))
         (Some missing_query_summary)
         None None
         (Some (lit "Este é um erro técnico do sistema. Para orientação jurídica, consulte um advogado especializado."))
         None None) ;;
    ret (update_error_final_response (lit "Query não encontrada") error_response)
  | Some query_object =>
    let query_text := lq_text query_object in
    let formatted_crag :=
      format_or format_crag_docs_for_prompt (get (st_retrieved_docs state))
        "Nenhum documento CRAG" in
    let formatted_tavily :=
      format_or format_tavily_results_for_prompt (get (st_tavily_results state))
        "Nenhuma busca web" in
    let formatted_lexml :=
      format_or format_lexml_results_for_prompt (get (st_lexml_results state))
        "Nenhuma jurisprudência" in
    try_except
      (llm_response <-
         synthesize_with_hybrid_corrected_approach
           query_text formatted_crag formatted_tavily formatted_lexml ;;
       final_response <- lift
         (FinalResponse_init
            (Some (lq_id query_object))
            (Some (sfr_overall_summary llm_response))
            None None
            (Some (sfr_disclaimer llm_response))
            None None) ;;
       ret (update_final_response final_response))
      (fun e =>
         emergency_response <- lift
           (FinalResponse_init
              (Some (lq_id query_object))
              (Some emergency_summary)
              None None
              (Some (lit "Resposta de erro técnico. Este sistema utiliza IA para assistência jurídica, mas não substitui consulta profissional com advogado especializado."))
              None None) ;;
         ret (update_error_final_response (exn_msg e) emergency_response))
  end.

End Synthesizer.

(* ===================================================================== *)
(** * A concrete instance of the built-ins

    Used to run the definitions on examples. Case mapping covers the Basic
    Latin and Latin-1 Supplement blocks (the alphabet of the prompts and
    answers) and the code points the grader's pattern can match. The
    parser of floats follows the grammar of [float] on strings with ASCII
    digits and keeps the value of a numeral exactly, as [pyfloat] does;
    the parser of integers accepts plain decimal numerals. *)
(* ===================================================================== *)

Definition lower_char (c : N) : str :=
  if ((65 <=? c) && (c <=? 90)) || ((192 <=? c) && (c <=? 222) && negb (c =? 215))
  then [c + 32]
  else if c =? 304 then [105; 775]
  else [c].

Definition upper_char (c : N) : str :=
  if ((97 <=? c) && (c <=? 122)) || ((224 <=? c) && (c <=? 254) && negb (c =? 247))
  then [c - 32]
  else if c =? 223 then [83; 83]
  else if c =? 255 then [376]
  else if c =? 181 then [924]
  else if c =? 305 then [73]
  else if c =? 383 then [83]
  else [c].

Definition is_digit (c : N) : bool := (48 <=? c) && (c <=? 57).

(** The value of a run of decimal digits, most significant first. *)
Definition digits_value (ds : str) : Z :=
  fold_left (fun acc d => (10 * acc + Z.of_N (d - 48))%Z) ds 0%Z.

Definition all_digits (ds : str) : bool := forallb is_digit ds.

(** [[+-]digits] *)
Definition decimal_int (s : str) : option Z :=
  let '(negative, body) :=
    match strip s with
    | 45 :: r => (true, r)
    | 43 :: r => (false, r)
    | r => (false, r)
    end in
  match body with
  | [] => None
  | _ =>
    if all_digits body
    then Some (if negative then (- digits_value body)%Z else digits_value body)
    else None
  end.

(** [digitpart] of the number grammar: digits, with single underscores
    allowed between two digits. The result is the digits. *)
Fixpoint digitpart_from (after_digit : bool) (s : str) : option str :=
  match s with
  | [] => if after_digit then Some [] else None
  | c :: r =>
    if is_digit c then cons c <$> digitpart_from true r
    else if (c =? 95) && after_digit
    then match r with
         | d :: _ => if is_digit d then digitpart_from false r else None
         | [] => None
         end
    else None
  end.

Definition digitpart (s : str) : option str := digitpart_from false s.

(** The part before the first character that satisfies [p], and the part
    after it when there is such a character. *)
Fixpoint split_at_first (p : N -> bool) (s : str) : str * option str :=
  match s with
  | [] => ([], None)
  | c :: r =>
    if p c then ([], Some r)
    else let '(before, after) := split_at_first p r in (c :: before, after)
  end.

Definition ascii_lower (c : N) : N :=
  if (65 <=? c) && (c <=? 90) then c + 32 else c.

(** An optional sign and what follows it. *)
Definition split_sign (s : str) : bool * str :=
  match s with
  | 45 :: r => (true, r)
  | 43 :: r => (false, r)
  | r => (false, r)
  end.

(** The digits of [whole[.frac]] and the number of digits of [frac]; one of
    the two parts may be missing, not both. *)
Definition mantissa_digits (mantissa : str) : option (str * nat) :=
  match split_at_first (fun c => c =? 46) mantissa with
  | (whole, None) => (fun ds => (ds, 0%nat)) <$> digitpart whole
  | (whole, Some frac) =>
    match whole, frac with
    | [], [] => None
    | _, _ =>
      ws ← (match whole with [] => Some [] | _ => digitpart whole end) ;
      fs ← (match frac with [] => Some [] | _ => digitpart frac end) ;
      Some (ws ++ fs, length fs)
    end
  end.

(** The value of [mantissa e exponent] as an exact rational. *)
Definition scaled (negative : bool) (ds : str) (frac_digits : nat)
    (exponent : Z) : Q :=
  let m := if negative then (- digits_value ds)%Z else digits_value ds in
  let e := (exponent - Z.of_nat frac_digits)%Z in
  if (0 <? e)%Z then Qmake (m * 10 ^ e) 1
  else Qmake m (Z.to_pos (10 ^ (- e))).

(** Where the nearest double is an infinity or zero, the value is that;
    elsewhere the exact value is kept, so a numeral of more digits than a
    double holds is not rounded to the nearest double. *)
Definition in_double_range (q : Q) : pyfloat :=
  let magnitude := Qmake (Z.abs (Qnum q)) (Qden q) in
  if Qle_bool (Qmake (2 ^ 1024 - 2 ^ 970) 1) magnitude
  then FInf (negb (Qle_bool 0 q))
  else if Qle_bool magnitude (Qmake 1 (Z.to_pos (2 ^ 1075)))
  then FFinite 0
  else FFinite q.

(** [float(s)] on a string: surrounding whitespace, an optional sign, then
    [inf], [infinity] or [nan] in any case, or a decimal numeral with an
    optional exponent. Digits are the ASCII ones. *)
Definition decimal_float (s : str) : option pyfloat :=
  let '(negative, body) := split_sign (strip s) in
  let name := List.map ascii_lower body in
  if str_eqb name (lit "inf") || str_eqb name (lit "infinity")
  then Some (FInf negative)
  else if str_eqb name (lit "nan") then Some FNaN
  else
    let '(mantissa, exponent) :=
      split_at_first (fun c => (c =? 101) || (c =? 69)) body in
    '(ds, frac_digits) ← mantissa_digits mantissa ;
    e ← (match exponent with
         | None => Some 0%Z
         | Some exponent =>
           let '(negative_exponent, exponent_digits) := split_sign exponent in
           (fun es => if negative_exponent then (- digits_value es)%Z
                      else digits_value es) <$> digitpart exponent_digits
         end) ;
    Some (in_double_range (scaled negative ds frac_digits e)).

Definition quoted (s : str) : str := [39] ++ s ++ [39].

Definition latin1_builtins : PyBuiltins :=
  {| lower := flat_map lower_char;
     upper := flat_map upper_char;
     py_float := decimal_float;
     py_int := decimal_int;
     repr_list := fun l =>
       lit "[" ++ join (lit ", ") (List.map quoted l) ++ lit "]";
     repr_dict := fun d =>
       lit "{" ++ join (lit ", ")
         (List.map (fun kv => quoted (lit (fst kv)) ++ lit ": " ++ quoted (snd kv))
            (map_to_list d))
       ++ lit "}" |}.

(** A world that answers every call with the same text. *)
Definition constant_world (answer : str) : World := fun _ _ => Ok answer.

(** A world that answers from a script: the n-th call of the run gets the
    n-th entry, and calls beyond the script raise. *)
Definition scripted_world (script : list (Result str)) : World :=
  fun log _ =>
    default (Exc (mkExn RuntimeError (lit "no more answers")))
      (script !! length log).

(* ===================================================================== *)
(** * Vocabulary of the statements *)
(* ===================================================================== *)

(** The instance left by a sequence of attempted assignments. *)
Definition after_assignments (self : RetryableError)
    (attempts : list RetryableError_assignment) : RetryableError :=
  fold_left (fun r a => snd (RetryableError_setattr r a)) attempts self.

(** A state whose retrieval is empty: the key is missing, holds [None], or
    holds the empty list. *)
Definition empty_retrieval (state : AgentState) : Prop :=
  get (st_retrieved_docs state) = None \/ get (st_retrieved_docs state) = Some [].

(** [sub] occurs in [s] as it stands. *)
Definition verbatim_in (sub s : str) : Prop :=
  exists before after, s = before ++ sub ++ after.

(** The outcome and the log of a run. *)
Definition outcome {A} (c : M A) (w : World) (log : list Call) : Result A :=
  fst (c w log).
Definition log_after {A} (c : M A) (w : World) (log : list Call) : list Call :=
  snd (c w log).

(** A line of validator output that carries none of the score or flag
    labels. *)
Definition unlabelled (line : str) : Prop :=
  contains (lit "SCORE_GERAL:") line = false
  /\ contains (lit "COMPLETUDE:") line = false
  /\ contains (lit "PRECISAO:") line = false
  /\ contains (lit "CLAREZA:") line = false
  /\ contains (lit "PRECISA_MELHORIA:") line = false
  /\ contains (lit "PRECISA_REVISAO_HUMANA:") line = false.

(** A state with an empty retrieval and nothing else. *)
Definition state_with_no_documents : AgentState :=
  mkAgentState Absent (Val []) Absent Absent Absent Absent Absent Absent Absent.

Definition sample_query : LegalQuery :=
  mkLegalQuery (lit "q-1")
    (lit "Quais são os requisitos para excluir um sócio minoritário?")
    MEDIUM PENDING.

Definition three_word_sentence : str := lit "Uma frase curta.".

Definition eight_equal_words : str :=
  lit "abcdefghijkl. abcdefghijkl. abcdefghijkl. abcdefghijkl. abcdefghijkl. abcdefghijkl. abcdefghijkl. abcdefghijkl.".

(** One sentence without a final full stop; its only full stop is the one
    of the abbreviation. *)
Definition one_sentence_with_abbreviation : str :=
  lit "Conforme o art. 1085 do Código Civil a exclusão de sócio minoritário exige justa causa comprovada em assembleia".

(** Validator output with a score above 1. *)
Definition score_out_of_range : str :=
  text ["SCORE_GERAL: 1.5"; "PRECISA_MELHORIA: SIM"].

Definition shrinking_world : World :=
  scripted_world [Ok (lit "duas palavras"); Ok (lit "uma")].

Definition timing_out_world : World :=
  fun _ _ => Exc (mkExn TimeoutError []).

(** The part of an assessment that the labelled lines decide. *)
Definition same_scores_and_flags (a b : QualityAssessment) : Prop :=
  overall_score a = overall_score b
  /\ completeness a = completeness b
  /\ accuracy a = accuracy b
  /\ clarity a = clarity b
  /\ needs_improvement a = needs_improvement b
  /\ needs_human_review a = needs_human_review b.

Definition unformatted_answer : str := lit "resposta sem formato".

Definition sample_answer : str :=
  lit "A exclusão de sócio minoritário exige justa causa comprovada. O contrato social deve prever o procedimento aplicável.".

(** A world in which the validator asks for improvement and the
    guardrails do not pass. *)
Definition critical_world : World :=
  fun _ c =>
    match call_agent c with
    | quality_validator_agent =>
      Ok (text ["SCORE_GERAL: 0.4"; "PRECISA_MELHORIA: SIM"; "- Citar artigos de lei"])
    | guardrail_checker_agent =>
      Ok (text ["PASSOU_VERIFICACAO: NAO"; "NIVEL_RISCO: ALTO"; "- Falta disclaimer"])
    | _ => Ok sample_answer
    end.

(** A world in which both validator calls raise. *)
Definition failing_validators_world : World :=
  fun _ c =>
    match call_agent c with
    | quality_validator_agent | guardrail_checker_agent =>
      Exc (mkExn RuntimeError (lit "indisponível"))
    | _ => Ok sample_answer
    end.

Definition result_or {A} (d : A) (r : Result A) : A :=
  match r with Ok a => a | Exc _ => d end.

(** A computation that issues at most [n] calls, whatever the world
    answers. *)
Definition at_most_calls {A} (n : nat) (c : M A) : Prop :=
  forall w log, (length (snd (c w log)) <= length log + n)%nat.

(* ===================================================================== *)
(** * Runs of the graph *)
(* ===================================================================== *)

(** The nodes to which the edges and routers lead from [node] on, when
    every node returns. The nodes are not executed here: [state_after n]
    stands for the state the machine holds when node [n] has finished. A
    node without successor ends the walk, [END] ends the run. A run in
    which the nodes are executed, and may raise, is [run_graph]. *)
Fixpoint walk (g : StateGraph) (fuel : nat)
    (state_after : string -> AgentState) (node : string) : list string :=
  match fuel with
  | O => []
  | S fuel' =>
    if String.eqb node END then [END]
    else node ::
         match successors g node (state_after node) with
         | next :: _ => walk g fuel' state_after next
         | [] => []
         end
  end.

(** The key [needs_web_search] holds [True]. *)
Definition wants_web (state : AgentState) : bool :=
  match st_needs_web_search state with
  | Val b => b
  | _ => false
  end.

(** A state with a query and one retrieved document. *)
Definition state_with_one_document : AgentState :=
  mkAgentState (Val sample_query)
    (Val [mkDocumentSnippet (lit "d-1") (lit "codigo-civil.pdf")
            (lit "Art. 1.085. A exclusão de sócio exige justa causa.") None])
    Absent Absent Absent Absent Absent Absent Absent.

(** A text made of pure ASCII. *)
Definition ascii_only (s : str) : Prop := Forall (fun c => c < 128) s.

(** The three grades the workflow knows. *)
Definition known_grades : list str :=
  [lit "relevant"; lit "irrelevant"; lit "needs_web_search"].



(** A generated section of two hundred words. *)
Definition two_hundred_words : str :=
  concat (replicate 200 (lit "palavra ")).


(** The characters of the grade names: lower-case ASCII letters and the
    underscore. *)
Definition grade_char (p : N) : bool :=
  ((97 <=? p) && (p <=? 122)) || (p =? 95).


(* ===================================================================== *)
(** * Prompt formatting of the synthesis node
      ([src/agents/streaming/response_synthesizer.py]) *)
(* ===================================================================== *)

(** The class [[\x00-\x1f\x7f-\x9f]]. *)
Definition is_control (c : N) : bool :=
  (c <=? 31) || ((127 <=? c) && (c <=? 159)).

(** [re.sub(cls+, ' ', s)] for a character class: every maximal run of
    characters of the class becomes one space. [in_run] tells that the
    previous character was of the class. *)
Fixpoint sub_runs_from (cls : N -> bool) (in_run : bool) (s : str) : str :=
  match s with
  | [] => []
  | c :: r =>
    if cls c
    then if in_run then sub_runs_from cls true r
         else 32 :: sub_runs_from cls true r
    else c :: sub_runs_from cls false r
  end.

Definition sub_runs (cls : N -> bool) (s : str) : str :=
  sub_runs_from cls false s.

Definition clean_text_for_json (text : str) : str :=
  match text with
  | [] => []
  | _ =>
    let text := List.filter (fun c => negb (is_control c)) text in
    let text := sub_runs (N.eqb 10) text in
    let text := sub_runs (N.eqb 13) text in
    let text := sub_runs is_space text in
    strip text
  end.

(** [s[:limit] + "..." if len(s) > limit else s] *)
Definition preview (limit : nat) (s : str) : str :=
  if (limit <? length s)%nat then upto limit s ++ lit "..." else s.

(** [f"{x}"] for an optional string. *)
Definition fstr (x : option str) : str :=
  match x with
  | Some s => s
  | None => lit "None"
  end.

(** The three formatters. Each is only called on a non-empty list; [None]
    is treated by the source like the empty list. *)
Definition format_crag_docs_for_prompt (docs : list DocumentSnippet) : str :=
  match docs with
  | [] => lit "Nenhum documento disponível."
  | _ =>
    join [newline]
      (imap (fun i doc =>
               let source_id := ds_source_id doc in
               let text_content := clean_text_for_json (ds_text doc) in
               let text_content := preview 200 text_content in
               lit "[" ++ str_of_nat (i + 1) ++ lit "] " ++ source_id
                 ++ lit ": " ++ text_content)
            (upto 10 docs))
  end.

Definition format_tavily_results_for_prompt
    (results : list TavilySearchResult) : str :=
  match results with
  | [] => lit "Nenhuma busca web realizada."
  | _ =>
    join [newline]
      (imap (fun i res =>
               let title := tv_title res in
               let content := clean_text_for_json (tv_content res) in
               let content := preview 100 content in
               lit "[Web " ++ str_of_nat (i + 1) ++ lit "] " ++ fstr title
                 ++ lit ": " ++ content)
            (upto 3 results))
  end.

Definition format_lexml_results_for_prompt
    (results : list LexMLDocumento) : str :=
  match results with
  | [] => lit "Nenhuma jurisprudência encontrada."
  | _ =>
    join [newline]
      (imap (fun i res =>
               let urn := lx_urn res in
               let ementa :=
                 match lx_ementa res with
                 | Some (c :: e) =>
                   (* if ementa: *)
                   Some (preview 150 (clean_text_for_json (c :: e)))
                 | other => other
                 end in
               lit "[Juris " ++ str_of_nat (i + 1) ++ lit "] " ++ fstr urn
                 ++ lit ": " ++ fstr ementa)
            (upto 3 results))
  end.

(** The first character, if any, is not whitespace. *)
Definition head_not_space (s : str) : bool :=
  match s with
  | d :: _ => negb (is_space d)
  | [] => true
  end.

(** Every whitespace character is a space that no whitespace follows. *)
Fixpoint loosely_spaced (s : str) : bool :=
  match s with
  | [] => true
  | c :: r =>
    (if is_space c then (c =? 32) && head_not_space r else true)
    && loosely_spaced r
  end.

(** Every whitespace character is a space followed by a character that is
    not whitespace: words separated by single spaces, with no space at the
    end. *)
Fixpoint single_spaced (s : str) : bool :=
  match s with
  | [] => true
  | c :: r =>
    (if is_space c
     then (c =? 32) && match r with d :: _ => negb (is_space d) | [] => false end
     else true)
    && single_spaced r
  end.

(** A text without control characters, made of words separated by single
    spaces. *)
Definition cleaned (s : str) : Prop :=
  Forall (fun c => is_control c = false) s
  /\ single_spaced s = true
  /\ head_not_space s = true.

(** A synthesis call that always raises. *)
Definition failing_synthesis : str -> str -> str -> str -> M SimpleFinalResponse :=
  fun _ _ _ _ => raise (mkExn RuntimeError (lit "API indisponível")).


(* ===================================================================== *)
(** * Construction of a query ([src/core/legal_models.py]) *)
(* ===================================================================== *)

(** [s.lstrip(chars)] and [s.strip(chars)] for a set of characters. *)
Fixpoint lstrip_chars (chars s : str) : str :=
  match s with
  | [] => []
  | c :: r => if existsb (N.eqb c) chars then lstrip_chars chars r else s
  end.

Definition strip_chars (chars s : str) : str :=
  rev (lstrip_chars chars (rev (lstrip_chars chars s))).

(** The validator of [LegalQuery.text]. *)
Definition validate_text_content (v : str) : Result str :=
  let v := strip v in
  if match v with [] => true | _ => false end
     || (length (strip_chars (lit ".,?!;:") v) <? 5)%nat
  then value_error "Consulta deve conter texto significativo"
  else Ok v.

(** The field [text]: the length constraints of the annotation apply to the
    value as passed, then the validator runs; its [ValueError] surfaces as
    a [ValidationError]. *)
Definition check_query_text (v : str) : Result str :=
  if (length v <? 10)%nat then validation_error "text: string_too_short"
  else if (5000 <? Z.of_nat (length v))%Z
  then validation_error "text: string_too_long"
  else match validate_text_content v with
       | Ok v' => Ok v'
       | Exc e => Exc (mkExn ValidationError (exn_msg e))
       end.

(** [LegalQuery(id=..., text=..., priority=..., status=...)]. The id is
    passed or drawn by the default factory; either way it is a given. *)
Definition LegalQuery_init (id text : str) (priority : option Priority)
    (status : option Status) : Result LegalQuery :=
  match check_query_text text with
  | Exc e => Exc e
  | Ok v =>
    Ok (mkLegalQuery id v (default MEDIUM priority) (default PENDING status))
  end.

(** [query.text = v]: the model validates assignments. *)
Definition LegalQuery_set_text (query : LegalQuery) (v : str)
    : Result LegalQuery :=
  match check_query_text v with
  | Exc e => Exc e
  | Ok v' =>
    Ok (mkLegalQuery (lq_id query) v' (lq_priority query) (lq_status query))
  end.


(* ===================================================================== *)
(** * The LexML client ([src/interfaces/external_search_client.py]) *)
(* ===================================================================== *)

Definition stop_words : list str :=
  List.map lit
    ["a"; "o"; "os"; "as"; "da"; "das"; "do"; "dos"; "de"; "e"; "em"; "para";
     "com"; "por"; "que"; "não"; "se"; "um"; "uma"; "na"; "no"; "como";
     "mais"; "sobre"; "pelo"; "pela"; "quero"; "gostaria"; "posso";
     "poderia"; "preciso"; "seria"; "fazer"; "da"; "de"; "maneira"; "forma";
     "correta"; "isso"].

(** [s.replace(c, '')] for a one-character [c]. *)
Definition remove_char (c : N) (s : str) : str :=
  List.filter (fun d => negb (d =? c)) s.

(** [list(dict.fromkeys(xs))]: the first occurrence of every element, in
    order. [seen] holds the keys already inserted. *)
Fixpoint fromkeys (seen xs : list str) : list str :=
  match xs with
  | [] => []
  | x :: r =>
    if existsb (str_eqb x) seen then fromkeys seen r
    else x :: fromkeys (x :: seen) r
  end.

(** The truth value of an optional string. *)
Definition truthy (x : option str) : bool :=
  match x with
  | Some (_ :: _) => true
  | _ => false
  end.

(** [f'tipoDocumento exact "{tipo}"'] *)
Definition tipo_documento_exact (tipo : str) : str :=
  lit "tipoDocumento exact " ++ [quote] ++ tipo ++ [quote].

(** A request to the SRU service and the service itself, as
    [_executar_busca_lexml] sees it: the documents it extracts from the
    answer and the total the answer reports. The function catches every
    exception and then returns [([], 0)], so a failing request or an answer
    that cannot be parsed is the answer [([], 0)]. The service may answer
    the same request differently at different times: it is given the
    requests made before. *)
Record LexMLRequest := mkLexMLRequest {
  rq_query : str;
  rq_maximumRecords : Z;
  rq_startRecord : Z;
}.

Definition LexMLService :=
  list LexMLRequest -> LexMLRequest -> list LexMLDocumento * Z.

Record LexMLSearchResponse := mkLexMLSearchResponse {
  documentos : list LexMLDocumento;
  total_encontrado : Z;
  termo_pesquisa_cql : str;
  start_record : Z;
  max_records : Z;
  query_original : option str;
}.

Definition palavras_importantes : list str :=
  List.map lit
    ["sociedade"; "sócio"; "direito"; "empresarial"; "jurisprudencia";
     "tribunal"].

Section LexMLClient.
Context `{PyBuiltins}.

(** [termo.lower().replace('?', '').replace('.', '').replace(',', '').split()] *)
Definition palavras_do_termo (termo : str) : list str :=
  split_ws (remove_char 44 (remove_char 46 (remove_char 63 (lower termo)))).

Definition _build_cql_query (termo : str) (tipo_documento : option str)
    : str :=
  let parts :=
    match termo with
    | [] => []
    | _ =>
      let palavras_chave :=
        List.filter
          (fun palavra =>
             negb (existsb (str_eqb palavra) stop_words)
             && (3 <? length palavra)%nat)
          (palavras_do_termo termo) in
      let palavras_chave_unicas := fromkeys [] palavras_chave in
      match palavras_chave_unicas with
      | [] => []
      | [palavra] => [palavra]
      | principal0 :: principal1 :: _ =>
        let termo_cql := principal0 ++ lit " AND " ++ principal1 in
        [lit "(" ++ termo_cql ++ lit ")"]
      end
    end in
  match parts with
  | [] => tipo_documento_exact (lit "jurisprudencia")
  | _ => join (lit " AND ") parts
  end.

Definition _executar_busca_lexml (service : LexMLService) (cql_query : str)
    (max_results start_record : Z) (log : list LexMLRequest)
    : list LexMLDocumento * Z * list LexMLRequest :=
  let request := mkLexMLRequest cql_query max_results start_record in
  (service log request, log ++ [request]).

(** [fallback_query], with [' AND tipoDocumento exact "..."'] appended when
    a document type was given. *)
Definition with_tipo_documento (fallback_query : str)
    (tipo_documento : option str) : str :=
  if truthy tipo_documento
  then fallback_query ++ lit " AND " ++ tipo_documento_exact (fstr tipo_documento)
  else fallback_query.

Definition buscar_jurisprudencia (service : LexMLService) (termo : str)
    (tipo_documento : option str) (max_results start_record : Z)
    (query_original : option str) (log : list LexMLRequest)
    : LexMLSearchResponse * list LexMLRequest :=
  let cql_query := _build_cql_query termo tipo_documento in
  let '(documentos, total_encontrado, log) :=
    _executar_busca_lexml service cql_query max_results start_record log in
  let '(documentos, total_encontrado, log) :=
    if (total_encontrado =? 0)%Z && negb (str_eqb termo [])
    then
      let palavras_relevantes :=
        List.filter (fun p => (4 <? length p)%nat) (palavras_do_termo termo) in
      let '(documentos, total_encontrado, log) :=
        match palavras_relevantes with
        | palavra_principal :: _ =>
          _executar_busca_lexml service
            (with_tipo_documento palavra_principal tipo_documento)
            max_results start_record log
        | [] => (documentos, total_encontrado, log)
        end in
      if (total_encontrado =? 0)%Z
      then
        let termo_clean := lower termo in
        let palavras_encontradas :=
          List.filter (fun p => contains p termo_clean) palavras_importantes in
        match palavras_encontradas with
        | palavra :: _ =>
          _executar_busca_lexml service
            (with_tipo_documento palavra tipo_documento)
            max_results start_record log
        | [] => (documentos, total_encontrado, log)
        end
      else (documentos, total_encontrado, log)
    else (documentos, total_encontrado, log) in
  let '(documentos, total_encontrado, log) :=
    if (total_encontrado =? 0)%Z && truthy tipo_documento
    then _executar_busca_lexml service
           (tipo_documento_exact (fstr tipo_documento))
           max_results start_record log
    else (documentos, total_encontrado, log) in
  let '(documentos, total_encontrado, log) :=
    if (total_encontrado =? 0)%Z
    then _executar_busca_lexml service (lit "direito")
           max_results start_record log
    else (documentos, total_encontrado, log) in
  ({| documentos := documentos;
      total_encontrado := total_encontrado;
      termo_pesquisa_cql := cql_query;
      start_record := start_record;
      max_records := max_results;
      query_original := query_original |},
   log).

(** A keyword of a search term: one of its words, longer than 3 characters
    and not a stop word. *)
Definition is_keyword (termo w : str) : Prop :=
  In w (palavras_do_termo termo)
  /\ (3 < length w)%nat
  /\ ~ In w stop_words.

End LexMLClient.

(** The answers of the service to a sequence of requests made one after
    the other. *)
Fixpoint replay (service : LexMLService) (log requests : list LexMLRequest)
    : list (list LexMLDocumento * Z) :=
  match requests with
  | [] => []
  | request :: rest =>
    service log request :: replay service (log ++ [request]) rest
  end.

(** A service that finds nothing. *)
Definition empty_service : LexMLService := fun _ _ => ([], 0%Z).


(* ===================================================================== *)
(** * The search nodes ([src/agents/query_transformer.py],
      [src/agents/search_coordinator.py]) *)
(* ===================================================================== *)

(** The further keys of the state that these nodes read or write. A node
    sees the pair of an [AgentState] and these keys, and returns such a
    pair as its partial update. *)
Record SearchKeys := mkSearchKeys {
  sk_current_query : entry str;
  sk_transformed_query : entry str;
  sk_needs_jurisprudencia : entry bool;
  sk_web_search_reasoning : entry str;
  sk_web_search_query : entry str;
  sk_evaluation_complete : entry bool;
  sk_web_search_skipped : entry bool;
  sk_web_search_performed : entry bool;
  sk_web_search_error : entry str;
}.

Definition no_keys : SearchKeys :=
  mkSearchKeys Absent Absent Absent Absent Absent Absent Absent Absent Absent.

Definition NodeUpdate : Type := AgentState * SearchKeys.

(** [state[key]]: the node goes on with the value, or the lookup of a
    missing key raises [KeyError] out of the node. *)
Inductive Lookup (A : Type) :=
| Found (a : A)
| KeyError (key : string).
Arguments Found {A} a.
Arguments KeyError {A} key.

(** [state.get(key, default)]: a key that holds [None] gives [None]. *)
Definition get_default {A} (d : A) (e : entry A) : option A :=
  match e with
  | Absent => Some d
  | PyNone => None
  | Val a => Some a
  end.

(** [{"current_query": q, "transformed_query": q}] *)
Definition update_current_query (new_query : str) : NodeUpdate :=
  (no_update,
   mkSearchKeys (Val new_query) (Val new_query) Absent Absent Absent Absent
     Absent Absent Absent).

(** [transform_query]. [transformer_agent] is the module-level agent,
    [None] when its construction raised at import; the output of a run is
    the [transformed_query] field of the structured answer. *)
Definition transform_query (transformer_agent : option AgentId)
    (state : AgentState) : M NodeUpdate :=
  match transformer_agent with
  | None => ret (no_update, no_keys)
  | Some agent =>
    match get (st_query state) with
    | None => ret (no_update, no_keys)
    | Some original_query =>
      let original_query_text := lq_text original_query in
      let agent_input_content :=
        lit "Pergunta Original do Usuário: " ++ original_query_text
        ++ [newline; newline]
        ++ lit "Reescreva esta pergunta para otimizar a busca." in
      try_except
        (new_query <- agent_run agent agent_input_content ;;
         ret (update_current_query new_query))
        (fun e => ret (no_update, no_keys))
    end
  end.

(** [{"lexml_results": docs, "needs_jurisprudencia": False}] *)
Definition update_lexml_results (docs : list LexMLDocumento) : NodeUpdate :=
  (mkAgentState Absent Absent Absent Absent (Val docs) Absent Absent Absent
     Absent,
   mkSearchKeys Absent Absent (Val false) Absent Absent Absent Absent Absent
     Absent).

Section SearchNodes.
Context `{PyBuiltins}.

(** [search_jurisprudencia]. The key [current_query] is indexed before the
    [try]. A [current_query] that holds [None] is passed on as the term;
    [buscar_jurisprudencia] only tests it for truth, as it does the empty
    string. *)
Definition search_jurisprudencia (service : LexMLService)
    (keys : SearchKeys) (log : list LexMLRequest)
    : Lookup NodeUpdate * list LexMLRequest :=
  match sk_current_query keys with
  | Absent => (KeyError "current_query", log)
  | current_query =>
    let termo := default [] (get current_query) in
    let '(response, log) :=
      buscar_jurisprudencia service termo (Some (lit "jurisprudencia")) 5 1
        (get current_query) log in
    (Found (update_lexml_results (documentos response)), log)
  end.

End SearchNodes.

(** The structured answer of the decision agent. *)
Record SearchDecision := mkSearchDecision {
  sd_needs_web_search : bool;
  sd_reasoning : str;
  sd_web_search_query : option str;
}.

(** The updates of [evaluate_search_necessity]. *)
Definition update_no_query : NodeUpdate :=
  (mkAgentState Absent Absent Absent Absent Absent (Val false) Absent Absent
     Absent,
   mkSearchKeys Absent Absent Absent Absent Absent (Val true) Absent Absent
     Absent).

Definition update_decision (decision : SearchDecision) : NodeUpdate :=
  (mkAgentState Absent Absent Absent Absent Absent
     (Val (sd_needs_web_search decision)) Absent Absent Absent,
   mkSearchKeys Absent Absent Absent (Val (sd_reasoning decision))
     (if sd_needs_web_search decision
      then match sd_web_search_query decision with
           | Some q => Val q
           | None => PyNone
           end
      else PyNone)
     (Val true) Absent Absent Absent).

Definition update_evaluation_error (e : exn) : NodeUpdate :=
  (mkAgentState Absent Absent Absent Absent Absent (Val false) Absent Absent
     Absent,
   mkSearchKeys Absent Absent Absent
     (Val (lit "Erro na avaliação: " ++ exn_msg e
           ++ lit ". Prosseguindo sem busca web."))
     Absent (Val true) Absent Absent Absent).

Definition len_of_none {A} : M A :=
  raise (mkExn TypeError (lit "object of type 'NoneType' has no len()")).

(** [evaluate_search_necessity]. [decision_agent] is the decision agent of
    the module, [output_of] reads the structured answer off the output of
    a run, and [titulo] is the title of a jurisprudence result, a field
    that [LexMLDocumento] above does not hold. *)
Definition evaluate_search_necessity (decision_agent : AgentId)
    (output_of : str -> SearchDecision)
    (titulo : LexMLDocumento -> option str)
    (state : AgentState) : M NodeUpdate :=
  match get (st_query state) with
  | None => ret update_no_query
  | Some query_object =>
    let query_text := lq_text query_object in
    let retrieved_docs := get_default [] (st_retrieved_docs state) in
    let lexml_results := get_default [] (st_lexml_results state) in
    let grade := get_default (lit "unknown") (st_grade state) in
    match retrieved_docs with
    | None => len_of_none
    | Some retrieved_docs =>
      let crag_summary :=
        lit "CRAG Grade: " ++ fstr grade ++ lit ", Documentos: "
        ++ str_of_nat (length retrieved_docs) in
      let crag_summary :=
        match retrieved_docs with
        | [] => crag_summary
        | _ =>
          let crag_content :=
            join [newline]
              (List.map (fun doc => lit "- " ++ upto 200 (ds_text doc) ++ lit "...")
                 (upto 3 retrieved_docs)) in
          crag_summary ++ [newline] ++ lit "Conteúdo CRAG:" ++ [newline]
          ++ crag_content
        end in
      match lexml_results with
      | None => len_of_none
      | Some lexml_results =>
        let lexml_summary :=
          lit "LexML: " ++ str_of_nat (length lexml_results)
          ++ lit " documentos encontrados" in
        let lexml_summary :=
          match lexml_results with
          | [] => lexml_summary
          | _ =>
            let lexml_content :=
              join [newline]
                (List.map
                   (fun doc =>
                      lit "- " ++ fstr (titulo doc) ++ lit ": "
                      ++ (if truthy (lx_ementa doc)
                          then upto 200 (fstr (lx_ementa doc))
                          else lit "Sem ementa")
                      ++ lit "...")
                   (upto 3 lexml_results)) in
            lexml_summary ++ [newline] ++ lit "Conteúdo LexML:" ++ [newline]
            ++ lexml_content
          end in
        let analysis_input :=
          lit "Pergunta do Usuário: " ++ query_text ++ [newline; newline]
          ++ lit "Informações Disponíveis:" ++ [newline]
          ++ lit "1. " ++ crag_summary ++ [newline; newline]
          ++ lit "2. " ++ lexml_summary ++ [newline; newline]
          ++ lit "Com base nas informações acima, avalie se é necessário buscar informações complementares na web para responder adequadamente à pergunta do usuário." in
        try_except
          (result <- agent_run decision_agent analysis_input ;;
           let decision := output_of result in
           ret (update_decision decision))
          (fun e => ret (update_evaluation_error e))
      end
    end
  end.

(** [UnifiedMCP.buscar_web]. [tavily_client] tells whether the client was
    configured; [tavily_search] is the search of the client together with
    the construction of the results from what it returns. *)
Definition buscar_web (tavily_client : bool)
    (tavily_search : str -> Result (list TavilySearchResult))
    (query : str) : Result (list TavilySearchResult) :=
  if negb tavily_client
  then value_error "Tavily API Key não configurada"
  else match tavily_search query with
       | Ok results => Ok results
       | Exc e =>
         Exc (mkExn ValueError (lit "Erro na busca Tavily: " ++ exn_msg e))
       end.

(** The updates of [search_web_conditional]. *)
Definition update_web_skipped : NodeUpdate :=
  (mkAgentState Absent Absent Absent PyNone Absent Absent Absent Absent Absent,
   mkSearchKeys Absent Absent Absent Absent Absent Absent (Val true) Absent
     Absent).

Definition update_web_error (msg : str) : NodeUpdate :=
  (mkAgentState Absent Absent Absent PyNone Absent Absent Absent Absent Absent,
   mkSearchKeys Absent Absent Absent Absent Absent Absent Absent Absent
     (Val msg)).

Definition update_web_results (results : list TavilySearchResult)
    : NodeUpdate :=
  (mkAgentState Absent Absent Absent (Val results) Absent Absent Absent Absent
     Absent,
   mkSearchKeys Absent Absent Absent Absent Absent Absent Absent (Val true)
     Absent).

Definition search_web_conditional (tavily_client : bool)
    (tavily_search : str -> Result (list TavilySearchResult))
    (state : AgentState) (keys : SearchKeys) : Lookup NodeUpdate :=
  (* state.get("needs_web_search", False) *)
  let needs_web :=
    match st_needs_web_search state with
    | Val b => b
    | _ => false
    end in
  if negb needs_web then Found update_web_skipped
  else
    (* state.get("web_search_query") or state["current_query"] *)
    let search_query : Lookup (option str) :=
      if truthy (get (sk_web_search_query keys))
      then Found (get (sk_web_search_query keys))
      else match sk_current_query keys with
           | Absent => KeyError "current_query"
           | current_query => Found (get current_query)
           end in
    match search_query with
    | KeyError key => KeyError key
    | Found search_query =>
      if negb tavily_client
      then Found (update_web_error (lit "Tavily API Key não configurada"))
      else
        let response :=
          match search_query with
          | None =>
            (* TavilySearchRequest(query=None) *)
            validation_error "query: Input should be a valid string"
          | Some query => buscar_web tavily_client tavily_search query
          end in
        match response with
        | Ok results => Found (update_web_results results)
        | Exc e => Found (update_web_error (exn_msg e))
        end
    end.

(** A state in which the evaluation asked for a web search, and keys that
    hold the current query only. *)
Definition state_wanting_web : AgentState :=
  mkAgentState (Val sample_query) Absent Absent Absent Absent (Val true)
    Absent Absent Absent.

Definition keys_with_current_query : SearchKeys :=
  mkSearchKeys (Val (lq_text sample_query)) Absent Absent Absent Absent Absent
    Absent Absent Absent.

Definition one_web_result : str -> Result (list TavilySearchResult) :=
  fun query => Ok [mkTavily (Some query) (lit "Art. 1.030 do Código Civil.")].

Definition decision_without_web : str -> SearchDecision :=
  fun reasoning => mkSearchDecision false reasoning None.


(* ===================================================================== *)
(** * State helpers ([src/core/workflow_state.py]) *)
(* ===================================================================== *)

(** [lo <= x <= hi]; NaN and the infinities are outside every such range. *)
Definition float_between (lo hi : Q) (x : pyfloat) : bool :=
  match x with
  | FFinite q => Qle_bool lo q && Qle_bool q hi
  | _ => false
  end.



(** [ProcessingConfig], restricted to the fields the state helpers read. *)
Record ProcessingConfig := mkProcessingConfig {
  pc_max_retries : Z;
  pc_retry_backoff_factor : pyfloat;
  pc_human_review_threshold : pyfloat;
}.

Definition ProcessingConfig_init (max_retries : option Z)
    (retry_backoff_factor human_review_threshold : option pyfloat)
    : Result ProcessingConfig :=
  let mr := default 3%Z max_retries in
  let bf := default (FFinite (15 # 10)) retry_backoff_factor in
  let th := default (FFinite (7 # 10)) human_review_threshold in
  if negb ((1 <=? mr)%Z && (mr <=? 10)%Z)
  then validation_error "max_retries: out of range"
  else if negb (float_between 1 5 bf)
  then validation_error "retry_backoff_factor: out of range"
  else if negb (float_between 0 1 th)
  then validation_error "human_review_threshold: out of range"
  else Ok (mkProcessingConfig mr bf th).

(** The nested dicts of the state, restricted to the keys the helpers
    read, and the three keys of the state that hold them. *)
Record RetryState := mkRetryState {
  rs_retry_count : entry Z;
  rs_max_retries : entry Z;
}.

Record HumanInLoopState := mkHumanInLoopState {
  hl_confidence_threshold : entry pyfloat;
}.

Record QualityState := mkQualityState {
  qs_overall_confidence : entry pyfloat;
}.

Record ControlKeys := mkControlKeys {
  ck_retry_state : entry RetryState;
  ck_human_loop : entry HumanInLoopState;
  ck_quality : entry QualityState;
}.

Definition none_has_no_get {A} : Result A :=
  Exc (mkExn AttributeError (lit "'NoneType' object has no attribute 'get'")).

Definition none_not_ordered {A} : Result A :=
  Exc (mkExn TypeError (lit "'<' not supported between instances of 'NoneType' and another type")).

(** [create_initial_state(query, config)]: the keys modelled here. *)
Definition create_initial_state (query : LegalQuery)
    (config : option ProcessingConfig) : AgentState * ControlKeys :=
  let config :=
    match config with
    | Some config => config
    | None => mkProcessingConfig 3 (FFinite (15 # 10)) (FFinite (7 # 10))
    end in
  (mkAgentState (Val query) Absent Absent Absent Absent (Val false) Absent
     Absent Absent,
   mkControlKeys
     (Val (mkRetryState (Val 0%Z) (Val (pc_max_retries config))))
     (Val (mkHumanInLoopState (Val (pc_human_review_threshold config))))
     (Val (mkQualityState (Val (FFinite 0))))).


Definition is_retry_needed (state : ControlKeys) (error : RetryableError)
    : Result bool :=
  match get_default (mkRetryState Absent Absent) (ck_retry_state state) with
  | None => none_has_no_get
  | Some retry_state =>
    let current_retries := get_default 0%Z (rs_retry_count retry_state) in
    let max_retries := get_default 3%Z (rs_max_retries retry_state) in
    (* error.can_retry and current_retries < max_retries *)
    if negb (can_retry error) then Ok false
    else match current_retries, max_retries with
         | Some current_retries, Some max_retries =>
           Ok (current_retries <? max_retries)%Z
         | _, _ => none_not_ordered
         end
  end.


(** Two worlds that answer alike every call that is not addressed to
    [agent], and a computation that runs alike in two such worlds: it never
    consults [agent]. *)
Definition agree_except (agent : AgentId) (w1 w2 : World) : Prop :=
  forall log c, call_agent c <> agent -> w1 log c = w2 log c.

Definition never_consults {A} (agent : AgentId) (m : M A) : Prop :=
  forall w1 w2 log, agree_except agent w1 w2 -> m w1 log = m w2 log.

(** A world that answers the search decision agent with [decision] and
    every other agent with [answer]. *)
Definition deciding_world (decision answer : str) : World :=
  fun _ c =>
    match call_agent c with
    | search_decision_agent => Ok decision
    | _ => Ok answer
    end.


(* ===================================================================== *)
(** * The synthesis call of the node
      ([src/agents/streaming/response_synthesizer.py]) *)
(* ===================================================================== *)

Definition simple_default_disclaimer : str :=
  lit "Esta resposta é fornecida apenas para fins informativos e não constitui aconselhamento jurídico profissional. Para questões específicas, consulte um advogado especializado.".

(** [SimpleFinalResponse(overall_summary=..., disclaimer=...)] *)
Definition SimpleFinalResponse_init (overall_summary : str)
    (disclaimer : option str) : Result SimpleFinalResponse :=
  if (length overall_summary <? 100)%nat
  then validation_error "overall_summary: string_too_short"
  else if (15000 <? Z.of_nat (length overall_summary))%Z
  then validation_error "overall_summary: string_too_long"
  else Ok (mkSimpleFinalResponse overall_summary
             (default simple_default_disclaimer disclaimer)).

Section HybridApproach.
Context `{PyBuiltins}.

(** [synthesize_with_hybrid_corrected_approach]. The simulation it falls
    back to is taken as given; [fresh_id] is the id that the default
    factory of [LegalQuery] draws. *)
Definition synthesize_with_hybrid_corrected_approach
    (synthesize_with_hybrid_simulation_fallback :
       str -> str -> str -> str -> M SimpleFinalResponse)
    (fresh_id : str)
    (query_text formatted_crag formatted_tavily formatted_lexml : str)
    : M SimpleFinalResponse :=
  let cleaned_query := clean_text_for_json query_text in
  try_except
    (legal_query <- lift (LegalQuery_init fresh_id cleaned_query None None) ;;
     config <- lift (ProcessingConfig_init (Some 2%Z) (Some (FFinite (15 # 10)))
                       (Some (FFinite (8 # 10)))) ;;
     final_response <- process_legal_query_hybrid_corrected legal_query ;;
     lift (SimpleFinalResponse_init (overall_summary final_response)
             (Some (disclaimer final_response))))
    (fun hybrid_error =>
       synthesize_with_hybrid_simulation_fallback
         cleaned_query formatted_crag formatted_tavily formatted_lexml).

End HybridApproach.

(** Two states with the same query. *)
Definition same_query (state1 state2 : AgentState) : Prop :=
  get (st_query state1) = get (st_query state2).

(** A state like [state_with_one_document], with web and jurisprudence
    results as well. *)
Definition state_with_all_results : AgentState :=
  mkAgentState (Val sample_query)
    (Val [mkDocumentSnippet (lit "d-2") (lit "lei-das-sa.pdf")
            (lit "Art. 137. O direito de retirada do acionista dissidente.")
            None])
    (Val (lit "relevant"))
    (Val [mkTavily (Some (lit "STJ")) (lit "Dissolução parcial de sociedade.")])
    (Val [mkLexML (Some (lit "urn:lex:br:stj")) (Some (lit "Apuração de haveres."))])
    (Val true) Absent Absent Absent.

(** A simulation that raises. *)
Definition no_simulation : str -> str -> str -> str -> M SimpleFinalResponse :=
  fun _ _ _ _ => raise (mkExn RuntimeError (lit "sem simulação")).


(* ===================================================================== *)
(** * The streaming run
      ([process_legal_query_hybrid_corrected_streaming]) *)
(* ===================================================================== *)

(** What the run yields: a pair of a stage name and its content. *)
Inductive Event :=
| ProgressEvent (content : str)
| StreamingEvent (chunk : str)
| FinalEvent (response : FinalResponse).

(** An async generator: a computation that also yields events. What it has
    yielded stays when it raises. *)
Definition Gen (A : Type) : Type :=
  World -> list Call -> Result A * list Call * list Event.

Definition gen_ret {A} (a : A) : Gen A := fun _ log => (Ok a, log, []).

Definition gen_bind {A B} (c : Gen A) (k : A -> Gen B) : Gen B :=
  fun w log =>
    match c w log with
    | (Ok a, log', events) =>
      let '(r, events') := k a w log' in (r, events ++ events')
    | (Exc e, log', events) => (Exc e, log', events)
    end.

(** [yield event] *)
Definition gen_yield (event : Event) : Gen unit :=
  fun _ log => (Ok tt, log, [event]).

(** [await m] *)
Definition gen_await {A} (m : M A) : Gen A := fun w log => (m w log, []).

(** [async for chunk in m: ... yield ("streaming", chunk)], for a generator
    [m] given by the list of its chunks. *)
Definition gen_stream (m : M (list str)) : Gen (list str) :=
  fun w log =>
    match m w log with
    | (Ok chunks, log') => (Ok chunks, log', List.map StreamingEvent chunks)
    | (Exc e, log') => (Exc e, log', [])
    end.

Definition gen_try {A} (body : Gen A) (handler : exn -> Gen A) : Gen A :=
  fun w log =>
    match body w log with
    | (Ok a, log', events) => (Ok a, log', events)
    | (Exc e, log', events) =>
      let '(r, events') := handler e w log' in (r, events ++ events')
    end.

Notation "x <~ c ;; k" := (gen_bind c (fun x => k))
  (at level 20, c at level 99, k at level 200, only parsing).

Section StreamingRun.
Context `{PyBuiltins}.

Definition process_legal_query_hybrid_corrected_streaming
    (query : LegalQuery) : Gen unit :=
  gen_try
    (_ <~ gen_yield (ProgressEvent (lit "🧠 Analisando consulta (OpenRouter)...")) ;;
     decision_text <~ gen_await
       (agent_run search_decision_agent
          (lit "Analise esta consulta jurídica e decida quais buscas realizar: "
           ++ lq_text query)) ;;
     _ <~ gen_yield (ProgressEvent (lit "📚 Buscando no vectordb (OpenRouter)...")) ;;
     vectordb_results <~ gen_await
       (execute_vectordb_search_openrouter (lq_text query)) ;;
     _ <~ gen_yield (ProgressEvent (lit "🔍 Buscando WEB + LexML (Groq)...")) ;;
     groq_results <~ gen_await (execute_groq_searches (lq_text query)) ;;
     _ <~ gen_yield (ProgressEvent (lit "🧠 Analisando resultados (OpenRouter)...")) ;;
     analysis_text <~ gen_await
       (analyze_with_openrouter (lq_text query) vectordb_results groq_results) ;;
     _ <~ gen_yield (ProgressEvent (lit "✍️ Gerando resposta (OpenRouter)...")) ;;
     chunks <~ gen_stream
       (synthesize_with_openrouter_streaming (lq_text query) analysis_text) ;;
     (* full_response_text += chunk *)
     let full_response_text := concat chunks in
     _ <~ gen_yield (ProgressEvent (lit "✅ Validando qualidade (OpenRouter)...")) ;;
     quality_assessment <~ gen_await
       (validate_with_openrouter full_response_text) ;;
     _ <~ gen_yield (ProgressEvent (lit "🛡️ Verificando guardrails (OpenRouter)...")) ;;
     guardrail_check <~ gen_await
       (check_guardrails_with_openrouter full_response_text) ;;
     final_response <~ gen_await
       (lift (FinalResponse_init
                (Some (lq_id query))
                (Some full_response_text)
                (Some (overall_score quality_assessment))
                (Some (completeness quality_assessment))
                (Some hybrid_disclaimer)
                (Some (if needs_improvement quality_assessment
                       then improvement_suggestions quality_assessment
                       else []))
                (Some COMPLETED))) ;;
     gen_yield
       (FinalEvent
          {| query_id := query_id final_response;
             overall_summary := overall_summary final_response;
             overall_confidence := overall_confidence final_response;
             completeness_score := completeness_score final_response;
             disclaimer := disclaimer final_response;
             warnings :=
               warnings final_response
               ++ (if negb (passed guardrail_check)
                   then List.map (fun violation => lit "Atenção: " ++ violation)
                          (violations guardrail_check)
                   else []);
             status := status final_response;
             validated := validated final_response;
             human_reviewed := human_reviewed final_response |}))
    (fun e =>
       error_response <~ gen_await
         (lift (FinalResponse_init
                  (Some (lq_id query))
                  (Some hybrid_failure_summary)
                  None None
                  (Some (lit "Sistema indisponível. Tente novamente mais tarde."))
                  (Some [lit "Falha no sistema híbrido OpenRouter + Groq"])
                  (Some FAILED))) ;;
       gen_yield (FinalEvent error_response)).

End StreamingRun.

(** The chunks of the streaming events, in order. *)
Definition streamed (events : list Event) : list str :=
  omap (fun event =>
          match event with
          | StreamingEvent chunk => Some chunk
          | _ => None
          end) events.

Definition is_final (event : Event) : bool :=
  match event with
  | FinalEvent _ => true
  | _ => false
  end.

(* ===================================================================== *)
(** * Runs that execute the nodes *)
(* ===================================================================== *)

(** How a run of the compiled graph ended: at [END] with the final state;
    or in the node whose body raised, with the state that node was given
    (no edge leads to the error handler and nothing catches the
    exception, so it leaves the run); or with the step budget used up. *)
Inductive RunEnd (St : Type) :=
| Finished (state : St)
| Aborted (node : string) (state : St)
| OutOfSteps.
Arguments Finished {St} state.
Arguments Aborted {St} node state.
Arguments OutOfSteps {St}.

Definition entering {St} (node : string) (rest : list string * RunEnd St)
    : list string * RunEnd St :=
  (node :: fst rest, snd rest).

(** A run from [node] on. [St] is everything the machine holds, [view]
    the keys that the routers read. [body node state] is [None] when the
    body of [node] raises on [state], and otherwise the state with the
    update of the node merged in. The result is the list of the nodes
    entered, closed by [END] when the run got there, and the way the run
    ended. *)
Fixpoint run_graph {St} (g : StateGraph) (view : St -> AgentState)
    (body : string -> St -> option St) (fuel : nat)
    (node : string) (state : St) : list string * RunEnd St :=
  match fuel with
  | O => ([], OutOfSteps)
  | S fuel' =>
    if String.eqb node END then ([END], Finished state)
    else
      match body node state with
      | None => ([node], Aborted node state)
      | Some state' =>
        match successors g node (view state') with
        | next :: _ =>
          entering node (run_graph g view body fuel' next state')
        | [] => ([node], Finished state')
        end
      end
  end.

(** A run that ended as it should: within [n] entries, never in the error
    handler, and either at [END] after all of [required], or, before the
    [n]-th entry, in the node that raised. *)
Definition ended_properly {St} (body : string -> St -> option St)
    (required : list string) (n : nat) (run : list string * RunEnd St)
    : Prop :=
  (length (fst run) <= n)%nat
  /\ ~ In NODE_ERROR (fst run)
  /\ match snd run with
     | Finished _ => incl required (fst run) /\ last (fst run) = Some END
     | Aborted node state =>
       last (fst run) = Some node /\ body node state = None
       /\ (length (fst run) < n)%nat
     | OutOfSteps => False
     end.

(** How the machine merges the keys of the search nodes. *)
Definition merge_keys (keys update : SearchKeys) : SearchKeys :=
  {| sk_current_query :=
       merge_entry (sk_current_query keys) (sk_current_query update);
     sk_transformed_query :=
       merge_entry (sk_transformed_query keys) (sk_transformed_query update);
     sk_needs_jurisprudencia :=
       merge_entry (sk_needs_jurisprudencia keys)
         (sk_needs_jurisprudencia update);
     sk_web_search_reasoning :=
       merge_entry (sk_web_search_reasoning keys)
         (sk_web_search_reasoning update);
     sk_web_search_query :=
       merge_entry (sk_web_search_query keys) (sk_web_search_query update);
     sk_evaluation_complete :=
       merge_entry (sk_evaluation_complete keys)
         (sk_evaluation_complete update);
     sk_web_search_skipped :=
       merge_entry (sk_web_search_skipped keys) (sk_web_search_skipped update);
     sk_web_search_performed :=
       merge_entry (sk_web_search_performed keys)
         (sk_web_search_performed update);
     sk_web_search_error :=
       merge_entry (sk_web_search_error keys) (sk_web_search_error update) |}.

(** Node bodies in which the jurisprudence search is
    [search_jurisprudencia] over a service without documents, and every
    other node returns an empty update. *)
Definition bodies_with_lexml_search `{PyBuiltins}
    (node : string) (state : AgentState * SearchKeys)
    : option (AgentState * SearchKeys) :=
  if String.eqb node NODE_LEXML then
    match fst (search_jurisprudencia empty_service (snd state) []) with
    | Found update =>
      Some (merge (fst state) (fst update), merge_keys (snd state) (snd update))
    | KeyError _ => None
    end
  else Some state.

(** [palavra not in stop_words and len(palavra) > 3], the test that
    [_build_cql_query] applies to the words of the term. *)
Definition is_keyword_word (palavra : str) : bool :=
  negb (existsb (str_eqb palavra) stop_words) && (3 <? length palavra)%nat.

(** A search term in which one word is repeated around stop words. *)
Definition termo_with_two_keywords : str :=
  lit "Como excluir sócio minoritário da sociedade?".

(* ===================================================================== *)
(** * Theorems *)
(* ===================================================================== *)

Ltac run_monad :=
  unfold outcome, log_after, bind, try_except, ret, raise, lift, agent_run,
    wait_for_agent_run, agent_run_with in *;
  cbn [fst snd] in *.

(** ** Sanity checks of the string model *)

Example lit_ascii : lit "ab c" = [97; 98; 32; 99].
Proof. reflexivity. Qed.

Example lit_accent : lit "síntese" = [115; 237; 110; 116; 101; 115; 101].
Proof. reflexivity. Qed.

Example split_ws_ex :
  split_ws (lit "  uma  frase curta ") = [lit "uma"; lit "frase"; lit "curta"].
Proof. reflexivity. Qed.

Example split_on_ex :
  split_on dot (lit "a.b.") = [lit "a"; lit "b"; lit ""].
Proof. reflexivity. Qed.

Example str_of_nat_ex : str_of_nat 12 = lit "12".
Proof. reflexivity. Qed.

(** ** Routing after grading *)

Lemma eq_literal_true (value : option str) (literal : string) :
  eq_literal value literal = true <-> value = Some (lit literal).
Proof.
  unfold eq_literal, str_eqb. destruct value as [s|].
  - rewrite bool_decide_eq_true. split; congruence.
  - split; discriminate.
Qed.

Lemma eq_literal_false (value : option str) (literal : string) :
  eq_literal value literal = false <-> value <> Some (lit literal).
Proof.
  rewrite <- eq_literal_true. destruct (eq_literal value literal); split;
    congruence.
Qed.

Lemma successors_grade (state : AgentState) :
  successors build_graph NODE_GRADE state = [route_after_grading state].
Proof.
  unfold successors.
  replace (g_conditional build_graph !! NODE_GRADE)
    with (Some (route_after_grading,
                (<[ NODE_LEXML := NODE_LEXML ]>
                   (<[ NODE_TRANSFORM := NODE_TRANSFORM ]> ∅)
                 : gmap string string)))
    by reflexivity.
  unfold route_after_grading.
  destruct (eq_literal _ "relevant"); [reflexivity|].
  destruct (eq_literal _ "irrelevant"); reflexivity.
Qed.

Lemma successors_transform (state : AgentState) :
  successors build_graph NODE_TRANSFORM state = [NODE_LEXML].
Proof. reflexivity. Qed.

(** C2. After grading the graph follows the routing table: grade
    "relevant" leads to the jurisprudence search; grade "irrelevant" leads
    to the query rewrite, whose only successor is the jurisprudence search;
    every other grade (needs_web_search, None, a missing key, any other
    string) leads to the jurisprudence search. *)
Theorem route_after_grading_follows_table (state : AgentState) :
  (get (st_grade state) = Some (lit "relevant") ->
     route_after_grading state = NODE_LEXML
     /\ successors build_graph NODE_GRADE state = [NODE_LEXML])
  /\ (get (st_grade state) = Some (lit "irrelevant") ->
       route_after_grading state = NODE_TRANSFORM
       /\ successors build_graph NODE_GRADE state = [NODE_TRANSFORM]
       /\ forall state', successors build_graph NODE_TRANSFORM state' = [NODE_LEXML])
  /\ (get (st_grade state) <> Some (lit "relevant") ->
       get (st_grade state) <> Some (lit "irrelevant") ->
       route_after_grading state = NODE_LEXML
       /\ successors build_graph NODE_GRADE state = [NODE_LEXML]).
Proof.
  rewrite successors_grade. unfold route_after_grading.
  split; [|split].
  - intros Hg. apply eq_literal_true in Hg. now rewrite Hg.
  - intros Hg.
    assert (Hr : eq_literal (get (st_grade state)) "relevant" = false).
    { apply eq_literal_false. rewrite Hg. discriminate. }
    apply eq_literal_true in Hg. rewrite Hr, Hg.
    split; [reflexivity|]. split; [reflexivity|].
    apply successors_transform.
  - intros Hr Hi. apply eq_literal_false in Hr, Hi. now rewrite Hr, Hi.
Qed.

Lemma route_after_grading_follows_table_witness :
  successors build_graph NODE_GRADE (update_grade (lit "relevant")) = [NODE_LEXML]
  /\ successors build_graph NODE_GRADE (update_grade (lit "irrelevant"))
     = [NODE_TRANSFORM]
  /\ successors build_graph NODE_GRADE (update_grade (lit "needs_web_search"))
     = [NODE_LEXML]
  /\ successors build_graph NODE_GRADE no_update = [NODE_LEXML].
Proof.
  split; [|split; [|split]].
  - apply (proj1 (route_after_grading_follows_table
                    (update_grade (lit "relevant")))).
    reflexivity.
  - apply (proj1 (proj2 (route_after_grading_follows_table
                           (update_grade (lit "irrelevant"))))).
    reflexivity.
  - apply (proj2 (proj2 (route_after_grading_follows_table
                           (update_grade (lit "needs_web_search")))));
      discriminate.
  - apply (proj2 (proj2 (route_after_grading_follows_table no_update)));
      discriminate.
Defined.

(** ** The document grader *)

Section GraderFacts.
Context `{PyBuiltins}.

(** C9. When the grader agent could not be constructed, every state is
    graded "relevant" without any call, states with an empty retrieval
    included: the check for the missing agent comes first, and the grade
    it returns is not "irrelevant". *)
Theorem grader_unavailable_grades_relevant
    (state : AgentState) (w : World) (log : list Call) :
  grade_documents None state w log = (Ok (update_grade (lit "relevant")), log)
  /\ outcome (grade_documents None state) w log
     <> Ok (update_grade (lit "irrelevant")).
Proof.
  split; [reflexivity|]. unfold outcome. cbn. discriminate.
Qed.

(** C3, amended. When the grader agent was constructed, a state whose
    retrieval is empty or absent is graded "irrelevant": the node returns
    normally and the call log is unchanged, so no model call was issued. *)
Theorem empty_retrieval_grades_irrelevant
    (agent : AgentId) (state : AgentState) (w : World) (log : list Call) :
  empty_retrieval state ->
  grade_documents (Some agent) state w log
  = (Ok (update_grade (lit "irrelevant")), log).
Proof.
  intros [Hdocs | Hdocs]; unfold grade_documents; rewrite Hdocs;
    destruct (get (st_query state)); reflexivity.
Qed.

End GraderFacts.

Example grader_unavailable_on_empty_retrieval :
  empty_retrieval state_with_no_documents
  /\ @grade_documents latin1_builtins None state_with_no_documents
       (constant_world []) []
     = (Ok (update_grade (lit "relevant")), []).
Proof. split; [right; reflexivity | reflexivity]. Qed.

Lemma empty_retrieval_grades_irrelevant_witness :
  empty_retrieval state_with_no_documents
  /\ @grade_documents latin1_builtins (Some grader_agent_id)
       state_with_no_documents (constant_world []) []
     = (Ok (update_grade (lit "irrelevant")), []).
Proof.
  split; [right; reflexivity|].
  apply (@empty_retrieval_grades_irrelevant latin1_builtins).
  right; reflexivity.
Defined.

(** C3 as stated fails: with the grader agent missing, an empty retrieval
    is graded "relevant". *)
Lemma empty_retrieval_without_grader_counterexample :
  empty_retrieval state_with_no_documents
  /\ outcome (@grade_documents latin1_builtins None state_with_no_documents)
       (constant_world []) []
     = Ok (update_grade (lit "relevant"))
  /\ ~ (forall grader_agent state w log,
          empty_retrieval state ->
          outcome (@grade_documents latin1_builtins grader_agent state) w log
          = Ok (update_grade (lit "irrelevant"))).
Proof.
  split; [right; reflexivity|]. split; [reflexivity|].
  intros Hall.
  specialize (Hall None state_with_no_documents (constant_world []) []).
  discriminate Hall. right; reflexivity.
Qed.

(** ** RetryableError *)

(** C10. [can_retry] holds exactly when [retry_count < max_retries]; the
    model is frozen, so every assignment raises and leaves the instance,
    and with it both counters and [can_retry], unchanged. *)
Theorem can_retry_iff_below_max (self : RetryableError) :
  (can_retry self = true <-> (retry_count self < max_retries self)%Z)
  /\ (forall a,
        is_ok (fst (RetryableError_setattr self a)) = false
        /\ snd (RetryableError_setattr self a) = self)
  /\ (forall attempts,
        retry_count (after_assignments self attempts) = retry_count self
        /\ max_retries (after_assignments self attempts) = max_retries self
        /\ can_retry (after_assignments self attempts) = can_retry self).
Proof.
  split; [|split].
  - unfold can_retry. apply Z.ltb_lt.
  - intros a. split; reflexivity.
  - intros attempts.
    assert (Hsame : after_assignments self attempts = self).
    { unfold after_assignments. induction attempts as [|a rest IH]; cbn; auto. }
    now rewrite Hsame.
Qed.

Lemma can_retry_iff_below_max_witness :
  can_retry (mkRetryableError (lit "timeout") (lit "sem resposta") 1 3 (FFinite 1))
  = true.
Proof.
  apply (proj1 (can_retry_iff_below_max
                  (mkRetryableError (lit "timeout") (lit "sem resposta") 1 3
                     (FFinite 1)))).
  cbn. lia.
Defined.

Example can_retry_exhausted :
  can_retry (mkRetryableError (lit "timeout") (lit "sem resposta") 3 3 (FFinite 1))
  = false.
Proof. reflexivity. Qed.

Example RetryableError_init_rejects_zero_max :
  is_ok (RetryableError_init (lit "timeout") (lit "sem resposta") None (Some 0%Z) None)
  = false.
Proof. reflexivity. Qed.

(** ** FinalResponse *)

Section ModelFacts.
Context `{PyBuiltins}.

Lemma validate_summary_quality_ok (v v' : str) :
  validate_summary_quality v = Ok v' ->
  v' = v
  /\ (2 <= length (sentences v))%nat
  /\ (50 <= length (strip v))%nat
  /\ ((10 <= length (split_ws (lower v)))%nat ->
      (length (split_ws (lower v))
       <= 4 * size (unique_words (split_ws (lower v))))%nat).
Proof.
  unfold validate_summary_quality, value_error.
  destruct (length (sentences v) <? 2)%nat eqn:Hs; [discriminate|].
  destruct (length (strip v) <? 50)%nat eqn:Hl; [discriminate|].
  apply Nat.ltb_ge in Hs, Hl.
  destruct (length (split_ws (lower v)) <? 10)%nat eqn:Hw.
  - intros [= <-]. apply Nat.ltb_lt in Hw. repeat split; auto. lia.
  - destruct (4 * size (unique_words (split_ws (lower v)))
              <? length (split_ws (lower v)))%nat eqn:Hu; [discriminate|].
    intros [= <-]. apply Nat.ltb_ge in Hu. repeat split; auto.
Qed.

Lemma check_overall_summary_ok (v v' : str) :
  check_overall_summary v = Ok v' ->
  v' = v /\ (100 <= length v)%nat /\ (Z.of_nat (length v) <= 15000)%Z
  /\ validate_summary_quality v = Ok v.
Proof.
  unfold check_overall_summary, validation_error.
  destruct (length v <? 100)%nat eqn:Hmin; [discriminate|].
  destruct (15000 <? Z.of_nat (length v))%Z eqn:Hmax; [discriminate|].
  destruct (validate_summary_quality v) as [v0|e] eqn:Hq; [|discriminate].
  intros [= <-]. apply validate_summary_quality_ok in Hq as Hq'.
  destruct Hq' as [-> _]. apply Nat.ltb_ge in Hmin. apply Z.ltb_ge in Hmax.
  auto.
Qed.

Lemma check_overall_summary_error (v : str) (e : exn) :
  check_overall_summary v = Exc e -> exn_cls e = ValidationError.
Proof.
  unfold check_overall_summary, validation_error.
  destruct (length v <? 100)%nat; [intros [= <-]; reflexivity|].
  destruct (15000 <? Z.of_nat (length v))%Z; [intros [= <-]; reflexivity|].
  destruct (validate_summary_quality v); [discriminate|].
  intros [= <-]. reflexivity.
Qed.

Lemma few_sentences_rejected (v : str) :
  (length (sentences v) < 2)%nat -> is_ok (check_overall_summary v) = false.
Proof.
  intros Hs. destruct (check_overall_summary v) as [v'|e] eqn:Hc; [|reflexivity].
  apply check_overall_summary_ok in Hc as (_ & _ & _ & Hq).
  apply validate_summary_quality_ok in Hq as (_ & Hs' & _). lia.
Qed.

Lemma FinalResponse_init_error
    (qid v : option str) (conf comp : option pyfloat) (disc : option str)
    (warns : option (list str)) (st : option Status) (e : exn) :
  FinalResponse_init qid v conf comp disc warns st = Exc e ->
  exn_cls e = ValidationError.
Proof.
  unfold FinalResponse_init, validation_error.
  destruct qid as [q|]; [|intros [= <-]; reflexivity].
  destruct v as [v|]; [|intros [= <-]; reflexivity].
  destruct (check_overall_summary v) as [v'|e'] eqn:Hc.
  - destruct (negb (unit_interval _)); [intros [= <-]; reflexivity|].
    destruct (negb (unit_interval _)); [intros [= <-]; reflexivity|].
    discriminate.
  - intros [= <-]. eapply check_overall_summary_error; eauto.
Qed.

Lemma FinalResponse_init_ok
    (qid v : option str) (conf comp : option pyfloat) (disc : option str)
    (warns : option (list str)) (st : option Status) (r : FinalResponse) :
  FinalResponse_init qid v conf comp disc warns st = Ok r ->
  exists q s,
    qid = Some q /\ v = Some s /\ check_overall_summary s = Ok s
    /\ query_id r = q /\ overall_summary r = s
    /\ status r = default COMPLETED st
    /\ warnings r = default [] warns.
Proof.
  unfold FinalResponse_init, validation_error.
  destruct qid as [q|]; [|discriminate].
  destruct v as [s|]; [|discriminate].
  destruct (check_overall_summary s) as [s'|e'] eqn:Hc; [|discriminate].
  destruct (negb (unit_interval _)); [discriminate|].
  destruct (negb (unit_interval _)); [discriminate|].
  intros [= <-]. apply check_overall_summary_ok in Hc as Hc'.
  destruct Hc' as [-> _]. exists q, s. cbn. auto 10.
Qed.

(** C5, amended. A [FinalResponse] that was constructed has a summary of
    at least 100 characters which its full stops cut into at least 2
    pieces that are not blank, and, when the summary has 10 words or more,
    at least a quarter of its words are distinct; below 10 words the
    repetition rule is not applied. Construction fails with a validation
    error whenever the summary has fewer than 2 such pieces. The pieces
    are what the validator calls sentences: [sentences] counts text
    between full stops, so the full stop of an abbreviation separates two
    of them and the last one need not be terminated. *)
Theorem final_response_summary_invariant
    (qid : option str) (v : str) (conf comp : option pyfloat)
    (disc : option str) (warns : option (list str)) (st : option Status) :
  (forall r,
     FinalResponse_init qid (Some v) conf comp disc warns st = Ok r ->
     overall_summary r = v
     /\ (2 <= length (sentences v))%nat
     /\ (100 <= length v)%nat
     /\ ((10 <= length (split_ws (lower v)))%nat ->
         (length (split_ws (lower v))
          <= 4 * size (unique_words (split_ws (lower v))))%nat))
  /\ ((length (sentences v) < 2)%nat ->
      exists e,
        FinalResponse_init qid (Some v) conf comp disc warns st = Exc e
        /\ exn_cls e = ValidationError).
Proof.
  split.
  - intros r Hr.
    apply FinalResponse_init_ok in Hr as (q & s & _ & [= <-] & Hc & _ & Hs & _).
    apply check_overall_summary_ok in Hc as (_ & Hmin & _ & Hq).
    apply validate_summary_quality_ok in Hq as (_ & Hsent & _ & Hrep).
    auto.
  - intros Hs.
    destruct (FinalResponse_init qid (Some v) conf comp disc warns st)
      as [r|e] eqn:Hr.
    + apply FinalResponse_init_ok in Hr as (q & s & _ & [= <-] & Hc & _).
      apply few_sentences_rejected in Hs. rewrite Hc in Hs. discriminate.
    + exists e. split; [reflexivity|]. eapply FinalResponse_init_error; eauto.
Qed.

(** ** The error handler *)

(** C1. [handle_error] never returns a response: the constructor is
    called without [query_id], a required field, so validation fails for
    every state, whatever the error message. *)
Theorem handle_error_always_raises (state : AgentState) :
  handle_error state = validation_error "query_id: Field required"
  /\ is_ok (handle_error state) = false.
Proof. split; reflexivity. Qed.

End ModelFacts.

Lemma final_response_summary_invariant_witness :
  (word_count three_word_sentence = 3%nat
   /\ exists e,
        @FinalResponse_init latin1_builtins (Some (lit "q-1"))
          (Some three_word_sentence) None None None None None = Exc e
        /\ exn_cls e = ValidationError)
  /\ (2 <= length (sentences emergency_summary))%nat.
Proof.
  split.
  - split; [reflexivity|].
    apply (proj2 (@final_response_summary_invariant latin1_builtins
                    (Some (lit "q-1")) three_word_sentence
                    None None None None None)).
    vm_compute. lia.
  - pose proof (proj1 (@final_response_summary_invariant latin1_builtins
                         (Some (lit "q-1")) emergency_summary
                         None None None None None)) as Hinv.
    destruct (@FinalResponse_init latin1_builtins (Some (lit "q-1"))
                (Some emergency_summary) None None None None None)
      as [r|e] eqn:Hr.
    + apply (Hinv r eq_refl).
    + vm_compute in Hr. discriminate Hr.
Defined.

(** C5 as stated fails: a summary of eight equal words is accepted,
    although only one word in eight is distinct. *)
Lemma repetitive_short_summary_counterexample :
  is_ok (@FinalResponse_init latin1_builtins (Some (lit "q-1"))
           (Some eight_equal_words) None None None None None) = true
  /\ length (split_ws (@lower latin1_builtins eight_equal_words)) = 8%nat
  /\ size (unique_words (split_ws (@lower latin1_builtins eight_equal_words)))
     = 1%nat
  /\ ~ (forall v r,
          @FinalResponse_init latin1_builtins (Some (lit "q-1")) (Some v)
            None None None None None = Ok r ->
          (length (split_ws (@lower latin1_builtins v))
           <= 4 * size (unique_words (split_ws (@lower latin1_builtins v))))%nat).
Proof.
  split; [vm_compute; reflexivity|].
  split; [vm_compute; reflexivity|].
  split; [vm_compute; reflexivity|].
  intros Hall.
  destruct (@FinalResponse_init latin1_builtins (Some (lit "q-1"))
              (Some eight_equal_words) None None None None None)
    as [r|e] eqn:Hr.
  - specialize (Hall eight_equal_words r Hr). vm_compute in Hall. lia.
  - vm_compute in Hr. discriminate Hr.
Qed.

(** The count of [sentences] is not a count of complete sentences: a single
    sentence that is not terminated is accepted, because the full stop of
    "art." cuts it in two. *)
Example one_sentence_with_abbreviation_accepted :
  is_ok (@FinalResponse_init latin1_builtins (Some (lit "q-1"))
           (Some one_sentence_with_abbreviation) None None None None None)
  = true
  /\ length one_sentence_with_abbreviation = 111%nat
  /\ List.map (@length N) (sentences one_sentence_with_abbreviation)
     = [14; 95]%nat
  /\ count_occ N.eq_dec one_sentence_with_abbreviation 46%N = 1%nat.
Proof. vm_compute. repeat split. Qed.

(** ** Section-by-section synthesis *)

Lemma expansion_prompt_verbatim (v : Variant) (sec : SectionId) (section : str) :
  verbatim_in section (expansion_prompt v sec section).
Proof.
  destruct v, sec; cbn [expansion_prompt];
    try (unfold intro_expand_prompt, dev_expand_prompt, analysis_expand_prompt,
           conclusion_expand_prompt; eexists _, _; reflexivity);
    eexists _, []; rewrite app_nil_r; reflexivity.
Qed.

(** A section that reaches its floor is kept: one call, no expansion. *)
Lemma long_section_kept
    (v : Variant) (sec : SectionId) (query analysis_text : str)
    (w : World) (log : list Call) (generated : str) :
  let first_call :=
    mkCall final_synthesizer_agent (section_prompt v sec query analysis_text) None in
  w log first_call = Ok generated ->
  (section_floor v sec <= word_count (strip generated))%nat ->
  synthesize_section v sec query analysis_text w log
  = (Ok (strip generated), log ++ [first_call]).
Proof.
  intros first_call Hgen Hlong. unfold synthesize_section. run_monad.
  fold first_call. rewrite Hgen.
  apply Nat.ltb_ge in Hlong. now rewrite Hlong.
Qed.

(** A section costs at most two calls. *)
Lemma synthesize_section_at_most_two_calls
    (v : Variant) (sec : SectionId) (query analysis_text : str)
    (w : World) (log : list Call) :
  (length (log_after (synthesize_section v sec query analysis_text) w log)
   <= length log + 2)%nat.
Proof.
  unfold synthesize_section. run_monad.
  destruct (w log _) as [generated|e]; cbn [snd].
  - destruct (word_count (strip generated) <? section_floor v sec)%nat.
    + destruct (w (log ++ _) _); cbn [snd]; rewrite !length_app; cbn; lia.
    + cbn [snd]. rewrite length_app. cbn. lia.
  - rewrite length_app. cbn. lia.
Qed.

(** C4, amended. For each of the four sections, in both section-wise
    synthesis functions: when the generated section is below its floor,
    exactly one more call is issued for it, its prompt contains the short
    section verbatim, and the section becomes the stripped output of that
    call (or the call's exception propagates). Nothing is promised about
    the word count of the replacement. *)
Theorem short_section_expanded_once
    (v : Variant) (sec : SectionId) (query analysis_text : str)
    (w : World) (log : list Call) (generated : str) :
  let first_call :=
    mkCall final_synthesizer_agent (section_prompt v sec query analysis_text) None in
  let short := strip generated in
  let second_call :=
    mkCall final_synthesizer_agent (expansion_prompt v sec short) None in
  w log first_call = Ok generated ->
  (word_count short < section_floor v sec)%nat ->
  verbatim_in short (call_prompt second_call)
  /\ log_after (synthesize_section v sec query analysis_text) w log
     = log ++ [first_call; second_call]
  /\ outcome (synthesize_section v sec query analysis_text) w log
     = match w (log ++ [first_call]) second_call with
       | Ok expanded => Ok (strip expanded)
       | Exc e => Exc e
       end.
Proof.
  intros first_call short second_call Hgen Hshort.
  split; [apply expansion_prompt_verbatim|].
  unfold synthesize_section. run_monad. fold first_call. rewrite Hgen.
  fold short. apply Nat.ltb_lt in Hshort. rewrite Hshort.
  fold second_call.
  destruct (w (log ++ [first_call]) second_call); cbn [fst snd];
    rewrite <- app_assoc; split; reflexivity.
Qed.

Lemma short_section_expanded_once_witness :
  log_after (synthesize_section FourParts Introduction [] []) shrinking_world []
  = [mkCall final_synthesizer_agent (section_prompt FourParts Introduction [] []) None;
     mkCall final_synthesizer_agent
       (expansion_prompt FourParts Introduction (lit "duas palavras")) None].
Proof.
  apply (short_section_expanded_once FourParts Introduction [] []
           shrinking_world [] (lit "duas palavras")).
  - reflexivity.
  - vm_compute. lia.
Defined.

(** C4 as stated fails: the text that replaces a short section can have
    fewer words than the section had. *)
Lemma expansion_may_shrink_counterexample :
  (word_count (lit "duas palavras") < section_floor FourParts Introduction)%nat
  /\ outcome (synthesize_section FourParts Introduction [] []) shrinking_world []
     = Ok (lit "uma")
  /\ (word_count (lit "uma") < word_count (lit "duas palavras"))%nat.
Proof.
  split; [vm_compute; lia|]. split; [vm_compute; reflexivity|].
  vm_compute. lia.
Qed.

(** ** The tool-executing searches *)



(** ** The quality validator *)

Section ValidatorFacts.
Context `{PyBuiltins}.

Lemma quality_line_unlabelled (acc : QualityAssessment) (line : str) :
  unlabelled line -> same_scores_and_flags (quality_line acc line) acc.
Proof.
  intros (H1 & H2 & H3 & H4 & H5 & H6). unfold quality_line.
  rewrite H1, H2, H3, H4, H5, H6.
  destruct (contains (lit "MOTIVO_REVISAO:") line);
    [|destruct (is_bullet line)]; repeat split.
Qed.

Lemma quality_lines_unlabelled (lines : list str) (acc : QualityAssessment) :
  Forall unlabelled lines ->
  same_scores_and_flags (fold_left quality_line lines acc) acc.
Proof.
  intros Hall. revert acc.
  induction Hall as [|line lines Hline _ IH]; intros acc; cbn [fold_left].
  - repeat split.
  - destruct (IH (quality_line acc line)) as (A1 & A2 & A3 & A4 & A5 & A6).
    destruct (quality_line_unlabelled acc line Hline)
      as (B1 & B2 & B3 & B4 & B5 & B6).
    repeat split; congruence.
Qed.

Lemma QualityAssessment_init_ok (qa qa' : QualityAssessment) :
  QualityAssessment_init qa = Ok qa' ->
  qa' = qa
  /\ unit_interval (overall_score qa) = true
  /\ unit_interval (completeness qa) = true.
Proof.
  unfold QualityAssessment_init.
  destruct (unit_interval (overall_score qa)); cbn; [|discriminate].
  destruct (unit_interval (completeness qa)); cbn; [|discriminate].
  destruct (unit_interval (accuracy qa)); cbn; [|discriminate].
  destruct (unit_interval (clarity qa)); cbn; [|discriminate].
  intros [= <-]. auto.
Qed.

(** The validator always returns, after exactly one call, an assessment
    whose scores lie between 0 and 1. *)
Lemma validate_with_openrouter_returns
    (response_text : str) (w : World) (log : list Call) :
  exists qa,
    validate_with_openrouter response_text w log
    = (Ok qa,
       log ++ [mkCall quality_validator_agent (validation_prompt response_text) None])
    /\ unit_interval (overall_score qa) = true
    /\ unit_interval (completeness qa) = true.
Proof.
  unfold validate_with_openrouter. run_monad.
  destruct (w log _) as [out|e].
  - destruct (QualityAssessment_init _) as [qa|e] eqn:Hinit.
    + apply QualityAssessment_init_ok in Hinit as (-> & Ho & Hc).
      eexists; split; [reflexivity|]. auto.
    + eexists; split; [reflexivity|]. split; reflexivity.
  - eexists; split; [reflexivity|]. split; reflexivity.
Qed.

(** C7, amended. [validate_with_openrouter] never raises. When the
    validator call raises it returns the fixed assessment with overall
    score 0.75 and both flags false. When the call returns text in which no
    line carries a score or flag label, it returns the parser's initial
    values: overall score 0.8 and both flags false. When the call returns
    text from which one of the four scores is read as a number outside
    [0, 1], the construction of the assessment fails inside the same
    [try], and the result is again the fixed assessment with 0.75. *)
Theorem validator_failure_defaults
    (response_text : str) (w : World) (log : list Call) :
  let the_call :=
    mkCall quality_validator_agent (validation_prompt response_text) None in
  (exists qa, outcome (validate_with_openrouter response_text) w log = Ok qa)
  /\ (forall e,
        w log the_call = Exc e ->
        outcome (validate_with_openrouter response_text) w log
        = Ok quality_error_default)
  /\ (overall_score quality_error_default = FFinite (75 # 100)
      /\ needs_improvement quality_error_default = false
      /\ needs_human_review quality_error_default = false)
  /\ (forall out,
        w log the_call = Ok out ->
        Forall unlabelled (split_on newline out) ->
        exists qa,
          outcome (validate_with_openrouter response_text) w log = Ok qa
          /\ overall_score qa = FFinite (8 # 10)
          /\ needs_improvement qa = false
          /\ needs_human_review qa = false)
  /\ (forall out,
        w log the_call = Ok out ->
        let parsed :=
          fold_left quality_line (split_on newline out) quality_defaults in
        unit_interval (overall_score parsed) = false
        \/ unit_interval (completeness parsed) = false
        \/ unit_interval (accuracy parsed) = false
        \/ unit_interval (clarity parsed) = false ->
        outcome (validate_with_openrouter response_text) w log
        = Ok quality_error_default).
Proof.
  intros the_call. split; [|split; [|split; [|split]]]; cycle 4.
  { intros out Hout parsed Hrange.
    unfold validate_with_openrouter. run_monad.
    fold the_call. rewrite Hout. fold parsed.
    unfold QualityAssessment_init.
    destruct Hrange as [Hr|[Hr|[Hr|Hr]]]; rewrite Hr;
      rewrite ?andb_false_r; reflexivity. }
  - destruct (validate_with_openrouter_returns response_text w log)
      as (qa & Hrun & _).
    exists qa. unfold outcome. now rewrite Hrun.
  - intros e He. unfold validate_with_openrouter. run_monad.
    fold the_call. now rewrite He.
  - repeat split.
  - intros out Hout Hlines. unfold validate_with_openrouter. run_monad.
    fold the_call. rewrite Hout.
    destruct (quality_lines_unlabelled _ quality_defaults Hlines)
      as (S1 & S2 & S3 & S4 & F1 & F2).
    unfold QualityAssessment_init. rewrite S1, S2, S3, S4. cbn.
    eexists; split; [reflexivity|]. auto.
Qed.

End ValidatorFacts.

Lemma unformatted_answer_unlabelled :
  Forall unlabelled (split_on newline unformatted_answer).
Proof. repeat constructor. Qed.

Lemma validator_failure_defaults_witness :
  (outcome (@validate_with_openrouter latin1_builtins (lit "texto"))
     timing_out_world []
   = Ok quality_error_default)
  /\ (exists qa,
        outcome (@validate_with_openrouter latin1_builtins (lit "texto"))
          (constant_world unformatted_answer) [] = Ok qa
        /\ overall_score qa = FFinite (8 # 10)
        /\ needs_improvement qa = false
        /\ needs_human_review qa = false)
  /\ outcome (@validate_with_openrouter latin1_builtins (lit "texto"))
       (constant_world score_out_of_range) []
     = Ok quality_error_default.
Proof.
  split; [|split].
  - apply (proj1 (proj2 (@validator_failure_defaults latin1_builtins
                           (lit "texto") timing_out_world [])))
      with (e := mkExn TimeoutError []).
    reflexivity.
  - apply (proj1 (proj2 (proj2 (proj2
             (@validator_failure_defaults latin1_builtins
                (lit "texto") (constant_world unformatted_answer) [])))))
      with (out := unformatted_answer).
    + reflexivity.
    + exact unformatted_answer_unlabelled.
  - apply (proj2 (proj2 (proj2 (proj2
             (@validator_failure_defaults latin1_builtins
                (lit "texto") (constant_world score_out_of_range) [])))))
      with (out := score_out_of_range).
    + reflexivity.
    + left. vm_compute. reflexivity.
Defined.

(** A score outside [0, 1] makes the construction of the assessment fail
    inside the [try], which also ends in the 0.75 default. *)
Example out_of_range_score_defaults :
  outcome (@validate_with_openrouter latin1_builtins (lit "texto"))
    (constant_world score_out_of_range) []
  = Ok quality_error_default.
Proof. vm_compute. reflexivity. Qed.

(** A label followed by text that is not a number leaves the initial 0.8. *)
Example unreadable_score_keeps_initial_value :
  match outcome (@validate_with_openrouter latin1_builtins (lit "texto"))
          (constant_world (text ["SCORE_GERAL: alto"])) [] with
  | Ok qa => overall_score qa = FFinite (8 # 10)
  | Exc _ => False
  end.
Proof. vm_compute. reflexivity. Qed.

(** C7 as stated fails: output without any labelled line yields overall
    score 0.8, not 0.75. *)
Lemma unparsable_validation_counterexample :
  Forall unlabelled (split_on newline unformatted_answer)
  /\ exists qa,
       outcome (@validate_with_openrouter latin1_builtins (lit "texto"))
         (constant_world unformatted_answer) [] = Ok qa
       /\ overall_score qa = FFinite (8 # 10)
       /\ overall_score qa <> FFinite (75 # 100)
       /\ ~ (8 # 10 == 75 # 100)%Q.
Proof.
  split; [exact unformatted_answer_unlabelled|].
  eexists. split; [vm_compute; reflexivity|].
  split; [reflexivity|]. split; [discriminate|].
  unfold Qeq. cbn. lia.
Qed.

(** ** The hybrid run *)

Section HybridFacts.
Context `{PyBuiltins}.

(** The guardrail checker always returns, after exactly one call. *)
Lemma check_guardrails_with_openrouter_returns
    (response_text : str) (w : World) (log : list Call) :
  exists gc,
    check_guardrails_with_openrouter response_text w log
    = (Ok gc,
       log ++ [mkCall guardrail_checker_agent (guardrail_prompt response_text) None]).
Proof.
  unfold check_guardrails_with_openrouter. run_monad.
  destruct (w log _) as [out|e]; eexists; reflexivity.
Qed.

(** When the guardrail call raises, the check passes and its one
    violation entry is therefore not copied into the warnings. *)
Lemma guardrail_failure_passes
    (response_text : str) (w : World) (log : list Call) (e : exn) :
  w log (mkCall guardrail_checker_agent (guardrail_prompt response_text) None)
  = Exc e ->
  exists gc,
    outcome (check_guardrails_with_openrouter response_text) w log = Ok gc
    /\ passed gc = true
    /\ violations gc = [lit "Sistema de guardrails falhou: " ++ exn_msg e].
Proof.
  intros He. unfold check_guardrails_with_openrouter. run_monad. rewrite He.
  eexists; repeat split.
Qed.

Lemma validate_and_respond_completed
    (query : LegalQuery) (response_text : str) (w : World) (log : list Call) :
  is_ok (check_overall_summary response_text) = true ->
  exists qa gc r log',
    outcome (validate_with_openrouter response_text) w log = Ok qa
    /\ outcome (check_guardrails_with_openrouter response_text) w
         (log_after (validate_with_openrouter response_text) w log) = Ok gc
    /\ validate_and_respond query response_text w log = (Ok r, log')
    /\ status r = COMPLETED
    /\ overall_summary r = response_text
    /\ query_id r = lq_id query
    /\ warnings r = advisory_warnings qa gc.
Proof.
  intros Hvalid.
  destruct (validate_with_openrouter_returns response_text w log)
    as (qa & Hqa & Hscore & Hcompl).
  destruct (check_guardrails_with_openrouter_returns response_text w
              (log ++ [mkCall quality_validator_agent
                         (validation_prompt response_text) None]))
    as (gc & Hgc).
  destruct (check_overall_summary response_text) as [v|e] eqn:Hsum;
    [|discriminate].
  apply check_overall_summary_ok in Hsum as Hsum'. destruct Hsum' as [-> _].
  exists qa, gc. unfold validate_and_respond, outcome, log_after.
  unfold bind at 1. rewrite Hqa. cbn [fst snd].
  unfold bind at 1. rewrite Hgc. cbn [fst snd].
  unfold bind, lift, ret, FinalResponse_init. rewrite Hsum.
  cbn [from_option id]. rewrite Hscore, Hcompl. cbn [negb].
  eexists _, _. repeat split.
Qed.

(** C6. In a run whose synthesis produced a text that [FinalResponse]
    accepts, the response has status [COMPLETED] whatever the quality
    validator and the guardrail checker return or raise; what they return
    only decides the warnings: the validator's suggestions when it asks
    for improvement, and one warning per violation when the guardrails did
    not pass. *)
Theorem validators_are_advisory
    (query : LegalQuery) (w : World) (log log1 : list Call)
    (response_text : str) :
  gather_and_synthesize query w log = (Ok response_text, log1) ->
  is_ok (check_overall_summary response_text) = true ->
  exists qa gc r log2,
    outcome (validate_with_openrouter response_text) w log1 = Ok qa
    /\ outcome (check_guardrails_with_openrouter response_text) w
         (log_after (validate_with_openrouter response_text) w log1) = Ok gc
    /\ process_legal_query_hybrid_corrected query w log = (Ok r, log2)
    /\ status r = COMPLETED
    /\ overall_summary r = response_text
    /\ warnings r = advisory_warnings qa gc.
Proof.
  intros Hsynth Hvalid.
  destruct (validate_and_respond_completed query response_text w log1 Hvalid)
    as (qa & gc & r & log2 & Hqa & Hgc & Hrun & Hst & Hsum & _ & Hwarn).
  exists qa, gc, r, log2.
  unfold process_legal_query_hybrid_corrected, try_except.
  unfold bind at 1. rewrite Hsynth, Hrun. auto 10.
Qed.

End HybridFacts.

Lemma validators_are_advisory_witness :
  exists r log2,
    @process_legal_query_hybrid_corrected latin1_builtins sample_query
      (constant_world sample_answer) [] = (Ok r, log2)
    /\ status r = COMPLETED.
Proof.
  pose (run := @gather_and_synthesize latin1_builtins sample_query
                 (constant_world sample_answer) []).
  assert (Hg : @gather_and_synthesize latin1_builtins sample_query
                 (constant_world sample_answer) []
               = (Ok (result_or [] (fst run)), snd run))
    by (vm_compute; reflexivity).
  assert (Hvalid : is_ok (@check_overall_summary latin1_builtins
                            (result_or [] (fst run))) = true)
    by (vm_compute; reflexivity).
  destruct (@validators_are_advisory latin1_builtins sample_query
              (constant_world sample_answer) [] (snd run)
              (result_or [] (fst run)) Hg Hvalid)
    as (qa & gc & r & log2 & _ & _ & Hrun & Hst & _).
  exists r, log2. auto.
Defined.

Example critical_validators_only_warn :
  match outcome (@process_legal_query_hybrid_corrected latin1_builtins sample_query)
          critical_world [] with
  | Ok r =>
    status r = COMPLETED
    /\ warnings r = [lit "Citar artigos de lei"; lit "Atenção: Falta disclaimer"]
  | Exc _ => False
  end.
Proof. vm_compute. split; reflexivity. Qed.

Example failing_validators_do_not_fail_the_run :
  match outcome (@process_legal_query_hybrid_corrected latin1_builtins sample_query)
          failing_validators_world [] with
  | Ok r => status r = COMPLETED /\ warnings r = []
  | Exc _ => False
  end.
Proof. vm_compute. split; reflexivity. Qed.

(** A run whose synthesis cannot be reached ends with status [FAILED]. *)
Example failed_run_is_typed :
  match outcome (@process_legal_query_hybrid_corrected latin1_builtins sample_query)
          timing_out_world [] with
  | Ok r => status r = FAILED
  | Exc _ => False
  end.
Proof. vm_compute. reflexivity. Qed.

(** ** The synthesis node *)

Section SynthesizerFacts.
Context `{PyBuiltins}.
Variable synthesize_with_hybrid_corrected_approach :
  str -> str -> str -> str -> M SimpleFinalResponse.
Variable format_crag_docs_for_prompt : list DocumentSnippet -> str.
Variable format_tavily_results_for_prompt : list TavilySearchResult -> str.
Variable format_lexml_results_for_prompt : list LexMLDocumento -> str.

Lemma FinalResponse_init_accepts
    (qid v : str) (disc : option str) (warns : option (list str))
    (st : option Status) :
  is_ok (check_overall_summary v) = true ->
  exists r,
    FinalResponse_init (Some qid) (Some v) None None disc warns st = Ok r.
Proof.
  intros Hv. unfold FinalResponse_init.
  destruct (check_overall_summary v); [|discriminate].
  cbn [from_option id].
  change (unit_interval (FFinite 0)) with true. cbn [negb].
  eexists; reflexivity.
Qed.

(** The second half of C1: provided the two fixed summaries of the node
    pass validation, [synthesize_response] returns a dict with a
    [final_response] for every state and every behaviour of the synthesis
    call, a raising one included. *)
Lemma synthesize_response_always_responds
    (state : AgentState) (w : World) (log : list Call) :
  is_ok (check_overall_summary missing_query_summary) = true ->
  is_ok (check_overall_summary emergency_summary) = true ->
  exists update log' r,
    synthesize_response synthesize_with_hybrid_corrected_approach
      format_crag_docs_for_prompt format_tavily_results_for_prompt
      format_lexml_results_for_prompt state w log = (Ok update, log')
    /\ st_final_response update = Val r.
Proof.
  intros Hmissing Hemergency. unfold synthesize_response.
  destruct (get (st_query state)) as [query_object|].
  - run_monad.
    destruct (synthesize_with_hybrid_corrected_approach _ _ _ _ w log)
      as [[llm_response|e] log1].
    + destruct (FinalResponse_init (Some (lq_id query_object))
                  (Some (sfr_overall_summary llm_response)) None None
                  (Some (sfr_disclaimer llm_response)) None None)
        as [r|e].
      * eexists _, _, r. split; reflexivity.
      * destruct (FinalResponse_init_accepts (lq_id query_object)
                    emergency_summary
                    (Some (lit "Resposta de erro técnico. Este sistema utiliza IA para assistência jurídica, mas não substitui consulta profissional com advogado especializado."))
                    None None Hemergency) as [r Hr].
        rewrite Hr. eexists _, _, r. split; reflexivity.
    + destruct (FinalResponse_init_accepts (lq_id query_object)
                  emergency_summary
                  (Some (lit "Resposta de erro técnico. Este sistema utiliza IA para assistência jurídica, mas não substitui consulta profissional com advogado especializado."))
                  None None Hemergency) as [r Hr].
      rewrite Hr. eexists _, _, r. split; reflexivity.
  - run_monad.
    destruct (FinalResponse_init_accepts (lit "unknown") missing_query_summary
                (Some (lit "Este é um erro técnico do sistema. Para orientação jurídica, consulte um advogado especializado."))
                None None Hmissing) as [r Hr].
    rewrite Hr. eexists _, _, r. split; reflexivity.
Qed.

End SynthesizerFacts.

Lemma synthesize_response_always_responds_latin1
    (synthesize : str -> str -> str -> str -> M SimpleFinalResponse)
    (format_crag : list DocumentSnippet -> str)
    (format_tavily : list TavilySearchResult -> str)
    (format_lexml : list LexMLDocumento -> str)
    (state : AgentState) (w : World) (log : list Call) :
  exists update log' r,
    @synthesize_response latin1_builtins synthesize format_crag format_tavily
      format_lexml state w log = (Ok update, log')
    /\ st_final_response update = Val r.
Proof.
  apply (@synthesize_response_always_responds latin1_builtins);
    vm_compute; reflexivity.
Qed.

(** The error handler at its default message and at an explicit one. *)
Example handle_error_on_empty_state :
  @handle_error latin1_builtins no_update
  = validation_error "query_id: Field required".
Proof. reflexivity. Qed.

Example handle_error_on_error_state :
  is_ok (@handle_error latin1_builtins
           (mkAgentState Absent Absent Absent Absent Absent Absent Absent Absent
              (Val (lit "falha na busca. Tente novamente."))))
  = false.
Proof. reflexivity. Qed.

(** ** Bounds on the number of calls *)

Lemma at_most_calls_ret {A} (a : A) : at_most_calls 0 (ret a).
Proof. intros w log. cbn. lia. Qed.

Lemma at_most_calls_agent_run (agent : AgentId) (prompt : str) :
  at_most_calls 1 (agent_run agent prompt).
Proof. intros w log. cbn. rewrite length_app. cbn. lia. Qed.

Lemma at_most_calls_bind {A B} (n m : nat) (c : M A) (k : A -> M B) :
  at_most_calls n c -> (forall a, at_most_calls m (k a)) ->
  at_most_calls (n + m) (bind c k).
Proof.
  intros Hc Hk w log. unfold bind. specialize (Hc w log).
  destruct (c w log) as [[a|e] log']; cbn [snd] in *.
  - specialize (Hk a w log'). lia.
  - lia.
Qed.

Lemma at_most_calls_try_except {A} (n m : nat) (body : M A)
    (handler : exn -> M A) :
  at_most_calls n body -> (forall e, at_most_calls m (handler e)) ->
  at_most_calls (n + m) (try_except body handler).
Proof.
  intros Hb Hh w log. unfold try_except. specialize (Hb w log).
  destruct (body w log) as [[a|e] log']; cbn [snd] in *.
  - lia.
  - specialize (Hh e w log'). lia.
Qed.

Lemma at_most_calls_weaken {A} (n m : nat) (c : M A) :
  (n <= m)%nat -> at_most_calls n c -> at_most_calls m c.
Proof. intros Hnm Hc w log. specialize (Hc w log). lia. Qed.

Create HintDb calls.
#[local] Hint Resolve at_most_calls_ret at_most_calls_agent_run : calls.

Lemma at_most_calls_section
    (v : Variant) (sec : SectionId) (query analysis_text : str) :
  at_most_calls 2 (synthesize_section v sec query analysis_text).
Proof.
  intros w log.
  apply (synthesize_section_at_most_two_calls v sec query analysis_text w log).
Qed.

Lemma at_most_calls_fallback (query analysis_text : str) :
  at_most_calls 1 (synthesize_with_openrouter_fallback query analysis_text).
Proof.
  unfold synthesize_with_openrouter_fallback.
  apply (at_most_calls_try_except 1 0); [|auto with calls].
  apply (at_most_calls_bind 1 0); [auto with calls|].
  intros a. destruct (200 <=? length (strip a))%nat; auto with calls.
Qed.

(** The four-part synthesis issues at most nine calls: two per section and
    one for the single-call fallback. There is no loop to bound. *)
Lemma four_parts_at_most_nine_calls (query analysis_text : str) :
  at_most_calls 9 (synthesize_with_openrouter_4_parts query analysis_text).
Proof.
  unfold synthesize_with_openrouter_4_parts.
  apply (at_most_calls_try_except 8 1);
    [|intros e; apply at_most_calls_fallback].
  apply (at_most_calls_bind 2 6); [apply at_most_calls_section|intros i].
  apply (at_most_calls_bind 2 4); [apply at_most_calls_section|intros d].
  apply (at_most_calls_bind 2 2); [apply at_most_calls_section|intros a].
  apply (at_most_calls_bind 2 0); [apply at_most_calls_section|intros c].
  auto with calls.
Qed.

(** The four-part synthesis always returns a text: a failing section falls
    back to the single call, a failing single call to the template. *)
Lemma four_parts_always_returns
    (query analysis_text : str) (w : World) (log : list Call) :
  exists answer,
    outcome (synthesize_with_openrouter_4_parts query analysis_text) w log
    = Ok answer.
Proof.
  unfold synthesize_with_openrouter_4_parts, outcome, try_except at 1.
  destruct (bind _ _ w log) as [[answer|e] log']; [eexists; reflexivity|].
  unfold synthesize_with_openrouter_fallback, try_except, bind, agent_run,
    agent_run_with, ret.
  destruct (w log' _) as [t|e']; [|eexists; reflexivity].
  destruct (200 <=? length (strip t))%nat; eexists; reflexivity.
Qed.

(** ** Runs of the graph *)

Lemma successors_evaluate (state : AgentState) :
  successors build_graph NODE_EVALUATE state = [route_after_evaluation state].
Proof.
  unfold successors.
  replace (g_conditional build_graph !! NODE_EVALUATE)
    with (Some (route_after_evaluation,
                (<[ NODE_WEB_SEARCH := NODE_WEB_SEARCH ]>
                   (<[ NODE_SYNTHESIZE := NODE_SYNTHESIZE ]> ∅)
                 : gmap string string)))
    by reflexivity.
  unfold route_after_evaluation.
  destruct (st_needs_web_search state) as [| |[|]]; reflexivity.
Qed.

Lemma walk_unfold (g : StateGraph) (fuel : nat)
    (state_after : string -> AgentState) (node : string) :
  walk g (S fuel) state_after node
  = if String.eqb node END then [END]
    else node ::
         match successors g node (state_after node) with
         | next :: _ => walk g fuel state_after next
         | [] => []
         end.
Proof. reflexivity. Qed.

Section WalkShape.
Variable state_after : string -> AgentState.

Lemma walk_from_synthesize (fuel : nat) :
  walk build_graph (S (S fuel)) state_after NODE_SYNTHESIZE
  = [NODE_SYNTHESIZE; END].
Proof. rewrite !walk_unfold. reflexivity. Qed.

Lemma walk_from_web_search (fuel : nat) :
  walk build_graph (S (S (S fuel))) state_after NODE_WEB_SEARCH
  = [NODE_WEB_SEARCH; NODE_SYNTHESIZE; END].
Proof. rewrite walk_unfold, <- (walk_from_synthesize fuel). reflexivity. Qed.

Lemma walk_from_evaluate (fuel : nat) :
  walk build_graph (S (S (S (S fuel)))) state_after NODE_EVALUATE
  = NODE_EVALUATE
    :: (if wants_web (state_after NODE_EVALUATE) then [NODE_WEB_SEARCH] else [])
    ++ [NODE_SYNTHESIZE; END].
Proof.
  rewrite walk_unfold. change (String.eqb NODE_EVALUATE END) with false.
  cbv iota. rewrite successors_evaluate.
  unfold route_after_evaluation, wants_web.
  destruct (st_needs_web_search (state_after NODE_EVALUATE)) as [| |[|]];
    first [ rewrite walk_from_web_search | rewrite walk_from_synthesize ];
    reflexivity.
Qed.

Lemma walk_from_lexml (fuel : nat) :
  walk build_graph (S (S (S (S (S fuel))))) state_after NODE_LEXML
  = [NODE_LEXML; NODE_EVALUATE]
    ++ (if wants_web (state_after NODE_EVALUATE) then [NODE_WEB_SEARCH] else [])
    ++ [NODE_SYNTHESIZE; END].
Proof.
  rewrite walk_unfold. change (String.eqb NODE_LEXML END) with false.
  change (successors build_graph NODE_LEXML (state_after NODE_LEXML))
    with [NODE_EVALUATE].
  cbv iota. rewrite walk_from_evaluate. reflexivity.
Qed.

(** The shape of every run from the entry point. *)
Lemma walk_shape (fuel : nat) :
  walk build_graph (8 + fuel) state_after NODE_RETRIEVE
  = [NODE_RETRIEVE; NODE_GRADE]
    ++ (if eq_literal (get (st_grade (state_after NODE_GRADE))) "irrelevant"
        then [NODE_TRANSFORM] else [])
    ++ [NODE_LEXML; NODE_EVALUATE]
    ++ (if wants_web (state_after NODE_EVALUATE) then [NODE_WEB_SEARCH] else [])
    ++ [NODE_SYNTHESIZE; END].
Proof.
  change (8 + fuel)%nat with (S (S (S (S (S (S (S (S fuel)))))))).
  rewrite walk_unfold. change (String.eqb NODE_RETRIEVE END) with false.
  change (successors build_graph NODE_RETRIEVE (state_after NODE_RETRIEVE))
    with [NODE_GRADE].
  cbv iota.
  rewrite walk_unfold. change (String.eqb NODE_GRADE END) with false.
  cbv iota. rewrite successors_grade. unfold route_after_grading.
  destruct (eq_literal (get (st_grade (state_after NODE_GRADE))) "relevant")
    eqn:Hrel.
  - assert (Hirr : eq_literal (get (st_grade (state_after NODE_GRADE)))
                     "irrelevant" = false).
    { apply eq_literal_true in Hrel. apply eq_literal_false. rewrite Hrel.
      discriminate. }
    rewrite Hirr, walk_from_lexml. reflexivity.
  - destruct (eq_literal (get (st_grade (state_after NODE_GRADE))) "irrelevant").
    + rewrite walk_unfold. change (String.eqb NODE_TRANSFORM END) with false.
      change (successors build_graph NODE_TRANSFORM (state_after NODE_TRANSFORM))
        with [NODE_LEXML].
      cbv iota. rewrite walk_from_lexml. reflexivity.
    + rewrite walk_from_lexml. reflexivity.
Qed.

End WalkShape.

(** ** Runs that execute the nodes *)

Lemma run_graph_unfold {St} (g : StateGraph) (view : St -> AgentState)
    (body : string -> St -> option St) (fuel : nat)
    (node : string) (state : St) :
  run_graph g view body (S fuel) node state
  = if String.eqb node END then ([END], Finished state)
    else
      match body node state with
      | None => ([node], Aborted node state)
      | Some state' =>
        match successors g node (view state') with
        | next :: _ => entering node (run_graph g view body fuel next state')
        | [] => ([node], Finished state')
        end
      end.
Proof. reflexivity. Qed.

Section RunShape.
Context {St : Type}.
Variable view : St -> AgentState.
Variable body : string -> St -> option St.

Lemma ended_properly_weaken (required required' : list string) (n n' : nat)
    (run : list string * RunEnd St) :
  incl required' required -> (n <= n')%nat ->
  ended_properly body required n run ->
  ended_properly body required' n' run.
Proof.
  intros Hincl Hle (Hlen & Herr & Hend). split; [lia|]. split; [exact Herr|].
  destruct (snd run); [| |exact Hend].
  - destruct Hend as [Hreq Hlast]. split; [|exact Hlast].
    intros x Hx. apply Hreq, Hincl, Hx.
  - destruct Hend as (Hlast & Hraised & Hshort). repeat split; auto; lia.
Qed.

Lemma run_graph_at_end (fuel : nat) (state : St) :
  ended_properly body [] 1
    (run_graph build_graph view body (S fuel) END state).
Proof.
  rewrite run_graph_unfold. change (String.eqb END END) with true. cbv iota.
  split; [cbn; lia|]. split.
  - cbn. intros [Hin|[]]. discriminate Hin.
  - cbn. split; [intros x []|reflexivity].
Qed.

(** One node of a run: when the node is neither [END] nor the error
    handler and the run from each of its successors ends properly, so does
    the run from the node. *)
Lemma run_graph_step (node : string) (required : list string)
    (n fuel : nat) (state : St) :
  String.eqb node END = false ->
  node <> NODE_ERROR ->
  (0 < n)%nat ->
  (forall state',
     body node state = Some state' ->
     exists next rest,
       successors build_graph node (view state') = next :: rest
       /\ ended_properly body required n
            (run_graph build_graph view body fuel next state')) ->
  ended_properly body (node :: required) (S n)
    (run_graph build_graph view body (S fuel) node state).
Proof.
  intros Hnode Herror Hpos Hnext. rewrite run_graph_unfold, Hnode.
  destruct (body node state) as [state'|] eqn:Hbody.
  - destruct (Hnext state' eq_refl) as (next & rest & -> & Hlen & Herr & Hend).
    unfold entering, ended_properly. cbn [fst snd].
    split; [cbn; lia|]. split.
    + intros [Hin|Hin]; [congruence|contradiction].
    + destruct (snd (run_graph build_graph view body fuel next state')).
      * destruct Hend as [Hreq Hlast]. split.
        -- intros x [<-|Hx]; [left; reflexivity|right; apply Hreq, Hx].
        -- rewrite last_cons, Hlast. reflexivity.
      * destruct Hend as (Hlast & Hraised & Hshort).
        split; [|split; [exact Hraised|cbn; lia]].
        rewrite last_cons, Hlast. reflexivity.
      * exact Hend.
  - unfold ended_properly. cbn [fst snd]. split; [cbn; lia|]. split.
    + intros [Hin|[]]. congruence.
    + split; [reflexivity|]. split; [exact Hbody|cbn; lia].
Qed.

Lemma run_graph_from_synthesize (fuel : nat) (state : St) :
  ended_properly body [NODE_SYNTHESIZE] 2
    (run_graph build_graph view body (S (S fuel)) NODE_SYNTHESIZE state).
Proof.
  apply run_graph_step; [reflexivity|discriminate|lia|].
  intros state' _. exists END, []. split; [reflexivity|].
  apply run_graph_at_end.
Qed.

Lemma run_graph_from_web_search (fuel : nat) (state : St) :
  ended_properly body [NODE_SYNTHESIZE] 3
    (run_graph build_graph view body (S (S (S fuel))) NODE_WEB_SEARCH state).
Proof.
  apply ended_properly_weaken with (required := [NODE_WEB_SEARCH; NODE_SYNTHESIZE])
                                   (n := 3%nat);
    [intros x [<-|[]]; right; left; reflexivity|lia|].
  apply run_graph_step; [reflexivity|discriminate|lia|].
  intros state' _. exists NODE_SYNTHESIZE, []. split; [reflexivity|].
  apply run_graph_from_synthesize.
Qed.

Lemma run_graph_from_evaluate (fuel : nat) (state : St) :
  ended_properly body [NODE_EVALUATE; NODE_SYNTHESIZE] 4
    (run_graph build_graph view body (S (S (S (S fuel)))) NODE_EVALUATE state).
Proof.
  apply run_graph_step; [reflexivity|discriminate|lia|].
  intros state' _. rewrite successors_evaluate.
  exists (route_after_evaluation (view state')), []. split; [reflexivity|].
  unfold route_after_evaluation.
  destruct (st_needs_web_search (view state')) as [| |[|]];
    first [ apply run_graph_from_web_search
          | apply ended_properly_weaken
              with (required := [NODE_SYNTHESIZE]) (n := 2%nat);
            [intros x Hx; exact Hx|lia|apply run_graph_from_synthesize] ].
Qed.

Lemma run_graph_from_lexml (fuel : nat) (state : St) :
  ended_properly body [NODE_LEXML; NODE_EVALUATE; NODE_SYNTHESIZE] 5
    (run_graph build_graph view body (S (S (S (S (S fuel))))) NODE_LEXML state).
Proof.
  apply run_graph_step; [reflexivity|discriminate|lia|].
  intros state' _. exists NODE_EVALUATE, []. split; [reflexivity|].
  apply run_graph_from_evaluate.
Qed.

Lemma run_graph_from_transform (fuel : nat) (state : St) :
  ended_properly body [NODE_LEXML; NODE_EVALUATE; NODE_SYNTHESIZE] 6
    (run_graph build_graph view body (S (S (S (S (S (S fuel))))))
       NODE_TRANSFORM state).
Proof.
  apply ended_properly_weaken
    with (required := [NODE_TRANSFORM; NODE_LEXML; NODE_EVALUATE;
                       NODE_SYNTHESIZE]) (n := 6%nat);
    [intros x Hx; right; exact Hx|lia|].
  apply run_graph_step; [reflexivity|discriminate|lia|].
  intros state' _. exists NODE_LEXML, []. split; [reflexivity|].
  apply run_graph_from_lexml.
Qed.

Lemma run_graph_from_grade (fuel : nat) (state : St) :
  ended_properly body
    [NODE_GRADE; NODE_LEXML; NODE_EVALUATE; NODE_SYNTHESIZE] 7
    (run_graph build_graph view body (S (S (S (S (S (S (S fuel)))))))
       NODE_GRADE state).
Proof.
  apply run_graph_step; [reflexivity|discriminate|lia|].
  intros state' _. rewrite successors_grade.
  exists (route_after_grading (view state')), []. split; [reflexivity|].
  unfold route_after_grading.
  destruct (eq_literal _ "relevant");
    [|destruct (eq_literal _ "irrelevant")];
    first [ apply run_graph_from_transform
          | apply ended_properly_weaken
              with (required := [NODE_LEXML; NODE_EVALUATE; NODE_SYNTHESIZE])
                   (n := 5%nat);
            [intros x Hx; exact Hx|lia|apply run_graph_from_lexml] ].
Qed.

Lemma run_graph_from_retrieve (fuel : nat) (state : St) :
  ended_properly body
    [NODE_RETRIEVE; NODE_GRADE; NODE_LEXML; NODE_EVALUATE; NODE_SYNTHESIZE] 8
    (run_graph build_graph view body (8 + fuel) NODE_RETRIEVE state).
Proof.
  change (8 + fuel)%nat with (S (S (S (S (S (S (S (S fuel)))))))).
  apply run_graph_step; [reflexivity|discriminate|lia|].
  intros state' _. exists NODE_GRADE, []. split; [reflexivity|].
  apply run_graph_from_grade.
Qed.

(** X1. A run of the compiled graph from the entry point, with the nodes
    executed and whatever they do, never runs out of steps and never
    enters the error handler, to which no edge leads. It ends in one of
    two ways. Either it is aborted in the node whose body raised, which is
    the last node entered. Or it finishes at [END], and then it went
    through grading, the jurisprudence search, the evaluation and the
    synthesis. In both cases the run starts in the retrieval and enters at
    most seven nodes. When no body raises, the run finishes. *)
Theorem run_graph_finishes_or_aborts (fuel : nat) (state : St) :
  let run := run_graph build_graph view body (8 + fuel) NODE_RETRIEVE state in
  let path := fst run in
  head path = Some NODE_RETRIEVE
  /\ (length path <= 8)%nat
  /\ ~ In NODE_ERROR path
  /\ match snd run with
     | Finished _ =>
       In NODE_GRADE path /\ In NODE_LEXML path /\ In NODE_EVALUATE path
       /\ In NODE_SYNTHESIZE path /\ last path = Some END
     | Aborted node at_state =>
       last path = Some node /\ body node at_state = None
       /\ (length path <= 7)%nat
     | OutOfSteps => False
     end
  /\ ((forall node at_state, body node at_state <> None) ->
      exists final, snd run = Finished final).
Proof.
  cbv zeta.
  destruct (run_graph_from_retrieve fuel state) as (Hlen & Herr & Hend).
  assert (Hhead : head (fst (run_graph build_graph view body (8 + fuel)
                               NODE_RETRIEVE state)) = Some NODE_RETRIEVE).
  { change (8 + fuel)%nat with (S (S (S (S (S (S (S (S fuel)))))))).
    rewrite run_graph_unfold. change (String.eqb NODE_RETRIEVE END) with false.
    cbv iota. destruct (body NODE_RETRIEVE state) as [state'|]; [|reflexivity].
    change (successors build_graph NODE_RETRIEVE (view state'))
      with [NODE_GRADE].
    reflexivity. }
  split; [exact Hhead|]. split; [exact Hlen|]. split; [exact Herr|].
  destruct (snd (run_graph build_graph view body (8 + fuel) NODE_RETRIEVE state))
    as [final|node at_state|] eqn:Hsnd.
  - destruct Hend as [Hreq Hlast]. split.
    + repeat split; try exact Hlast; apply Hreq; cbn; auto 10.
    + intros _. exists final. reflexivity.
  - destruct Hend as (Hlast & Hraised & Hshort). split.
    + split; [exact Hlast|]. split; [exact Hraised|lia].
    + intros Htotal. destruct (Htotal node at_state Hraised).
  - destruct Hend.
Qed.

End RunShape.

Lemma run_graph_finishes_or_aborts_witness :
  exists final,
    snd (run_graph build_graph (fun state => state)
           (fun _ state => Some (merge state (update_grade (lit "irrelevant"))))
           8 NODE_RETRIEVE state_with_one_document)
    = Finished final.
Proof.
  apply (proj2 (proj2 (proj2 (proj2
           (run_graph_finishes_or_aborts (fun state => state)
              (fun _ state =>
                 Some (merge state (update_grade (lit "irrelevant"))))
              0 state_with_one_document))))).
  intros node at_state. discriminate.
Defined.

(** A run whose jurisprudence search is [search_jurisprudencia] is aborted
    in that node when the state has no key [current_query]: the [KeyError]
    of the node ends the run before the evaluation and the synthesis. *)
Example run_without_current_query_is_aborted :
  run_graph build_graph fst (@bodies_with_lexml_search latin1_builtins) 8
    NODE_RETRIEVE (state_with_one_document, no_keys)
  = ([NODE_RETRIEVE; NODE_GRADE; NODE_LEXML],
     Aborted NODE_LEXML (state_with_one_document, no_keys)).
Proof. vm_compute. reflexivity. Qed.

(** With the key present the same run finishes. *)
Example run_with_current_query_finishes :
  fst (run_graph build_graph fst (@bodies_with_lexml_search latin1_builtins) 8
         NODE_RETRIEVE (state_with_one_document, keys_with_current_query))
  = [NODE_RETRIEVE; NODE_GRADE; NODE_LEXML; NODE_EVALUATE; NODE_SYNTHESIZE;
     END].
Proof. vm_compute. reflexivity. Qed.

(** X2. In a run from the entry point the query rewrite runs exactly when
    the grade left by the grader is "irrelevant", and the web search runs
    exactly when the evaluation left [needs_web_search] set to [True]; a
    missing key or [None] skips it. *)
Theorem optional_nodes_run_exactly_when_routed
    (fuel : nat) (state_after : string -> AgentState) :
  let path := walk build_graph (8 + fuel) state_after NODE_RETRIEVE in
  (In NODE_TRANSFORM path
   <-> get (st_grade (state_after NODE_GRADE)) = Some (lit "irrelevant"))
  /\ (In NODE_WEB_SEARCH path
      <-> st_needs_web_search (state_after NODE_EVALUATE) = Val true).
Proof.
  cbv zeta. rewrite walk_shape.
  rewrite <- eq_literal_true.
  assert (Hweb : wants_web (state_after NODE_EVALUATE) = true
                 <-> st_needs_web_search (state_after NODE_EVALUATE) = Val true).
  { unfold wants_web.
    destruct (st_needs_web_search (state_after NODE_EVALUATE)) as [| |[|]];
      split; congruence. }
  rewrite <- Hweb.
  destruct (eq_literal _ "irrelevant"), (wants_web _); cbn;
    (split; split; [|auto 10 | |auto 10]); try discriminate; auto 10;
    intros Hin; repeat (destruct Hin as [Hin|Hin]; [discriminate Hin|]);
    destruct Hin.
Qed.

Lemma optional_nodes_run_exactly_when_routed_witness :
  In NODE_TRANSFORM
    (walk build_graph 8 (fun _ => update_grade (lit "irrelevant")) NODE_RETRIEVE).
Proof.
  apply (proj1 (optional_nodes_run_exactly_when_routed 0
                  (fun _ => update_grade (lit "irrelevant")))).
  reflexivity.
Defined.

(** ** The grader node beyond the empty retrieval *)

Section GraderTotality.
Context `{PyBuiltins}.

(** X3. [grade_documents] never raises and issues at most one call; when
    there are documents to grade and the grader call fails, the grade is
    "relevant", so a failing grader sends the run on to the jurisprudence
    search rather than to the query rewrite. *)
Theorem grade_documents_fails_open
    (grader_agent : option AgentId) (state : AgentState)
    (w : World) (log : list Call) :
  (exists g, outcome (grade_documents grader_agent state) w log
             = Ok (update_grade g))
  /\ (length (log_after (grade_documents grader_agent state) w log)
      <= length log + 1)%nat
  /\ (forall agent query d ds,
        grader_agent = Some agent ->
        get (st_query state) = Some query ->
        get (st_retrieved_docs state) = Some (d :: ds) ->
        (forall c, is_ok (w log c) = false) ->
        outcome (grade_documents grader_agent state) w log
        = Ok (update_grade (lit "relevant"))
        /\ route_after_grading
             (merge state (update_grade (lit "relevant"))) = NODE_LEXML).
Proof.
  split; [|split].
  - unfold grade_documents.
    destruct grader_agent as [agent|]; [|eexists; reflexivity].
    destruct (get (st_query state)) as [query|]; [|eexists; reflexivity].
    destruct (get (st_retrieved_docs state)) as [[|d ds]|];
      try (eexists; reflexivity).
    run_monad. destruct (w log _); eexists; reflexivity.
  - unfold grade_documents.
    destruct grader_agent as [agent|]; [|cbn; lia].
    destruct (get (st_query state)) as [query|]; [|cbn; lia].
    destruct (get (st_retrieved_docs state)) as [[|d ds]|]; try (cbn; lia).
    run_monad. destruct (w log _); cbn [snd]; rewrite length_app; cbn; lia.
  - intros agent query d ds -> Hq Hd Hfail. split; [|reflexivity].
    unfold grade_documents. rewrite Hq, Hd. run_monad.
    match goal with |- context [w log ?c] => specialize (Hfail c) end.
    destruct (w log _); [discriminate|reflexivity].
Qed.

End GraderTotality.

Lemma grade_documents_fails_open_witness :
  outcome (@grade_documents latin1_builtins (Some grader_agent_id)
             state_with_one_document) timing_out_world []
  = Ok (update_grade (lit "relevant")).
Proof.
  apply (proj2 (proj2 (@grade_documents_fails_open latin1_builtins
                         (Some grader_agent_id) state_with_one_document
                         timing_out_world [])))
    with (agent := grader_agent_id) (query := sample_query)
         (d := mkDocumentSnippet (lit "d-1") (lit "codigo-civil.pdf")
                 (lit "Art. 1.085. A exclusão de sócio exige justa causa.") None)
         (ds := []); reflexivity.
Defined.

(** ** The searches of the hybrid run *)

Section SearchFacts.
Context `{PyBuiltins}.


End SearchFacts.


(** X5. The source count reported by [execute_groq_searches] tells which
    branch ran and nothing else: 20 when the agent answered, whatever it
    answered; 10 after a timeout; 0 after any other exception. The summary
    is never empty and never longer than 500 characters. *)
Theorem groq_result_reports_the_branch
    (query : str) (w : World) (log : list Call) :
  let the_call :=
    mkCall groq_search_agent (groq_prompt query) (Some groq_timeout) in
  exists r,
    outcome (execute_groq_searches query) w log = Ok r
    /\ gs_summary r <> []
    /\ (length (gs_summary r) <= 500)%nat
    /\ match w log the_call with
       | Ok answer =>
         total_sources r = 20%Z
         /\ gs_summary r
            = (match answer with
               | [] => lit "Buscas Groq executadas"
               | _ => upto 500 answer
               end)
       | Exc e =>
         match exn_cls e with
         | TimeoutError => total_sources r = 10%Z
         | _ => total_sources r = 0%Z
         end
       end.
Proof.
  intros the_call. unfold execute_groq_searches. run_monad. fold the_call.
  destruct (w log the_call) as [answer|e].
  - eexists. split; [reflexivity|]. cbn [gs_summary parse_groq_response].
    destruct answer as [|c answer].
    + split; [discriminate|]. split; [vm_compute; lia|]. split; reflexivity.
    + split; [discriminate|]. split; [|split; reflexivity].
      unfold upto. rewrite length_take. lia.
  - destruct (exn_cls e); eexists; (split; [reflexivity|]);
      (split; [discriminate|]); (split; [vm_compute; lia|]); reflexivity.
Qed.

(** ** Fallbacks of the synthesis *)

Ltac compute_text_lengths :=
  repeat match goal with
  | |- context [length (text ?l)] =>
    let n := eval vm_compute in (length (text l)) in
    replace (length (text l)) with n by (vm_compute; reflexivity)
  end.

Lemma Ok_inj {A} (a b : A) : Ok a = Ok b -> a = b.
Proof. now intros [= ->]. Qed.

Lemma create_fallback_response_long (query analysis_text : str) :
  (200 <= length (create_fallback_response query analysis_text))%nat.
Proof.
  unfold create_fallback_response. rewrite !length_app.
  compute_text_lengths. lia.
Qed.

Lemma synthesize_with_openrouter_fallback_returns
    (query analysis_text : str) (w : World) (log : list Call) :
  exists c answer,
    synthesize_with_openrouter_fallback query analysis_text w log
    = (Ok answer, log ++ [c])
    /\ call_agent c = final_synthesizer_agent
    /\ (200 <= length answer)%nat.
Proof.
  unfold synthesize_with_openrouter_fallback. run_monad.
  match goal with
  | |- context [w log ?c] => exists c; destruct (w log c) as [t|e]
  end.
  - destruct (200 <=? length (strip t))%nat eqn:Hlen.
    + eexists. split; [reflexivity|]. split; [reflexivity|].
      now apply Nat.leb_le.
    + eexists. split; [reflexivity|]. split; [reflexivity|].
      apply create_fallback_response_long.
  - eexists. split; [reflexivity|]. split; [reflexivity|].
    apply create_fallback_response_long.
Qed.

(** X6. The single-call fallback of the synthesis never raises, issues
    exactly one call and always returns at least 200 characters: a shorter
    or failed answer is replaced by the template, which quotes the query
    verbatim. *)
Theorem synthesis_fallback_never_short
    (query analysis_text : str) (w : World) (log : list Call) :
  (exists c answer,
     synthesize_with_openrouter_fallback query analysis_text w log
     = (Ok answer, log ++ [c])
     /\ call_agent c = final_synthesizer_agent
     /\ (200 <= length answer)%nat)
  /\ verbatim_in ([quote] ++ query ++ [quote])
       (create_fallback_response query analysis_text).
Proof.
  split; [apply synthesize_with_openrouter_fallback_returns|].
  unfold create_fallback_response.
  match goal with
  | |- verbatim_in _ (?a ++ _ ++ _ ++ _ ++ ?rest) => exists a, rest
  end.
  rewrite <- !app_assoc. reflexivity.
Qed.

(** The four-part synthesis, with its [try] and its sequence of sections
    written out. *)
Lemma four_parts_unfold
    (query analysis_text : str) (w : World) (log : list Call) :
  synthesize_with_openrouter_4_parts query analysis_text w log
  = match synthesize_section FourParts Introduction query analysis_text w log
    with
    | (Exc _, log') =>
      synthesize_with_openrouter_fallback query analysis_text w log'
    | (Ok introduction, log') =>
      match synthesize_section FourParts Development query analysis_text w log'
      with
      | (Exc _, log') =>
        synthesize_with_openrouter_fallback query analysis_text w log'
      | (Ok development, log') =>
        match synthesize_section FourParts DetailedAnalysis query
                analysis_text w log'
        with
        | (Exc _, log') =>
          synthesize_with_openrouter_fallback query analysis_text w log'
        | (Ok detailed_analysis, log') =>
          match synthesize_section FourParts Conclusion query analysis_text
                  w log'
          with
          | (Exc _, log') =>
            synthesize_with_openrouter_fallback query analysis_text w log'
          | (Ok conclusion, log') =>
            (Ok (text ["## INTRODUÇÃO"; ""; ""] ++ introduction
                 ++ text [""; ""; "## DESENVOLVIMENTO"; ""; ""]
                 ++ development
                 ++ text [""; ""; "## ANÁLISE DETALHADA"; ""; ""]
                 ++ detailed_analysis
                 ++ text [""; ""; "## CONCLUSÃO"; ""; ""] ++ conclusion),
             log')
          end
        end
      end
    end.
Proof.
  unfold synthesize_with_openrouter_4_parts, try_except at 1. unfold bind.
  destruct (synthesize_section FourParts Introduction _ _ w log)
    as [[i|ei] l1]; [|reflexivity].
  destruct (synthesize_section FourParts Development _ _ w l1)
    as [[d|ed] l2]; [|reflexivity].
  destruct (synthesize_section FourParts DetailedAnalysis _ _ w l2)
    as [[a|ea] l3]; [|reflexivity].
  destruct (synthesize_section FourParts Conclusion _ _ w l3)
    as [[c|ec] l4]; reflexivity.
Qed.

Ltac fallback_case Hfallback l :=
  let answer := fresh "answer" in
  let l' := fresh "l" in
  let Hrun := fresh "Hrun" in
  let Hlen := fresh "Hlen" in
  destruct (Hfallback l) as (answer & l' & Hrun & Hlen);
  rewrite Hrun; cbn [fst];
  split;
  [ exists answer; split; [reflexivity|]; intros ->; cbn in Hlen; lia
  | split; [reflexivity|]; exists answer; split; [reflexivity|exact Hlen] ].

(** X7. The four-part synthesis never raises and never returns an empty
    text. When the four sections are written, in the order introduction,
    development, detailed analysis, conclusion, each call seeing the log
    the one before left, it returns exactly the four sections, each under
    its header, in that order. When a section fails, the sections already
    written are dropped and the result is that of the single-call
    fallback, run on the log the failing section left: a text of at least
    200 characters. *)
Theorem four_parts_never_empty
    (query analysis_text : str) (w : World) (log : list Call) :
  let run := synthesize_with_openrouter_4_parts query analysis_text in
  let section sec := synthesize_section FourParts sec query analysis_text in
  let falls_back (log' : list Call) :=
    run w log
    = synthesize_with_openrouter_fallback query analysis_text w log'
    /\ exists answer,
         outcome run w log = Ok answer /\ (200 <= length answer)%nat in
  (exists answer, outcome run w log = Ok answer /\ answer <> [])
  /\ match section Introduction w log with
     | (Exc _, log') => falls_back log'
     | (Ok introduction, log') =>
       match section Development w log' with
       | (Exc _, log') => falls_back log'
       | (Ok development, log') =>
         match section DetailedAnalysis w log' with
         | (Exc _, log') => falls_back log'
         | (Ok detailed_analysis, log') =>
           match section Conclusion w log' with
           | (Exc _, log') => falls_back log'
           | (Ok conclusion, log') =>
             run w log
             = (Ok (text ["## INTRODUÇÃO"; ""; ""] ++ introduction
                    ++ text [""; ""; "## DESENVOLVIMENTO"; ""; ""]
                    ++ development
                    ++ text [""; ""; "## ANÁLISE DETALHADA"; ""; ""]
                    ++ detailed_analysis
                    ++ text [""; ""; "## CONCLUSÃO"; ""; ""] ++ conclusion),
                log')
           end
         end
       end
     end.
Proof.
  cbv zeta.
  assert (Hfallback : forall log',
            exists answer log'',
              synthesize_with_openrouter_fallback query analysis_text w log'
              = (Ok answer, log'')
              /\ (200 <= length answer)%nat).
  { intros log'.
    destruct (synthesize_with_openrouter_fallback_returns query analysis_text
                w log') as (c & answer & Hrun & _ & Hlen).
    exists answer, (log' ++ [c]). split; [exact Hrun|exact Hlen]. }
  unfold outcome. rewrite !four_parts_unfold.
  destruct (synthesize_section FourParts Introduction _ _ w log)
    as [[i|ei] l1]; [|fallback_case Hfallback l1].
  destruct (synthesize_section FourParts Development _ _ w l1)
    as [[d|ed] l2]; [|fallback_case Hfallback l2].
  destruct (synthesize_section FourParts DetailedAnalysis _ _ w l2)
    as [[a|ea] l3]; [|fallback_case Hfallback l3].
  destruct (synthesize_section FourParts Conclusion _ _ w l3)
    as [[c|ec] l4]; [|fallback_case Hfallback l4].
  cbn [fst]. split; [|reflexivity].
  eexists. split; [reflexivity|].
  intros Hnil. apply (f_equal (@length N)) in Hnil.
  rewrite !length_app in Hnil. revert Hnil. compute_text_lengths.
  cbn. lia.
Qed.

(** ** The streaming synthesis *)


(** ** Sections that reach their floor *)

Lemma long_section_kept_witness :
  outcome (synthesize_section FourParts Introduction [] [])
    (constant_world two_hundred_words) []
  = Ok (strip two_hundred_words).
Proof.
  pose proof (long_section_kept FourParts Introduction [] []
                (constant_world two_hundred_words) [] two_hundred_words
                eq_refl) as Hkept.
  unfold outcome. rewrite Hkept; [reflexivity|].
  vm_compute. lia.
Defined.

(** ** Silent failures and the outcome of the hybrid run *)

Section HybridOutcome.
Context `{PyBuiltins}.

(** X9. When both the quality validator and the guardrail checker fail,
    a run whose synthesis is accepted still completes, and its response
    carries no warning at all: the validator's default does not ask for
    improvement and the guardrail default passes, so neither failure
    message reaches the response. *)
Theorem validator_failures_leave_no_warning
    (query : LegalQuery) (response_text : str) (w : World) (log : list Call) :
  is_ok (check_overall_summary response_text) = true ->
  (forall l c,
     call_agent c = quality_validator_agent
     \/ call_agent c = guardrail_checker_agent ->
     is_ok (w l c) = false) ->
  exists r log',
    validate_and_respond query response_text w log = (Ok r, log')
    /\ status r = COMPLETED
    /\ overall_summary r = response_text
    /\ overall_confidence r = FFinite (75 # 100)
    /\ warnings r = [].
Proof.
  intros Hvalid Hfail.
  destruct (check_overall_summary response_text) as [v|e] eqn:Hsum;
    [|discriminate].
  apply check_overall_summary_ok in Hsum as Hsum'. destruct Hsum' as [-> _].
  unfold validate_and_respond, validate_with_openrouter,
    check_guardrails_with_openrouter.
  run_monad.
  match goal with
  | |- context [w log ?c] =>
    pose proof (Hfail log c (or_introl eq_refl)) as H1;
    destruct (w log c); [discriminate H1|]
  end.
  match goal with
  | |- context [w ?l (mkCall guardrail_checker_agent ?p ?t)] =>
    pose proof (Hfail l (mkCall guardrail_checker_agent p t)
                  (or_intror eq_refl)) as H2;
    destruct (w l (mkCall guardrail_checker_agent p t)); [discriminate H2|]
  end.
  unfold FinalResponse_init. rewrite Hsum.
  cbn [from_option id overall_score completeness quality_error_default
       needs_improvement passed negb].
  change (unit_interval (FFinite (75 # 100))) with true.
  change (unit_interval (FFinite (8 # 10))) with true.
  cbn [negb]. eexists _, _. repeat split.
Qed.

(** X10. [process_legal_query_hybrid_corrected] always returns a typed
    response for the query it was given, provided its fixed failure text
    passes validation: the status is [COMPLETED] with the synthesized text
    when stages 1 to 4 produced a text that [FinalResponse] accepts, and
    [FAILED] with the failure text and one warning in every other case. *)
Theorem hybrid_run_always_answers
    (query : LegalQuery) (w : World) (log : list Call) :
  is_ok (check_overall_summary hybrid_failure_summary) = true ->
  exists r log',
    process_legal_query_hybrid_corrected query w log = (Ok r, log')
    /\ query_id r = lq_id query
    /\ match gather_and_synthesize query w log with
       | (Ok response_text, _) =>
         if is_ok (check_overall_summary response_text)
         then status r = COMPLETED /\ overall_summary r = response_text
         else status r = FAILED /\ overall_summary r = hybrid_failure_summary
       | (Exc _, _) =>
         status r = FAILED /\ overall_summary r = hybrid_failure_summary
         /\ warnings r = [lit "Falha no sistema híbrido OpenRouter + Groq"]
       end.
Proof.
  intros Hfailure.
  assert (Hfailed : forall log1, exists r,
            lift (FinalResponse_init (Some (lq_id query))
                    (Some hybrid_failure_summary) None None
                    (Some (lit "Sistema indisponível. Tente novamente mais tarde."))
                    (Some [lit "Falha no sistema híbrido OpenRouter + Groq"])
                    (Some FAILED)) w log1 = (Ok r, log1)
            /\ query_id r = lq_id query /\ status r = FAILED
            /\ overall_summary r = hybrid_failure_summary
            /\ warnings r = [lit "Falha no sistema híbrido OpenRouter + Groq"]).
  { intros log1.
    destruct (FinalResponse_init (Some (lq_id query))
                (Some hybrid_failure_summary) None None
                (Some (lit "Sistema indisponível. Tente novamente mais tarde."))
                (Some [lit "Falha no sistema híbrido OpenRouter + Groq"])
                (Some FAILED)) as [r|e] eqn:Hinit.
    - apply FinalResponse_init_ok in Hinit
        as (q & s & [= <-] & [= <-] & _ & Hq & Hs & Hst & Hw).
      exists r. unfold lift. auto 10.
    - exfalso. revert Hinit. unfold FinalResponse_init.
      destruct (check_overall_summary hybrid_failure_summary);
        [|discriminate Hfailure].
      cbn [from_option id]. change (unit_interval (FFinite 0)) with true.
      cbn [negb]. discriminate. }
  unfold process_legal_query_hybrid_corrected, try_except.
  unfold bind at 1.
  destruct (gather_and_synthesize query w log) as [[response_text|e] log1].
  - destruct (is_ok (check_overall_summary response_text)) eqn:Hvalid.
    + destruct (validate_and_respond_completed query response_text w log1
                  Hvalid)
        as (qa & gc & r & log2 & _ & _ & Hrun & Hst & Hsum & Hq & _).
      rewrite Hrun. exists r, log2. auto.
    + destruct (validate_with_openrouter_returns response_text w log1)
        as (qa & Hqa & _).
      destruct (check_guardrails_with_openrouter_returns response_text w
                  (log1 ++ [mkCall quality_validator_agent
                              (validation_prompt response_text) None]))
        as (gc & Hgc).
      assert (Hexc : exists e log2,
                validate_and_respond query response_text w log1
                = (Exc e, log2)).
      { unfold validate_and_respond.
        unfold bind at 1. rewrite Hqa. cbn [fst snd].
        unfold bind at 1. rewrite Hgc. cbn [fst snd].
        unfold bind, lift, FinalResponse_init.
        destruct (check_overall_summary response_text); [discriminate|].
        eexists _, _. reflexivity. }
      destruct Hexc as (e & log2 & Hexc). rewrite Hexc.
      destruct (Hfailed log2) as (r & Hr & Hq & Hst & Hsum & _).
      rewrite Hr. eexists _, _. auto.
  - destruct (Hfailed log1) as (r & Hr & Hq & Hst & Hsum & Hw).
    rewrite Hr. eexists _, _. auto 10.
Qed.

End HybridOutcome.

Lemma validator_failures_leave_no_warning_witness :
  exists r log',
    @validate_and_respond latin1_builtins sample_query emergency_summary
      failing_validators_world [] = (Ok r, log')
    /\ warnings r = [].
Proof.
  destruct (@validator_failures_leave_no_warning latin1_builtins sample_query
              emergency_summary failing_validators_world [])
    as (r & log' & Hrun & _ & _ & _ & Hw).
  - vm_compute. reflexivity.
  - intros l c [Hc|Hc]; unfold failing_validators_world; rewrite Hc;
      reflexivity.
  - exists r, log'. auto.
Defined.

Lemma hybrid_run_always_answers_witness :
  exists r log',
    @process_legal_query_hybrid_corrected latin1_builtins sample_query
      timing_out_world [] = (Ok r, log')
    /\ query_id r = lq_id sample_query.
Proof.
  destruct (@hybrid_run_always_answers latin1_builtins sample_query
              timing_out_world [])
    as (r & log' & Hrun & Hq & _).
  - vm_compute. reflexivity.
  - exists r, log'. auto.
Defined.

(** ** Construction bounds of the models *)



Section ModelBounds.
Context `{PyBuiltins}.


End ModelBounds.


(** ** The grade read from the grader's answer *)

Lemma ci_prefix_split (pat s m rest : str) :
  ci_prefix pat s = Some (m, rest) ->
  s = m ++ rest /\ Forall2 (fun p c => ci_char p c = true) pat m.
Proof.
  revert s m rest. induction pat as [|p pat IH]; intros s m rest.
  - cbn. intros [= <- <-]. split; [reflexivity|constructor].
  - destruct s as [|c s]; cbn [ci_prefix]; [discriminate|].
    destruct (ci_char p c) eqn:Hc; [|discriminate].
    destruct (ci_prefix pat s) as [[m' rest']|] eqn:Hp; [|discriminate].
    intros [= <- <-]. destruct (IH _ _ _ Hp) as [-> Hall].
    split; [reflexivity|]. constructor; assumption.
Qed.

Lemma ci_char_ascii_lower (p c : N) :
  ci_char p c = true -> c < 128 -> grade_char p = true ->
  lower_char c = [p].
Proof.
  unfold ci_char, grade_char, lower_char. intros Hci Hc Hp.
  assert (Hcases : c = p \/ (97 <= p <= 122 /\ c = p - 32)).
  { repeat (apply orb_true_iff in Hci as [Hci|Hci]).
    - left. now apply N.eqb_eq.
    - right. apply andb_true_iff in Hci as [Hr Hci].
      apply andb_true_iff in Hr as [Hlo Hhi].
      apply N.leb_le in Hlo, Hhi. apply N.eqb_eq in Hci. lia.
    - apply andb_true_iff in Hci as [_ Hci].
      apply orb_true_iff in Hci as [Hci|Hci]; apply N.eqb_eq in Hci; lia.
    - apply andb_true_iff in Hci as [_ Hci]. apply N.eqb_eq in Hci. lia.
    - apply andb_true_iff in Hci as [_ Hci]. apply N.eqb_eq in Hci. lia. }
  assert (Hrange : 97 <= p <= 122 \/ p = 95).
  { apply orb_true_iff in Hp as [Hp|Hp].
    - apply andb_true_iff in Hp as [Hlo Hhi].
      apply N.leb_le in Hlo, Hhi. lia.
    - apply N.eqb_eq in Hp. lia. }
  destruct Hcases as [->|[Hr ->]].
  - replace ((65 <=? p) && (p <=? 90)
             || (192 <=? p) && (p <=? 222) && negb (p =? 215)) with false.
    + replace (p =? 304) with false; [reflexivity|].
      symmetry. apply N.eqb_neq. lia.
    + symmetry. apply orb_false_iff. split.
      * apply andb_false_iff. right. apply N.leb_gt. lia.
      * apply andb_false_iff. left. apply andb_false_iff. left.
        apply N.leb_gt. lia.
  - replace ((65 <=? p - 32) && (p - 32 <=? 90)
             || (192 <=? p - 32) && (p - 32 <=? 222)
                && negb (p - 32 =? 215)) with true.
    + f_equal. lia.
    + symmetry. apply orb_true_iff. left. apply andb_true_iff.
      split; apply N.leb_le; lia.
Qed.

Lemma ci_match_lowers (pat m : str) :
  Forall2 (fun p c => ci_char p c = true) pat m ->
  forallb grade_char pat = true -> ascii_only m ->
  flat_map lower_char m = pat.
Proof.
  induction 1 as [|p c pat m Hc Hall IH]; [reflexivity|].
  cbn [forallb flat_map]. intros Hp Hm.
  apply andb_true_iff in Hp as [Hp Hpat]. inversion Hm; subst.
  rewrite (ci_char_ascii_lower p c), IH; auto.
Qed.

Lemma lstrip_ascii (s : str) : ascii_only s -> ascii_only (lstrip s).
Proof.
  unfold ascii_only. induction 1 as [|c s Hc Hs IH]; cbn [lstrip].
  - constructor.
  - destruct (is_space c); [assumption|constructor; assumption].
Qed.

Lemma match_relevancia_here_ascii (s g : str) :
  ascii_only s -> match_relevancia_here s = Some g ->
  In (flat_map lower_char g) known_grades.
Proof.
  unfold match_relevancia_here. intros Hs.
  destruct (ci_prefix (lit "relevancia:") s) as [[m rest]|] eqn:Hlabel;
    [|discriminate].
  apply ci_prefix_split in Hlabel as [-> _].
  apply Forall_app in Hs as [_ Hrest]. apply lstrip_ascii in Hrest.
  revert Hrest. generalize (lstrip rest). intros t Ht.
  assert (Hone : forall a m' rest',
            forallb grade_char a = true ->
            ci_prefix a t = Some (m', rest') ->
            flat_map lower_char m' = a).
  { intros a m' rest' Ha Hp. apply ci_prefix_split in Hp as [-> Hall].
    apply Forall_app in Ht as [Hm' _]. now apply ci_match_lowers. }
  cbn [first_alternative].
  destruct (ci_prefix (lit "relevant") t) as [[m1 r1]|] eqn:H1.
  { intros [= <-]. rewrite (Hone (lit "relevant") _ _ ltac:(vm_compute; reflexivity) H1). left. reflexivity. }
  destruct (ci_prefix (lit "irrelevant") t) as [[m2 r2]|] eqn:H2.
  { intros [= <-]. rewrite (Hone (lit "irrelevant") _ _ ltac:(vm_compute; reflexivity) H2).
    right. left. reflexivity. }
  destruct (ci_prefix (lit "needs_web_search") t) as [[m3 r3]|] eqn:H3.
  { intros [= <-]. rewrite (Hone (lit "needs_web_search") _ _ ltac:(vm_compute; reflexivity) H3).
    right. right. left. reflexivity. }
  discriminate.
Qed.

Lemma search_relevancia_ascii (text g : str) :
  ascii_only text -> search_relevancia text = Some g ->
  In (flat_map lower_char g) known_grades /\ ascii_only g.
Proof.
  assert (Hg : forall s g0, ascii_only s ->
            match_relevancia_here s = Some g0 -> ascii_only g0).
  { intros s g0 Hs. unfold match_relevancia_here.
    destruct (ci_prefix (lit "relevancia:") s) as [[m rest]|] eqn:Hlabel;
      [|discriminate].
    apply ci_prefix_split in Hlabel as [-> _].
    apply Forall_app in Hs as [_ Hrest]. apply lstrip_ascii in Hrest.
    revert Hrest. generalize (lstrip rest). intros t Ht. cbn [first_alternative].
    repeat match goal with
    | |- match match ci_prefix ?a t with _ => _ end with _ => _ end = _ -> _ =>
      let Hp := fresh "Hp" in
      destruct (ci_prefix a t) as [[? ?]|] eqn:Hp;
      [intros [= <-]; apply ci_prefix_split in Hp as [-> _];
       apply Forall_app in Ht as [Ht _]; exact Ht|]
    | |- match ci_prefix ?a t with _ => _ end = _ -> _ =>
      let Hp := fresh "Hp" in
      destruct (ci_prefix a t) as [[? ?]|] eqn:Hp;
      [intros [= <-]; apply ci_prefix_split in Hp as [-> _];
       apply Forall_app in Ht as [Ht _]; exact Ht|]
    end.
    discriminate. }
  intros Htext. induction Htext as [|c text Hc Htext IH].
  - cbn [search_relevancia].
    destruct (match_relevancia_here []) eqn:Hm; [|discriminate].
    intros [= <-]. split.
    + eapply match_relevancia_here_ascii; [|exact Hm]. constructor.
    + eapply Hg; [|exact Hm]. constructor.
  - cbn [search_relevancia].
    destruct (match_relevancia_here (c :: text)) eqn:Hm; [|exact IH].
    intros [= <-].
    assert (Hall : ascii_only (c :: text)) by (constructor; assumption).
    split.
    + eapply match_relevancia_here_ascii; [exact Hall|exact Hm].
    + eapply Hg; [exact Hall|exact Hm].
Qed.

Section GraderParsing.
Context `{PyBuiltins}.

(** X13. On an answer of pure ASCII, [parse_grader_response] returns one
    of the three grades "relevant", "irrelevant" and "needs_web_search",
    written in lower case however the answer spelled it, provided [lower]
    lower-cases ASCII text as Python does. *)
Theorem parse_grader_response_known_grade (answer : str) :
  (forall s, ascii_only s -> lower s = flat_map lower_char s) ->
  ascii_only answer ->
  In (parse_grader_response answer) known_grades.
Proof.
  intros Hlower Hascii. unfold parse_grader_response.
  destruct (search_relevancia answer) as [g|] eqn:Hsearch.
  - destruct (search_relevancia_ascii answer g Hascii Hsearch) as [Hin Hg].
    rewrite (Hlower g Hg). exact Hin.
  - destruct (contains (lit "irrelevant") (lower answer));
      [right; left; reflexivity|].
    destruct (contains (lit "needs_web_search") (lower answer));
      [right; right; left; reflexivity|left; reflexivity].
Qed.

End GraderParsing.

Lemma parse_grader_response_known_grade_witness :
  In (@parse_grader_response latin1_builtins
        (lit "RELEVANCIA: Needs_Web_Search"))
     known_grades.
Proof.
  apply (@parse_grader_response_known_grade latin1_builtins).
  - intros s _. reflexivity.
  - unfold ascii_only. apply Forall_forall. intros c Hc.
    apply N.ltb_lt.
    revert c Hc. apply Forall_forall.
    vm_compute. repeat constructor.
Defined.

(** ** Cleaning text for the prompt *)

Lemma sub_runs_from_id (cls : N -> bool) (b : bool) (s : str) :
  Forall (fun c => cls c = false) s -> sub_runs_from cls b s = s.
Proof.
  intros Hs. revert b. induction Hs as [|c s Hc Hs IH]; intros b;
    cbn [sub_runs_from]; [reflexivity|].
  rewrite Hc. f_equal. apply IH.
Qed.

Lemma filter_not_control (t : str) :
  Forall (fun c => is_control c = false)
    (List.filter (fun c => negb (is_control c)) t).
Proof.
  induction t as [|c t IH]; cbn [List.filter]; [constructor|].
  destruct (is_control c) eqn:Hc; cbn [negb]; [exact IH|].
  constructor; assumption.
Qed.

Lemma filter_not_control_id (s : str) :
  Forall (fun c => is_control c = false) s ->
  List.filter (fun c => negb (is_control c)) s = s.
Proof.
  induction 1 as [|c s Hc Hs IH]; cbn [List.filter]; [reflexivity|].
  rewrite Hc. cbn [negb]. f_equal. exact IH.
Qed.

Lemma not_control_not_break (c : N) :
  is_control c = false -> (10 =? c) = false /\ (13 =? c) = false.
Proof.
  intros Hc. split.
  - destruct (10 =? c) eqn:He; [|reflexivity].
    apply N.eqb_eq in He. subst c. discriminate Hc.
  - destruct (13 =? c) eqn:He; [|reflexivity].
    apply N.eqb_eq in He. subst c. discriminate Hc.
Qed.

Lemma clean_text_for_json_eq (t : str) :
  clean_text_for_json t
  = strip (sub_runs is_space (List.filter (fun c => negb (is_control c)) t)).
Proof.
  pose proof (filter_not_control t) as Hf.
  assert (H10 : Forall (fun c => (10 =? c) = false)
                  (List.filter (fun c => negb (is_control c)) t)).
  { eapply Forall_impl; [exact Hf|]. intros c Hc.
    apply (not_control_not_break c Hc). }
  assert (H13 : Forall (fun c => (13 =? c) = false)
                  (List.filter (fun c => negb (is_control c)) t)).
  { eapply Forall_impl; [exact Hf|]. intros c Hc.
    apply (not_control_not_break c Hc). }
  destruct t as [|c t]; [reflexivity|].
  unfold clean_text_for_json, sub_runs.
  rewrite (sub_runs_from_id (N.eqb 10) false _ H10).
  rewrite (sub_runs_from_id (N.eqb 13) false _ H13).
  reflexivity.
Qed.

Lemma sub_runs_from_loosely (b : bool) (s : str) :
  loosely_spaced (sub_runs_from is_space b s) = true
  /\ (b = true -> head_not_space (sub_runs_from is_space b s) = true).
Proof.
  revert b. induction s as [|c r IH]; intros b; [split; reflexivity|].
  cbn [sub_runs_from]. destruct (is_space c) eqn:Hc.
  - destruct b.
    + apply IH.
    + destruct (IH true) as [Hl Hh]. split; [|discriminate].
      cbn [loosely_spaced]. change (is_space 32) with true.
      change (32 =? 32) with true. rewrite (Hh eq_refl), Hl. reflexivity.
  - destruct (IH false) as [Hl _]. split.
    + cbn [loosely_spaced]. rewrite Hc, Hl. reflexivity.
    + intros _. cbn [head_not_space]. rewrite Hc. reflexivity.
Qed.

Lemma sub_runs_from_not_control (b : bool) (s : str) :
  Forall (fun c => is_control c = false) s ->
  Forall (fun c => is_control c = false) (sub_runs_from is_space b s).
Proof.
  intros Hs. revert b. induction Hs as [|c s Hc Hs IH]; intros b;
    cbn [sub_runs_from]; [constructor|].
  destruct (is_space c).
  - destruct b; [apply IH|]. constructor; [reflexivity|apply IH].
  - constructor; [exact Hc|apply IH].
Qed.

Lemma lstrip_Forall (P : N -> Prop) (s : str) :
  Forall P s -> Forall P (lstrip s).
Proof.
  induction 1 as [|c s Hc Hs IH]; cbn [lstrip]; [constructor|].
  destruct (is_space c); [assumption|constructor; assumption].
Qed.

Lemma rstrip_Forall (P : N -> Prop) (s : str) :
  Forall P s -> Forall P (rstrip s).
Proof.
  intros Hs. unfold rstrip. apply Forall_rev, lstrip_Forall, Forall_rev.
  exact Hs.
Qed.

Lemma lstrip_loosely (s : str) :
  loosely_spaced s = true ->
  loosely_spaced (lstrip s) = true /\ head_not_space (lstrip s) = true.
Proof.
  induction s as [|c r IH]; [split; reflexivity|].
  cbn [lstrip]. intros Hl. destruct (is_space c) eqn:Hc.
  - apply IH. cbn [loosely_spaced] in Hl.
    apply andb_true_iff in Hl as [_ Hl]. exact Hl.
  - split; [exact Hl|]. cbn [head_not_space]. rewrite Hc. reflexivity.
Qed.

Lemma lstrip_snoc (a : str) (c : N) :
  lstrip (a ++ [c])
  = match lstrip a with
    | [] => if is_space c then [] else [c]
    | y => y ++ [c]
    end.
Proof.
  induction a as [|d a IH]; cbn [app lstrip].
  - destruct (is_space c); reflexivity.
  - destruct (is_space d); [exact IH|reflexivity].
Qed.

Lemma rstrip_cons (c : N) (r : str) :
  rstrip (c :: r)
  = match rstrip r with
    | [] => if is_space c then [] else [c]
    | y => c :: y
    end.
Proof.
  unfold rstrip. cbn [rev]. rewrite lstrip_snoc.
  destruct (lstrip (rev r)) as [|d y] eqn:Hl.
  - cbn [rev]. destruct (is_space c); reflexivity.
  - rewrite rev_app_distr. cbn [rev app].
    destruct (rev y ++ [d]) eqn:Hy; [|reflexivity].
    destruct (rev y); discriminate Hy.
Qed.

Lemma rstrip_head (s : str) :
  head_not_space s = true -> head_not_space (rstrip s) = true.
Proof.
  destruct s as [|c r]; [reflexivity|].
  cbn [head_not_space]. intros Hc. rewrite rstrip_cons.
  apply negb_true_iff in Hc.
  destruct (rstrip r); rewrite ?Hc; cbn [head_not_space]; rewrite Hc;
    reflexivity.
Qed.

Lemma rstrip_starts (r : str) (d : N) (y : str) :
  rstrip r = d :: y -> exists r', r = d :: r'.
Proof.
  destruct r as [|e r']; [discriminate|].
  rewrite rstrip_cons. destruct (rstrip r').
  - destruct (is_space e); [discriminate|]. intros [= <- _]. eauto.
  - intros [= <- _]. eauto.
Qed.

Lemma rstrip_single_spaced (s : str) :
  loosely_spaced s = true -> single_spaced (rstrip s) = true.
Proof.
  induction s as [|c r IH]; [reflexivity|].
  cbn [loosely_spaced]. intros Hl.
  apply andb_true_iff in Hl as [Hc Hr]. specialize (IH Hr).
  rewrite rstrip_cons. destruct (rstrip r) as [|d y] eqn:Hy.
  - destruct (is_space c) eqn:Hs; [reflexivity|].
    cbn [single_spaced]. rewrite Hs. reflexivity.
  - cbn [single_spaced] in IH |- *. rewrite IH.
    destruct (is_space c) eqn:Hs; [|reflexivity].
    apply andb_true_iff in Hc as [-> Hh].
    destruct (rstrip_starts r d y Hy) as [r' ->].
    cbn [head_not_space] in Hh. rewrite Hh. reflexivity.
Qed.

Lemma clean_text_for_json_cleaned (t : str) :
  cleaned (clean_text_for_json t).
Proof.
  rewrite clean_text_for_json_eq. unfold strip, sub_runs.
  set (f := List.filter (fun c => negb (is_control c)) t).
  destruct (sub_runs_from_loosely false f) as [Hl _].
  destruct (lstrip_loosely _ Hl) as [Hl' Hh].
  split; [|split].
  - apply rstrip_Forall, lstrip_Forall, sub_runs_from_not_control,
      filter_not_control.
  - apply rstrip_single_spaced, Hl'.
  - apply rstrip_head, Hh.
Qed.

Lemma single_spaced_sub_runs (b : bool) (s : str) :
  single_spaced s = true ->
  (b = true -> head_not_space s = true) ->
  sub_runs_from is_space b s = s.
Proof.
  revert b. induction s as [|c r IH]; intros b Hs Hb; [reflexivity|].
  cbn [single_spaced] in Hs. apply andb_true_iff in Hs as [Hc Hr].
  cbn [sub_runs_from]. destruct (is_space c) eqn:Hsp.
  - apply andb_true_iff in Hc as [Heq Hnext].
    apply N.eqb_eq in Heq. subst c.
    destruct b.
    + specialize (Hb eq_refl). cbn [head_not_space] in Hb.
      rewrite Hsp in Hb. discriminate Hb.
    + f_equal. apply IH; [exact Hr|]. intros _.
      destruct r; [discriminate Hnext|exact Hnext].
  - f_equal. apply IH; [exact Hr|discriminate].
Qed.

Lemma single_spaced_rstrip (s : str) :
  single_spaced s = true -> rstrip s = s.
Proof.
  induction s as [|c r IH]; [reflexivity|].
  cbn [single_spaced]. intros Hs.
  apply andb_true_iff in Hs as [Hc Hr]. rewrite rstrip_cons, (IH Hr).
  destruct r; [|reflexivity].
  destruct (is_space c); [|reflexivity].
  apply andb_true_iff in Hc as [_ Hc]. discriminate Hc.
Qed.

Lemma head_not_space_lstrip (s : str) :
  head_not_space s = true -> lstrip s = s.
Proof.
  destruct s as [|c r]; [reflexivity|].
  cbn [head_not_space lstrip]. intros Hc.
  apply negb_true_iff in Hc. rewrite Hc. reflexivity.
Qed.

Lemma cleaned_fixed (s : str) : cleaned s -> clean_text_for_json s = s.
Proof.
  intros (Hc & Hs & Hh). rewrite clean_text_for_json_eq.
  rewrite (filter_not_control_id s Hc). unfold sub_runs, strip.
  rewrite (single_spaced_sub_runs false s Hs); [|discriminate].
  rewrite (head_not_space_lstrip s Hh). apply single_spaced_rstrip, Hs.
Qed.

(** X14. The text that [clean_text_for_json] returns has no control
    character, its only whitespace is single spaces between words, and it
    neither starts nor ends with whitespace; cleaning it again changes
    nothing. *)
Theorem clean_text_for_json_idempotent (t : str) :
  cleaned (clean_text_for_json t)
  /\ clean_text_for_json (clean_text_for_json t) = clean_text_for_json t.
Proof.
  split; [apply clean_text_for_json_cleaned|].
  apply cleaned_fixed, clean_text_for_json_cleaned.
Qed.

(** X15. [clean_text_for_json] deletes every control character without
    putting a space in its place. Line feeds, carriage returns and tabs
    are control characters, so the words on either side of a line break
    are joined, and the two substitutions of line breaks by a space never
    apply. *)
Theorem clean_text_for_json_joins_lines (a b : str) (c : N) :
  is_control c = true ->
  clean_text_for_json (a ++ c :: b) = clean_text_for_json (a ++ b).
Proof.
  intros Hc. rewrite !clean_text_for_json_eq, !List.filter_app.
  cbn [List.filter]. rewrite Hc. reflexivity.
Qed.

Lemma clean_text_for_json_joins_lines_witness :
  clean_text_for_json (lit "sócio" ++ newline :: lit "remisso")
  = clean_text_for_json (lit "sócio" ++ lit "remisso").
Proof.
  apply (clean_text_for_json_joins_lines (lit "sócio") (lit "remisso") newline).
  reflexivity.
Defined.

(** ** The prompt formatters and the outcome of the synthesis node *)

Lemma preview_length (limit : nat) (s : str) :
  (length (preview limit s) <= limit + 3)%nat.
Proof.
  unfold preview, upto. destruct (limit <? length s)%nat eqn:Hl.
  - rewrite length_app, length_take.
    change (length (lit "...")) with 3%nat. lia.
  - apply Nat.ltb_ge in Hl. lia.
Qed.

Lemma join_nonempty (sep p : str) (ps : list str) :
  p <> [] -> join sep (p :: ps) <> [].
Proof.
  intros Hp. destruct p as [|c p]; [congruence|].
  destruct ps; cbn [join app]; discriminate.
Qed.

Lemma lit_cons_nonempty (c : N) (p rest : str) : (c :: p) ++ rest <> [].
Proof. discriminate. Qed.

Lemma join_length (parts : list str) :
  (length (join [newline] parts)
   <= sum_list_with (fun p => S (length p)) parts)%nat.
Proof.
  induction parts as [|p [|q ps] IH]; [cbn; lia|cbn; lia|].
  change (join [newline] (p :: q :: ps))
    with (p ++ [newline] ++ join [newline] (q :: ps)).
  rewrite !length_app. cbn [sum_list_with length] in *. lia.
Qed.

(** The lines of a numbered list, when line number [i] of at most [n]
    has at most [g x] characters with its line feed. *)
Lemma imap_length_bound {A} (f : nat -> A -> str) (g : A -> nat) (n : nat)
    (l : list A) :
  (length l <= n)%nat ->
  (forall i x, (i < n)%nat -> (S (length (f i x)) <= g x)%nat) ->
  (sum_list_with (fun p => S (length p)) (imap f l) <= sum_list_with g l)%nat.
Proof.
  revert f n. induction l as [|x l IH]; intros f n Hlen Hf; [cbn; lia|].
  cbn [length] in Hlen. cbn [imap sum_list_with].
  pose proof (Hf 0%nat x ltac:(lia)) as Hx.
  pose proof (IH (f ∘ S) (n - 1)%nat ltac:(lia)
                (fun i y Hi => Hf (S i) y ltac:(lia))) as Hl.
  lia.
Qed.

Lemma str_of_nat_two_digits (i : nat) :
  (i < 10)%nat -> (length (str_of_nat (i + 1)) <= 2)%nat.
Proof.
  intros Hi.
  do 10 (destruct i as [|i]; [vm_compute; lia|]). lia.
Qed.

Lemma str_of_nat_one_digit (i : nat) :
  (i < 3)%nat -> length (str_of_nat (i + 1)) = 1%nat.
Proof.
  intros Hi.
  do 3 (destruct i as [|i]; [vm_compute; reflexivity|]). lia.
Qed.

Ltac compute_lit_lengths :=
  repeat match goal with
  | |- context [length (lit ?s)] =>
    let n := eval vm_compute in (length (lit s)) in
    change (length (lit s)) with n
  end.

(** X16. The prompt formatters read only the first 10 retrieved
    documents, the first 3 web results and the first 3 jurisprudence
    results, and what they return is never the empty string. However long
    the texts are, a formatter shows at most 200, 100 and 150 characters
    of one entry, plus three dots. So the block of the documents has, per
    document read, at most 200 + 3 characters of text and 8 of numbering,
    punctuation and line feed beside the source id; that of the web
    results at most 100 + 3 and 11 beside the title; that of the
    jurisprudence at most 150 + 3 and 13 beside the URN. The 28 and 34
    are the lengths of the texts returned for an empty list. *)
Theorem formatters_limit_their_input
    (docs : list DocumentSnippet) (results : list TavilySearchResult)
    (juris : list LexMLDocumento) :
  format_crag_docs_for_prompt docs
  = format_crag_docs_for_prompt (upto 10 docs)
  /\ format_tavily_results_for_prompt results
     = format_tavily_results_for_prompt (upto 3 results)
  /\ format_lexml_results_for_prompt juris
     = format_lexml_results_for_prompt (upto 3 juris)
  /\ format_crag_docs_for_prompt docs <> []
  /\ format_tavily_results_for_prompt results <> []
  /\ format_lexml_results_for_prompt juris <> []
  /\ (length (format_crag_docs_for_prompt docs)
      <= 28 + sum_list_with
                (fun doc => length (ds_source_id doc) + (200 + 3 + 8))
                (upto 10 docs))%nat
  /\ (length (format_tavily_results_for_prompt results)
      <= 28 + sum_list_with
                (fun res => length (fstr (tv_title res)) + (100 + 3 + 11))
                (upto 3 results))%nat
  /\ (length (format_lexml_results_for_prompt juris)
      <= 34 + sum_list_with
                (fun res => length (fstr (lx_urn res)) + (150 + 3 + 13))
                (upto 3 juris))%nat.
Proof.
  repeat split.
  - destruct docs as [|d docs]; [reflexivity|].
    unfold format_crag_docs_for_prompt, upto. rewrite take_take.
    reflexivity.
  - destruct results as [|r results]; [reflexivity|].
    unfold format_tavily_results_for_prompt, upto. rewrite take_take.
    reflexivity.
  - destruct juris as [|j juris]; [reflexivity|].
    unfold format_lexml_results_for_prompt, upto. rewrite take_take.
    reflexivity.
  - destruct docs as [|d docs]; [vm_compute; discriminate|].
    unfold format_crag_docs_for_prompt, upto. cbn [take imap].
    apply join_nonempty. change (lit "[") with [91]. discriminate.
  - destruct results as [|r results]; [vm_compute; discriminate|].
    unfold format_tavily_results_for_prompt, upto. cbn [take imap].
    apply join_nonempty. change (lit "[Web ") with [91; 87; 101; 98; 32].
    discriminate.
  - destruct juris as [|j juris]; [vm_compute; discriminate|].
    unfold format_lexml_results_for_prompt, upto. cbn [take imap].
    apply join_nonempty.
    change (lit "[Juris ") with [91; 74; 117; 114; 105; 115; 32].
    discriminate.
  - destruct docs as [|d docs]; [vm_compute; lia|].
    unfold format_crag_docs_for_prompt.
    etransitivity; [apply join_length|].
    etransitivity; [|apply Nat.le_add_l].
    apply imap_length_bound with (n := 10%nat);
      [unfold upto; rewrite length_take; lia|].
    intros i doc Hi. cbv zeta. rewrite !length_app. compute_lit_lengths.
    pose proof (str_of_nat_two_digits i Hi).
    pose proof (preview_length 200 (clean_text_for_json (ds_text doc))).
    lia.
  - destruct results as [|r results]; [vm_compute; lia|].
    unfold format_tavily_results_for_prompt.
    etransitivity; [apply join_length|].
    etransitivity; [|apply Nat.le_add_l].
    apply imap_length_bound with (n := 3%nat);
      [unfold upto; rewrite length_take; lia|].
    intros i res Hi. cbv zeta. rewrite !length_app. compute_lit_lengths.
    pose proof (str_of_nat_one_digit i Hi).
    pose proof (preview_length 100 (clean_text_for_json (tv_content res))).
    lia.
  - destruct juris as [|j juris]; [vm_compute; lia|].
    unfold format_lexml_results_for_prompt.
    etransitivity; [apply join_length|].
    etransitivity; [|apply Nat.le_add_l].
    apply imap_length_bound with (n := 3%nat);
      [unfold upto; rewrite length_take; lia|].
    intros i res Hi. cbv zeta. rewrite !length_app. compute_lit_lengths.
    pose proof (str_of_nat_one_digit i Hi).
    assert (Hementa :
              (length (fstr match lx_ementa res with
                            | Some (c :: e) =>
                              Some (preview 150 (clean_text_for_json (c :: e)))
                            | other => other
                            end) <= 153)%nat).
    { destruct (lx_ementa res) as [[|c e]|]; [cbn; lia| |vm_compute; lia].
      apply (preview_length 150). }
    lia.
Qed.

Section SynthesizerOutcome.
Context `{PyBuiltins}.
Variable synthesize_with_hybrid_corrected_approach :
  str -> str -> str -> str -> M SimpleFinalResponse.

(** X17. Provided its two fixed summaries pass validation,
    [synthesize_response] always returns a [final_response] whose status
    is [COMPLETED], with confidence 0 and no warning, also when the query
    is missing, when the synthesis call raises and when the synthesized
    summary is refused: in these cases the update carries an [error]
    message beside a response built from a fixed summary, and in the last
    two the response keeps the id of the query. *)
Theorem synthesize_response_outcomes
    (state : AgentState) (w : World) (log : list Call) :
  is_ok (check_overall_summary missing_query_summary) = true ->
  is_ok (check_overall_summary emergency_summary) = true ->
  exists update log' r,
    synthesize_response synthesize_with_hybrid_corrected_approach
      format_crag_docs_for_prompt format_tavily_results_for_prompt
      format_lexml_results_for_prompt state w log = (Ok update, log')
    /\ st_final_response update = Val r
    /\ status r = COMPLETED
    /\ overall_confidence r = FFinite 0
    /\ warnings r = []
    /\ match get (st_query state) with
       | None =>
         log' = log
         /\ st_error update = Val (lit "Query não encontrada")
         /\ query_id r = lit "unknown"
         /\ overall_summary r = missing_query_summary
       | Some query_object =>
         query_id r = lq_id query_object
         /\ match
              synthesize_with_hybrid_corrected_approach
                (lq_text query_object)
                (format_or format_crag_docs_for_prompt
                   (get (st_retrieved_docs state)) "Nenhum documento CRAG")
                (format_or format_tavily_results_for_prompt
                   (get (st_tavily_results state)) "Nenhuma busca web")
                (format_or format_lexml_results_for_prompt
                   (get (st_lexml_results state)) "Nenhuma jurisprudência")
                w log
            with
            | (Ok llm_response, log1) =>
              log' = log1
              /\ if is_ok (check_overall_summary
                             (sfr_overall_summary llm_response))
                 then st_error update = Absent
                      /\ overall_summary r = sfr_overall_summary llm_response
                 else (exists msg, st_error update = Val msg)
                      /\ overall_summary r = emergency_summary
            | (Exc e, log1) =>
              log' = log1
              /\ st_error update = Val (exn_msg e)
              /\ overall_summary r = emergency_summary
            end
       end.
Proof.
  intros Hmissing Hemergency.
  assert (Hfixed : forall qid v disc,
            is_ok (check_overall_summary v) = true ->
            exists r,
              FinalResponse_init (Some qid) (Some v) None None disc None None
              = Ok r
              /\ status r = COMPLETED /\ overall_confidence r = FFinite 0
              /\ warnings r = [] /\ query_id r = qid
              /\ overall_summary r = v).
  { intros qid v disc Hv. unfold FinalResponse_init.
    destruct (check_overall_summary v) as [v'|] eqn:Hc; [|discriminate].
    apply check_overall_summary_ok in Hc as [-> _].
    cbn [from_option id]. change (unit_interval (FFinite 0)) with true.
    cbn [negb]. eexists. repeat split. }
  unfold synthesize_response.
  destruct (get (st_query state)) as [query_object|].
  - run_monad.
    destruct (synthesize_with_hybrid_corrected_approach _ _ _ _ w log)
      as [[llm_response|e] log1].
    + destruct (is_ok (check_overall_summary
                         (sfr_overall_summary llm_response))) eqn:Hvalid.
      * destruct (Hfixed (lq_id query_object)
                    (sfr_overall_summary llm_response)
                    (Some (sfr_disclaimer llm_response)) Hvalid)
          as (r & -> & Hst & Hconf & Hw & Hq & Hs).
        eexists _, _, r. repeat split; auto.
      * destruct (FinalResponse_init (Some (lq_id query_object))
                    (Some (sfr_overall_summary llm_response)) None None
                    (Some (sfr_disclaimer llm_response)) None None)
          as [r0|e0] eqn:Hinit.
        { apply FinalResponse_init_ok in Hinit
            as (q & s & [= <-] & [= <-] & Hc & _).
          rewrite Hc in Hvalid. discriminate Hvalid. }
        destruct (Hfixed (lq_id query_object) emergency_summary
                    (Some (lit "Resposta de erro técnico. Este sistema utiliza IA para assistência jurídica, mas não substitui consulta profissional com advogado especializado."))
                    Hemergency)
          as (r & -> & Hst & Hconf & Hw & Hq & Hs).
        eexists _, _, r. repeat split; eauto.
    + destruct (Hfixed (lq_id query_object) emergency_summary
                  (Some (lit "Resposta de erro técnico. Este sistema utiliza IA para assistência jurídica, mas não substitui consulta profissional com advogado especializado."))
                  Hemergency)
        as (r & -> & Hst & Hconf & Hw & Hq & Hs).
      eexists _, _, r. repeat split; auto.
  - run_monad.
    destruct (Hfixed (lit "unknown") missing_query_summary
                (Some (lit "Este é um erro técnico do sistema. Para orientação jurídica, consulte um advogado especializado."))
                Hmissing)
      as (r & -> & Hst & Hconf & Hw & Hq & Hs).
    eexists _, _, r. repeat split; auto.
Qed.

End SynthesizerOutcome.

Lemma synthesize_response_outcomes_witness :
  exists update log' r,
    @synthesize_response latin1_builtins failing_synthesis
      format_crag_docs_for_prompt format_tavily_results_for_prompt
      format_lexml_results_for_prompt state_with_one_document
      (constant_world sample_answer) [] = (Ok update, log')
    /\ st_final_response update = Val r
    /\ status r = COMPLETED.
Proof.
  destruct (@synthesize_response_outcomes latin1_builtins failing_synthesis
              state_with_one_document (constant_world sample_answer) [])
    as (update & log' & r & Hrun & Hr & Hst & _).
  - vm_compute. reflexivity.
  - vm_compute. reflexivity.
  - exists update, log', r. auto.
Defined.

(** ** The text of a constructed query *)

Lemma lstrip_length (s : str) : (length (lstrip s) <= length s)%nat.
Proof.
  induction s as [|c r IH]; cbn [lstrip length]; [lia|].
  destruct (is_space c); cbn [length]; lia.
Qed.

Lemma rstrip_length (s : str) : (length (rstrip s) <= length s)%nat.
Proof.
  unfold rstrip. rewrite length_rev.
  etransitivity; [apply lstrip_length|]. rewrite length_rev. lia.
Qed.

Lemma strip_length (s : str) : (length (strip s) <= length s)%nat.
Proof.
  unfold strip. etransitivity; [apply rstrip_length|apply lstrip_length].
Qed.

Lemma lstrip_chars_length (chars s : str) :
  (length (lstrip_chars chars s) <= length s)%nat.
Proof.
  induction s as [|c r IH]; cbn [lstrip_chars length]; [lia|].
  destruct (existsb (N.eqb c) chars); cbn [length]; lia.
Qed.

Lemma strip_chars_length (chars s : str) :
  (length (strip_chars chars s) <= length s)%nat.
Proof.
  unfold strip_chars. rewrite length_rev.
  etransitivity; [apply lstrip_chars_length|]. rewrite length_rev.
  apply lstrip_chars_length.
Qed.

Lemma lstrip_head (s : str) : head_not_space (lstrip s) = true.
Proof.
  induction s as [|c r IH]; [reflexivity|].
  cbn [lstrip]. destruct (is_space c) eqn:Hc; [exact IH|].
  cbn [head_not_space]. rewrite Hc. reflexivity.
Qed.

Lemma lstrip_idempotent (s : str) : lstrip (lstrip s) = lstrip s.
Proof. apply head_not_space_lstrip, lstrip_head. Qed.

Lemma rstrip_idempotent (s : str) : rstrip (rstrip s) = rstrip s.
Proof.
  unfold rstrip. rewrite rev_involutive, lstrip_idempotent. reflexivity.
Qed.

Lemma strip_idempotent (s : str) : strip (strip s) = strip s.
Proof.
  unfold strip.
  rewrite (head_not_space_lstrip (rstrip (lstrip s)));
    [apply rstrip_idempotent|].
  apply rstrip_head, lstrip_head.
Qed.

Lemma check_query_text_ok (v v' : str) :
  check_query_text v = Ok v' ->
  v' = strip v
  /\ (10 <= length v)%nat /\ (Z.of_nat (length v) <= 5000)%Z
  /\ (5 <= length (strip_chars (lit ".,?!;:") v'))%nat.
Proof.
  unfold check_query_text, validate_text_content, validation_error,
    value_error.
  destruct (length v <? 10)%nat eqn:Hmin; [discriminate|].
  destruct (5000 <? Z.of_nat (length v))%Z eqn:Hmax; [discriminate|].
  destruct (strip v) as [|c s] eqn:Hs; cbn [orb]; [discriminate|].
  destruct (length (strip_chars (lit ".,?!;:") (c :: s)) <? 5)%nat eqn:Hp;
    [discriminate|].
  intros [= <-]. apply Nat.ltb_ge in Hmin, Hp. apply Z.ltb_ge in Hmax.
  auto.
Qed.

Lemma check_query_text_stripped (v : str) :
  strip v = v -> (10 <= length v)%nat -> (Z.of_nat (length v) <= 5000)%Z ->
  (5 <= length (strip_chars (lit ".,?!;:") v))%nat ->
  check_query_text v = Ok v.
Proof.
  intros Hs Hmin Hmax Hp. unfold check_query_text, validate_text_content.
  apply Nat.ltb_ge in Hmin as ->. apply Z.ltb_ge in Hmax as ->.
  rewrite Hs. destruct v as [|c s]; [cbn in Hp; lia|].
  apply Nat.ltb_ge in Hp as ->. reflexivity.
Qed.

(** X18. The text of a constructed [LegalQuery] is the stripped argument:
    it neither starts nor ends with whitespace and keeps at least 5
    characters once the punctuation at its ends is removed. The argument
    has between 10 and 5000 characters, the stored text between 5 and the
    length of the argument. *)
Theorem LegalQuery_init_invariant
    (id text : str) (priority : option Priority) (status : option Status)
    (query : LegalQuery) :
  LegalQuery_init id text priority status = Ok query ->
  lq_text query = strip text
  /\ strip (lq_text query) = lq_text query
  /\ (10 <= length text)%nat /\ (Z.of_nat (length text) <= 5000)%Z
  /\ (5 <= length (strip_chars (lit ".,?!;:") (lq_text query)))%nat
  /\ (5 <= length (lq_text query) <= length text)%nat
  /\ lq_id query = id
  /\ lq_priority query = default MEDIUM priority
  /\ lq_status query = default PENDING status.
Proof.
  unfold LegalQuery_init.
  destruct (check_query_text text) as [v|e] eqn:Hc; [|discriminate].
  intros [= <-]. cbn [lq_text lq_id lq_priority lq_status].
  apply check_query_text_ok in Hc as (-> & Hmin & Hmax & Hp).
  pose proof (strip_chars_length (lit ".,?!;:") (strip text)).
  pose proof (strip_length text).
  repeat split; auto using strip_idempotent; lia.
Qed.

Lemma LegalQuery_init_invariant_witness :
  exists query,
    LegalQuery_init (lit "q-1") (lit "  contrato  ") None None = Ok query
    /\ lq_text query = strip (lit "  contrato  ").
Proof.
  eexists. split; [vm_compute; reflexivity|].
  eapply (LegalQuery_init_invariant (lit "q-1") (lit "  contrato  ") None None).
  vm_compute. reflexivity.
Defined.

(** X19. The minimum length of 10 is checked on the text as passed, before
    it is stripped, so the stored text may be shorter. Assigning the stored
    text of a constructed query to the query again succeeds and changes
    nothing when that text has at least 10 characters, and raises when it
    is shorter. *)
Theorem LegalQuery_text_reassignment
    (id text : str) (priority : option Priority) (status : option Status)
    (query : LegalQuery) :
  LegalQuery_init id text priority status = Ok query ->
  ((10 <= length (lq_text query))%nat ->
   LegalQuery_set_text query (lq_text query) = Ok query)
  /\ ((length (lq_text query) < 10)%nat ->
      exists e, LegalQuery_set_text query (lq_text query) = Exc e
                /\ exn_cls e = ValidationError).
Proof.
  unfold LegalQuery_init.
  destruct (check_query_text text) as [v|e] eqn:Hc; [|discriminate].
  intros [= <-]. cbn [lq_text]. unfold LegalQuery_set_text.
  apply check_query_text_ok in Hc as (-> & Hmin & Hmax & Hp).
  split.
  - intros Hlong. rewrite check_query_text_stripped; auto.
    + apply strip_idempotent.
    + pose proof (strip_length text). lia.
  - intros Hshort. unfold check_query_text, validation_error.
    apply Nat.ltb_lt in Hshort as ->. eexists. split; reflexivity.
Qed.

Lemma LegalQuery_text_reassignment_witness :
  exists query e,
    LegalQuery_init (lit "q-1") (lit "  contrato  ") None None = Ok query
    /\ LegalQuery_set_text query (lq_text query) = Exc e.
Proof.
  pose (query := mkLegalQuery (lit "q-1") (strip (lit "  contrato  "))
                   MEDIUM PENDING).
  assert (Hq : LegalQuery_init (lit "q-1") (lit "  contrato  ") None None
               = Ok query) by (vm_compute; reflexivity).
  destruct (proj2 (LegalQuery_text_reassignment (lit "q-1")
                     (lit "  contrato  ") None None query Hq))
    as (e & He & _).
  - vm_compute. lia.
  - exists query, e. auto.
Defined.

(** ** The CQL query and the fallback chain of the LexML search *)

Lemma existsb_str_eqb (x : str) (l : list str) :
  existsb (str_eqb x) l = true <-> In x l.
Proof.
  rewrite existsb_exists. unfold str_eqb. split.
  - intros (y & Hy & Heq). apply bool_decide_eq_true in Heq. now subst.
  - intros Hx. exists x. split; [exact Hx|]. now apply bool_decide_eq_true.
Qed.

Lemma fromkeys_In (seen xs : list str) (w : str) :
  In w (fromkeys seen xs) -> In w xs /\ ~ In w seen.
Proof.
  revert seen. induction xs as [|x r IH]; intros seen; cbn [fromkeys];
    [intros []|].
  destruct (existsb (str_eqb x) seen) eqn:Hx.
  - intros Hw. destruct (IH _ Hw). split; [now right|assumption].
  - intros [<-|Hw].
    + split; [now left|]. intros Hin. apply existsb_str_eqb in Hin.
      congruence.
    + destruct (IH _ Hw) as [Hr Hs]. split; [now right|].
      intros Hin. apply Hs. now right.
Qed.

Lemma fromkeys_first_two (seen xs : list str) (a b : str) (rest : list str) :
  fromkeys seen xs = a :: b :: rest -> a <> b.
Proof.
  revert seen. induction xs as [|x r IH]; intros seen; cbn [fromkeys];
    [discriminate|].
  destruct (existsb (str_eqb x) seen); [apply IH|].
  intros [= -> Hrest] ->.
  assert (Hb : In b (fromkeys (b :: seen) r)) by (rewrite Hrest; now left).
  apply fromkeys_In in Hb as [_ Hb]. apply Hb. now left.
Qed.

Lemma filter_no_keyword (l : list str) :
  forallb (fun p => negb (is_keyword_word p)) l = true ->
  List.filter is_keyword_word l = [].
Proof.
  induction l as [|x l IH]; [reflexivity|].
  cbn [forallb List.filter]. intros Hl.
  apply andb_true_iff in Hl as [Hx Hl]. apply negb_true_iff in Hx.
  rewrite Hx. apply IH, Hl.
Qed.

Lemma filter_repeats (w : str) (l : list str) :
  forallb (fun p => negb (is_keyword_word p) || str_eqb p w) l = true ->
  forall x, In x (List.filter is_keyword_word l) -> x = w.
Proof.
  intros Hl x Hx. apply filter_In in Hx as [Hin Hkey].
  rewrite forallb_forall in Hl. specialize (Hl x Hin).
  rewrite Hkey in Hl. cbn in Hl. unfold str_eqb in Hl.
  now apply bool_decide_eq_true in Hl.
Qed.

Lemma fromkeys_skip (seen xs ys : list str) :
  (forall x, In x xs -> In x seen) ->
  fromkeys seen (xs ++ ys) = fromkeys seen ys.
Proof.
  induction xs as [|x xs IH]; intros Hxs; [reflexivity|].
  cbn [app fromkeys].
  replace (existsb (str_eqb x) seen) with true
    by (symmetry; apply existsb_str_eqb, Hxs; now left).
  apply IH. intros y Hy. apply Hxs. now right.
Qed.

Lemma fromkeys_new (seen xs : list str) (x : str) :
  ~ In x seen -> fromkeys seen (x :: xs) = x :: fromkeys (x :: seen) xs.
Proof.
  intros Hx. cbn [fromkeys].
  destruct (existsb (str_eqb x) seen) eqn:Hseen; [|reflexivity].
  apply existsb_str_eqb in Hseen. contradiction.
Qed.

Section LexMLFacts.
Context `{PyBuiltins}.

Lemma filter_keyword (termo w : str) :
  In w (List.filter
          (fun palavra =>
             negb (existsb (str_eqb palavra) stop_words)
             && (3 <? length palavra)%nat)
          (palavras_do_termo termo)) ->
  is_keyword termo w.
Proof.
  intros Hw. apply filter_In in Hw as [Hin Hc].
  apply andb_true_iff in Hc as [Hstop Hlen].
  apply negb_true_iff in Hstop. apply Nat.ltb_lt in Hlen.
  repeat split; auto. intros Hs. apply existsb_str_eqb in Hs. congruence.
Qed.

(** The query in terms of the keywords of the term, without repetitions
    and in the order of their first occurrence. *)
Lemma build_cql_query_unfold (termo : str) (tipo_documento : option str) :
  termo <> [] ->
  _build_cql_query termo tipo_documento
  = match fromkeys [] (List.filter is_keyword_word (palavras_do_termo termo))
    with
    | [] => tipo_documento_exact (lit "jurisprudencia")
    | [palavra] => palavra
    | principal0 :: principal1 :: _ =>
      lit "(" ++ (principal0 ++ lit " AND " ++ principal1) ++ lit ")"
    end.
Proof.
  intros Htermo. unfold _build_cql_query.
  destruct termo as [|c termo]; [congruence|].
  change (fun palavra : str =>
            negb (existsb (str_eqb palavra) stop_words)
            && (3 <? length palavra)%nat) with is_keyword_word.
  destruct (fromkeys [] _) as [|w1 [|w2 rest]]; reflexivity.
Qed.

(** X20. The CQL query built from a search term is never empty and does
    not depend on the document type. A keyword is a word of the term, in
    lower case and without the characters "?", "." and ",", that is longer
    than 3 characters and not a stop word. The query is the general query
    for jurisprudence when the term is empty or none of its words is a
    keyword; it is the keyword itself when every keyword of the term is
    the same word; otherwise it is the conjunction, in parentheses, of the
    first keyword and the first keyword after it that is a different word.
    In all cases the query has one of these three shapes. *)
Theorem build_cql_query_shape (termo : str) (tipo_documento : option str) :
  let cql_query := _build_cql_query termo tipo_documento in
  let palavras := palavras_do_termo termo in
  let no_keyword := forallb (fun p => negb (is_keyword_word p)) in
  let only_keyword w :=
    forallb (fun p => negb (is_keyword_word p) || str_eqb p w) in
  cql_query <> []
  /\ cql_query = _build_cql_query termo None
  /\ (termo = [] \/ no_keyword palavras = true ->
      cql_query = tipo_documento_exact (lit "jurisprudencia"))
  /\ (forall before w after,
        termo <> [] ->
        palavras = before ++ w :: after ->
        no_keyword before = true ->
        is_keyword_word w = true ->
        only_keyword w after = true ->
        cql_query = w)
  /\ (forall before w1 between w2 after,
        termo <> [] ->
        palavras = before ++ w1 :: between ++ w2 :: after ->
        no_keyword before = true ->
        is_keyword_word w1 = true ->
        only_keyword w1 between = true ->
        is_keyword_word w2 = true ->
        str_eqb w2 w1 = false ->
        cql_query = lit "(" ++ (w1 ++ lit " AND " ++ w2) ++ lit ")")
  /\ (cql_query = tipo_documento_exact (lit "jurisprudencia")
      \/ (exists w, cql_query = w /\ is_keyword termo w)
      \/ (exists w1 w2,
            cql_query = lit "(" ++ (w1 ++ lit " AND " ++ w2) ++ lit ")"
            /\ w1 <> w2
            /\ is_keyword termo w1 /\ is_keyword termo w2)).
Proof.
  cbn zeta. split; [|split; [reflexivity|]]; [|split; [|split; [|split]]].
  - unfold _build_cql_query.
    destruct termo as [|c termo]; [vm_compute; discriminate|].
    destruct (fromkeys [] _) as [|w1 [|w2 rest]] eqn:Hk.
    + vm_compute. discriminate.
    + cbn [join].
      assert (Hw : In w1 (fromkeys [] (List.filter
                (fun palavra =>
                   negb (existsb (str_eqb palavra) stop_words)
                   && (3 <? length palavra)%nat)
                (palavras_do_termo (c :: termo)))))
        by (rewrite Hk; now left).
      apply fromkeys_In in Hw as [Hw _].
      apply filter_keyword in Hw as (_ & Hlen & _).
      destruct w1; [cbn in Hlen; lia|discriminate].
    + cbn [join]. change (lit "(") with [40]. discriminate.
  - intros [->|Hnone]; [reflexivity|].
    destruct termo as [|c termo]; [reflexivity|].
    rewrite build_cql_query_unfold by discriminate.
    rewrite (filter_no_keyword _ Hnone). reflexivity.
  - intros before w after Htermo Hwords Hbefore Hw Hafter.
    rewrite build_cql_query_unfold by exact Htermo.
    rewrite Hwords, List.filter_app, (filter_no_keyword _ Hbefore).
    cbn [app List.filter]. rewrite Hw.
    rewrite fromkeys_new by (intros []).
    rewrite <- (app_nil_r (List.filter is_keyword_word after)).
    rewrite fromkeys_skip; [reflexivity|].
    intros x Hx. left. symmetry. exact (filter_repeats _ _ Hafter x Hx).
  - intros before w1 between w2 after Htermo Hwords Hbefore Hw1 Hbetween Hw2
      Hdiff.
    rewrite build_cql_query_unfold by exact Htermo.
    rewrite Hwords, List.filter_app, (filter_no_keyword _ Hbefore).
    cbn [app List.filter]. rewrite Hw1.
    rewrite fromkeys_new by (intros []).
    rewrite List.filter_app. cbn [List.filter]. rewrite Hw2.
    rewrite fromkeys_skip
      by (intros x Hx; left; symmetry;
          exact (filter_repeats _ _ Hbetween x Hx)).
    rewrite fromkeys_new; [reflexivity|].
    intros [Heq|[]]. subst w2. unfold str_eqb in Hdiff.
    apply bool_decide_eq_false in Hdiff. congruence.
  - unfold _build_cql_query.
    destruct termo as [|c termo]; [left; reflexivity|].
    destruct (fromkeys [] _) as [|w1 [|w2 rest]] eqn:Hk.
    + left. reflexivity.
    + right. left. exists w1. split; [reflexivity|].
      apply filter_keyword.
      apply (fromkeys_In [] _ w1). rewrite Hk. now left.
    + right. right. exists w1, w2. split; [reflexivity|].
      split; [exact (fromkeys_first_two _ _ _ _ _ Hk)|].
      split; apply filter_keyword.
      * apply (fromkeys_In [] _ w1). rewrite Hk. now left.
      * apply (fromkeys_In [] _ w2). rewrite Hk. right. now left.
Qed.

Ltac requests_of l :=
  lazymatch l with
  | ?l' ++ [?r] => let rs := requests_of l' in constr:(rs ++ [r])
  | _ => constr:(@nil LexMLRequest)
  end.

(** X21. [buscar_jurisprudencia] makes between one and five requests, all
    with the same page size and start record. The first request is the CQL
    query of the term; a further request is made only while every answer
    so far reported a total of 0. The response carries the documents and
    the total of the last answer, but always names the first query as the
    one searched for; a response with total 0 means that the general search
    for "direito" was made last. *)
Theorem buscar_jurisprudencia_fallback_chain
    (service : LexMLService) (termo : str) (tipo_documento : option str)
    (max_results start_record0 : Z) (query_original0 : option str)
    (log : list LexMLRequest) :
  let run := buscar_jurisprudencia service termo tipo_documento max_results
               start_record0 query_original0 log in
  let response := fst run in
  exists requests,
    snd run = log ++ requests
    /\ (1 <= length requests <= 5)%nat
    /\ Forall (fun request =>
                 rq_maximumRecords request = max_results
                 /\ rq_startRecord request = start_record0) requests
    /\ rq_query <$> head requests
       = Some (_build_cql_query termo tipo_documento)
    /\ termo_pesquisa_cql response = _build_cql_query termo tipo_documento
    /\ last (replay service log requests)
       = Some (documentos response, total_encontrado response)
    /\ Forall (fun answer => snd answer = 0%Z)
         (removelast (replay service log requests))
    /\ (total_encontrado response = 0%Z ->
        rq_query <$> last requests = Some (lit "direito")).
Proof.
  cbn zeta. unfold buscar_jurisprudencia, _executar_busca_lexml.
  repeat match goal with
  | Z0 : (?t =? 0)%Z = _ |- context [(?t =? 0)%Z] =>
    rewrite Z0; cbn [andb]; cbv beta iota zeta
  | |- context [service ?l ?r] =>
    let d := fresh "docs" in
    let t := fresh "total" in
    let E := fresh "Hanswer" in
    let Z0 := fresh "Hzero" in
    destruct (service l r) as [d t] eqn:E; cbv beta iota zeta;
    destruct (t =? 0)%Z eqn:Z0; cbn [andb]; cbv beta iota zeta
  | |- context [negb (str_eqb termo [])] =>
    destruct (negb (str_eqb termo [])); cbv beta iota zeta
  | |- context [truthy tipo_documento] =>
    destruct (truthy tipo_documento); cbv beta iota zeta
  | |- context [List.filter ?f ?l] =>
    destruct (List.filter f l) as [|? ?]; cbv beta iota zeta
  end;
  cbn [fst snd];
  match goal with
  | |- exists requests, ?l = log ++ requests /\ _ =>
    let rs := requests_of l in exists rs
  end;
  cbn [app length head last replay removelast fmap option_fmap option_map
       rq_query rq_maximumRecords rq_startRecord documentos total_encontrado
       termo_pesquisa_cql fst snd];
  (split; [rewrite <- ?app_assoc; reflexivity|]);
  (split; [lia|]);
  (split; [repeat constructor|]);
  (split; [reflexivity|]);
  (split; [reflexivity|]);
  repeat match goal with
  | E : service ?l ?r = _ |- context [service ?l ?r] => rewrite E
  end;
  cbn [last removelast];
  (split; [reflexivity|]);
  (split; [repeat constructor; cbn [snd]; apply Z.eqb_eq; assumption|]);
  intros Htotal;
  try reflexivity;
  repeat match goal with
  | Z0 : (?t =? 0)%Z = false |- _ =>
    apply Z.eqb_neq in Z0; try (exfalso; apply Z0; exact Htotal)
  end.
Qed.

End LexMLFacts.

Lemma build_cql_query_shape_witness :
  @_build_cql_query latin1_builtins termo_with_two_keywords
    (Some (lit "jurisprudencia"))
  = lit "(" ++ (lit "excluir" ++ lit " AND " ++ lit "sócio") ++ lit ")".
Proof.
  apply (proj1 (proj2 (proj2 (proj2 (proj2
           (@build_cql_query_shape latin1_builtins termo_with_two_keywords
              (Some (lit "jurisprudencia"))))))))
    with (before := [lit "como"]) (between := [])
         (after := [lit "minoritário"; lit "da"; lit "sociedade"]).
  - intros Hempty. vm_compute in Hempty. discriminate Hempty.
  - vm_compute. reflexivity.
  - vm_compute. reflexivity.
  - vm_compute. reflexivity.
  - vm_compute. reflexivity.
  - vm_compute. reflexivity.
  - vm_compute. reflexivity.
Defined.

(** A repeated keyword counts once: the second keyword of the query is the
    first one that differs from the first. *)
Example repeated_keyword_is_skipped :
  @_build_cql_query latin1_builtins
    (lit "Excluir sócio, excluir como? Excluir herdeiros.") None
  = lit "(excluir AND sócio)"
  /\ @_build_cql_query latin1_builtins (lit "Excluir, excluir. Excluir?") None
     = lit "excluir"
  /\ @_build_cql_query latin1_builtins (lit "O que é isso?") None
     = tipo_documento_exact (lit "jurisprudencia").
Proof. vm_compute. repeat split. Qed.

(** ** The search nodes *)

Section SearchNodeFacts.
Context `{PyBuiltins}.

(** X22. [transform_query] never raises, issues at most one call and never
    writes a key of the state other than the two query keys: its update is
    either empty or sets [current_query] and [transformed_query] to the
    same answer of the agent. When the agent is missing, the query is
    missing or the call fails, the update is empty, so the searches that
    follow use the query as it was. *)
Theorem transform_query_rewrites_or_keeps
    (transformer_agent : option AgentId) (state : AgentState)
    (w : World) (log : list Call) :
  (length (log_after (transform_query transformer_agent state) w log)
   <= length log + 1)%nat
  /\ (outcome (transform_query transformer_agent state) w log
      = Ok (no_update, no_keys)
      \/ exists agent query prompt new_query,
           transformer_agent = Some agent
           /\ get (st_query state) = Some query
           /\ w log (mkCall agent prompt None) = Ok new_query
           /\ outcome (transform_query transformer_agent state) w log
              = Ok (update_current_query new_query))
  /\ ((transformer_agent = None \/ get (st_query state) = None
       \/ forall c, is_ok (w log c) = false) ->
      transform_query transformer_agent state w log
      = (Ok (no_update, no_keys),
         log_after (transform_query transformer_agent state) w log)).
Proof.
  unfold transform_query.
  destruct transformer_agent as [agent|];
    [|repeat split; [cbn; lia|left; reflexivity]].
  destruct (get (st_query state)) as [query|];
    [|repeat split; [cbn; lia|left; reflexivity]].
  run_monad.
  match goal with
  | |- context [w log ?c] => destruct (w log c) as [new_query|e] eqn:Hcall
  end; cbn [fst snd].
  - split; [rewrite length_app; cbn; lia|]. split.
    + right. eexists agent, query, _, new_query. repeat split.
      exact Hcall.
    + intros [Hn|[Hn|Hfail]]; try discriminate.
      match type of Hcall with
      | w log ?c = _ => specialize (Hfail c); rewrite Hcall in Hfail
      end.
      discriminate.
  - split; [rewrite length_app; cbn; lia|]. split;
      [left; reflexivity|reflexivity].
Qed.

(** X23. [search_jurisprudencia] raises [KeyError] exactly when the state
    has no key [current_query], and then makes no request. In every other
    case it returns, after at least one request, an update whose
    [lexml_results] is a list, never [None], with [needs_jurisprudencia]
    set to [False], and writes no other key. *)
Theorem search_jurisprudencia_needs_current_query
    (service : LexMLService) (keys : SearchKeys) (log : list LexMLRequest) :
  let run := search_jurisprudencia service keys log in
  (sk_current_query keys = Absent ->
   run = (KeyError "current_query", log))
  /\ (sk_current_query keys <> Absent ->
      exists docs request requests,
        run = (Found (update_lexml_results docs), log ++ request :: requests)
        /\ rq_maximumRecords request = 5%Z
        /\ rq_startRecord request = 1%Z).
Proof.
  cbn zeta. unfold search_jurisprudencia. split.
  - intros ->. reflexivity.
  - intros Hq.
    assert (Hrun : forall termo qo,
              exists docs request requests,
                (let '(response, log0) :=
                   buscar_jurisprudencia service termo
                     (Some (lit "jurisprudencia")) 5 1 qo log in
                 (Found (update_lexml_results (documentos response)), log0))
                = (Found (update_lexml_results docs),
                   log ++ request :: requests)
                /\ rq_maximumRecords request = 5%Z
                /\ rq_startRecord request = 1%Z).
    { intros termo qo.
      unfold buscar_jurisprudencia, _executar_busca_lexml.
      repeat match goal with
      | |- context [if ?b then _ else _] => destruct b; cbv beta iota zeta
      | |- context [match service ?l ?r with _ => _ end] =>
        destruct (service l r) as [? ?]; cbv beta iota zeta
      | |- context [match List.filter ?f ?l with _ => _ end] =>
        destruct (List.filter f l) as [|? ?]; cbv beta iota zeta
      end;
      cbn [documentos];
      eexists _, _, _; rewrite <- ?app_assoc; cbn [app];
      (split; [reflexivity|split; reflexivity]). }
    destruct (sk_current_query keys); [congruence| |]; apply Hrun.
Qed.

End SearchNodeFacts.

Lemma transform_query_rewrites_or_keeps_witness :
  transform_query (Some grader_agent_id) state_wanting_web timing_out_world []
  = (Ok (no_update, no_keys),
     log_after (transform_query (Some grader_agent_id) state_wanting_web)
       timing_out_world []).
Proof.
  apply (transform_query_rewrites_or_keeps (Some grader_agent_id)
           state_wanting_web timing_out_world []).
  right. right. intros c. reflexivity.
Defined.

Lemma search_jurisprudencia_needs_current_query_witness :
  @search_jurisprudencia latin1_builtins empty_service no_keys []
  = (KeyError "current_query", []).
Proof.
  apply (@search_jurisprudencia_needs_current_query latin1_builtins
           empty_service no_keys []).
  reflexivity.
Defined.

(** X24. Unless [retrieved_docs] or [lexml_results] holds [None],
    [evaluate_search_necessity] never raises and issues at most one call;
    it always sets [evaluation_complete] and a boolean [needs_web_search].
    When the query is missing or the decision call fails, that boolean is
    [False] and the router sends the run to the synthesis; a web search
    query is only passed on together with a decision to search. *)
Theorem evaluate_search_necessity_fails_closed
    (decision_agent : AgentId) (output_of : str -> SearchDecision)
    (titulo : LexMLDocumento -> option str)
    (state : AgentState) (w : World) (log : list Call) :
  st_retrieved_docs state <> PyNone ->
  st_lexml_results state <> PyNone ->
  exists update keys needs_web,
    outcome (evaluate_search_necessity decision_agent output_of titulo state)
      w log = Ok (update, keys)
    /\ (length (log_after
                  (evaluate_search_necessity decision_agent output_of titulo
                     state) w log)
        <= length log + 1)%nat
    /\ st_needs_web_search update = Val needs_web
    /\ sk_evaluation_complete keys = Val true
    /\ route_after_evaluation (merge state update)
       = (if needs_web then NODE_WEB_SEARCH else NODE_SYNTHESIZE)
    /\ (get (sk_web_search_query keys) <> None -> needs_web = true)
    /\ ((get (st_query state) = None \/ forall c, is_ok (w log c) = false) ->
        needs_web = false).
Proof.
  intros Hdocs Hlexml. unfold evaluate_search_necessity.
  destruct (get (st_query state)) as [query|].
  2: { exists (fst update_no_query), (snd update_no_query), false.
       cbn. repeat split; auto; try lia; try congruence. }
  destruct (st_retrieved_docs state) as [| |docs] eqn:Hd; [|congruence|];
    destruct (st_lexml_results state) as [| |juris] eqn:Hl;
    try congruence; cbn [get_default]; run_monad;
    match goal with
    | |- context [w log ?c] => destruct (w log c) as [out|e] eqn:Hcall
    end; cbn [fst snd];
    try (exists (fst (update_decision (output_of out))),
                (snd (update_decision (output_of out))),
                (sd_needs_web_search (output_of out));
         split; [reflexivity|]; split; [rewrite length_app; cbn; lia|];
         split; [reflexivity|]; split; [reflexivity|];
         split; [unfold route_after_evaluation; cbn; reflexivity|];
         split;
         [cbn; destruct (sd_needs_web_search (output_of out));
          [reflexivity|intros Hq; exfalso; apply Hq; reflexivity]|];
         intros [Hn|Hfail]; [discriminate|];
         match type of Hcall with
         | w log ?c = _ => specialize (Hfail c); rewrite Hcall in Hfail
         end; discriminate);
    try (exists (fst (update_evaluation_error e)),
                (snd (update_evaluation_error e)), false;
         split; [reflexivity|]; split; [rewrite length_app; cbn; lia|];
         split; [reflexivity|]; split; [reflexivity|];
         split; [unfold route_after_evaluation; cbn; reflexivity|];
         split; [cbn; congruence|]; reflexivity).
Qed.

Lemma evaluate_search_necessity_fails_closed_witness :
  exists update keys,
    outcome (evaluate_search_necessity search_decision_agent
               decision_without_web (fun _ => None) state_wanting_web)
      timing_out_world [] = Ok (update, keys)
    /\ route_after_evaluation (merge state_wanting_web update)
       = NODE_SYNTHESIZE.
Proof.
  destruct (evaluate_search_necessity_fails_closed search_decision_agent
              decision_without_web (fun _ => None) state_wanting_web
              timing_out_world [])
    as (update & keys & needs_web & Hrun & _ & _ & _ & Hroute & _ & Hfail).
  - discriminate.
  - discriminate.
  - exists update, keys. split; [exact Hrun|].
    rewrite Hroute, Hfail; [reflexivity|].
    right. intros c. reflexivity.
Defined.

(** X25. [search_web_conditional] raises [KeyError] only when a search is
    needed, no web search query was passed on and the state has no key
    [current_query]. Whenever it returns it writes [tavily_results]: a list
    of results only if the search was needed, the client is configured and
    the search for the chosen query succeeded; [None] in every other case,
    with either the skipped flag or an error message. *)
Theorem search_web_conditional_results
    (tavily_client : bool)
    (tavily_search : str -> Result (list TavilySearchResult))
    (state : AgentState) (keys : SearchKeys) :
  match search_web_conditional tavily_client tavily_search state keys with
  | KeyError key =>
    key = "current_query"
    /\ st_needs_web_search state = Val true
    /\ truthy (get (sk_web_search_query keys)) = false
    /\ sk_current_query keys = Absent
  | Found (update, written) =>
    match st_tavily_results update with
    | Val results =>
      st_needs_web_search state = Val true
      /\ tavily_client = true
      /\ sk_web_search_performed written = Val true
      /\ sk_web_search_error written = Absent
      /\ exists query,
           tavily_search query = Ok results
           /\ (if truthy (get (sk_web_search_query keys))
               then sk_web_search_query keys = Val query
               else sk_current_query keys = Val query)
    | PyNone =>
      sk_web_search_performed written = Absent
      /\ (sk_web_search_skipped written = Val true
          \/ exists msg, sk_web_search_error written = Val msg)
    | Absent => False
    end
  end.
Proof.
  unfold search_web_conditional, buscar_web.
  destruct (st_needs_web_search state) as [| |[|]]; cbn [negb];
    try (cbn; auto; fail).
  assert (Hsearch : forall query,
            match
              (if negb tavily_client
               then Found (update_web_error (lit "Tavily API Key não configurada"))
               else
                 match
                   (if negb tavily_client
                    then value_error "Tavily API Key não configurada"
                    else match tavily_search query with
                         | Ok results => Ok results
                         | Exc e =>
                           Exc (mkExn ValueError
                                  (lit "Erro na busca Tavily: " ++ exn_msg e))
                         end)
                 with
                 | Ok results => Found (update_web_results results)
                 | Exc e => Found (update_web_error (exn_msg e))
                 end)
            with
            | KeyError _ => False
            | Found (update, written) =>
              match st_tavily_results update with
              | Val results =>
                tavily_client = true
                /\ sk_web_search_performed written = Val true
                /\ sk_web_search_error written = Absent
                /\ tavily_search query = Ok results
              | PyNone =>
                sk_web_search_performed written = Absent
                /\ (sk_web_search_skipped written = Val true
                    \/ exists msg, sk_web_search_error written = Val msg)
              | Absent => False
              end
            end).
  { intros query. destruct tavily_client; cbn [negb].
    - destruct (tavily_search query) as [results|e]; cbn; eauto 10.
    - cbn. eauto. }
  destruct (truthy (get (sk_web_search_query keys))) eqn:Hwq.
  - destruct (sk_web_search_query keys) as [| |query]; try discriminate.
    cbn [get]. specialize (Hsearch query).
    destruct (if negb tavily_client then _ else _) as [[update written]|key];
      [|contradiction].
    destruct (st_tavily_results update); intuition eauto.
  - destruct (sk_current_query keys) as [| |query]; cbn [get].
    + auto.
    + destruct tavily_client; cbn; eauto.
    + specialize (Hsearch query).
      destruct (if negb tavily_client then _ else _) as [[update written]|key];
        [|contradiction].
      destruct (st_tavily_results update); intuition eauto.
Qed.

(** ** Retry and review on a fresh state *)

Lemma ProcessingConfig_init_ok
    (mr : option Z) (bf th : option pyfloat) (config : ProcessingConfig) :
  ProcessingConfig_init mr bf th = Ok config ->
  (1 <= pc_max_retries config <= 10)%Z
  /\ exists q, pc_human_review_threshold config = FFinite q
               /\ Qle_bool 0 q = true /\ Qle_bool q 1 = true.
Proof.
  unfold ProcessingConfig_init, validation_error.
  destruct ((1 <=? default 3%Z mr)%Z && (default 3%Z mr <=? 10)%Z) eqn:Hmr;
    [|discriminate].
  destruct (float_between 1 5 _); [|discriminate].
  destruct (float_between 0 1 (default (FFinite (7 # 10)) th)) eqn:Hth;
    [|discriminate].
  cbn [negb]. intros [= <-]. cbn [pc_max_retries pc_human_review_threshold].
  apply andb_true_iff in Hmr as [Hlo Hhi].
  apply Z.leb_le in Hlo, Hhi. split; [lia|].
  destruct (default (FFinite (7 # 10)) th) as [q| |]; try discriminate.
  exists q. cbn [float_between] in Hth.
  apply andb_true_iff in Hth as [H0 H1]. auto.
Qed.

(** X26. [is_retry_needed] answers [False] for an error that cannot be
    retried without looking at the counters of the retry state, and
    answers [True] only for an error that can. On the state that [create_initial_state] builds
    from a valid configuration its answer is the error's own [can_retry]. *)
Theorem is_retry_needed_on_fresh_state
    (query : LegalQuery) (mr : option Z) (bf th : option pyfloat)
    (config : ProcessingConfig) (error : RetryableError) :
  ProcessingConfig_init mr bf th = Ok config ->
  is_retry_needed (snd (create_initial_state query (Some config))) error
  = Ok (can_retry error)
  /\ (forall state,
        ck_retry_state state <> PyNone ->
        can_retry error = false -> is_retry_needed state error = Ok false)
  /\ (forall state,
        is_retry_needed state error = Ok true -> can_retry error = true).
Proof.
  intros Hconfig. apply ProcessingConfig_init_ok in Hconfig as [Hmr _].
  split; [|split].
  - unfold is_retry_needed, create_initial_state.
    cbn [snd ck_retry_state get_default rs_retry_count rs_max_retries].
    destruct (can_retry error); cbn [negb]; [|reflexivity].
    f_equal. apply Z.ltb_lt. lia.
  - intros state Hstate Hcan. unfold is_retry_needed.
    destruct (ck_retry_state state); cbn [get_default]; try congruence;
      rewrite Hcan; reflexivity.
  - intros state. unfold is_retry_needed.
    destruct (get_default _ (ck_retry_state state)); [|discriminate].
    destruct (can_retry error); [reflexivity|discriminate].
Qed.

Lemma is_retry_needed_on_fresh_state_witness :
  exists error,
    RetryableError_init (lit "timeout") (lit "sem resposta") None None None
    = Ok error
    /\ is_retry_needed (snd (create_initial_state sample_query None)) error
       = Ok true.
Proof.
  eexists. split; [reflexivity|].
  apply (is_retry_needed_on_fresh_state sample_query None None None).
  reflexivity.
Defined.



(** ** The search decision *)

Lemma never_consults_ret {A} (agent : AgentId) (a : A) :
  never_consults agent (ret a).
Proof. intros w1 w2 log _. reflexivity. Qed.

Lemma never_consults_raise {A} (agent : AgentId) (e : exn) :
  never_consults agent (@raise A e).
Proof. intros w1 w2 log _. reflexivity. Qed.

Lemma never_consults_lift {A} (agent : AgentId) (r : Result A) :
  never_consults agent (lift r).
Proof. intros w1 w2 log _. reflexivity. Qed.

Lemma never_consults_agent_run_with
    (agent other : AgentId) (timeout : option Q) (prompt : str) :
  other <> agent -> never_consults agent (agent_run_with timeout other prompt).
Proof.
  intros Hother w1 w2 log Hagree. unfold agent_run_with.
  rewrite (Hagree log (mkCall other prompt timeout) Hother). reflexivity.
Qed.

Lemma never_consults_bind {A B} (agent : AgentId) (c : M A) (k : A -> M B) :
  never_consults agent c -> (forall a, never_consults agent (k a)) ->
  never_consults agent (bind c k).
Proof.
  intros Hc Hk w1 w2 log Hagree. unfold bind.
  rewrite (Hc w1 w2 log Hagree).
  destruct (c w2 log) as [[a|e] log']; [|reflexivity].
  apply Hk, Hagree.
Qed.

Lemma never_consults_try_except {A} (agent : AgentId) (body : M A)
    (handler : exn -> M A) :
  never_consults agent body -> (forall e, never_consults agent (handler e)) ->
  never_consults agent (try_except body handler).
Proof.
  intros Hb Hh w1 w2 log Hagree. unfold try_except.
  rewrite (Hb w1 w2 log Hagree).
  destruct (body w2 log) as [[a|e] log']; [reflexivity|].
  apply Hh, Hagree.
Qed.

Ltac frame :=
  repeat first
    [ apply never_consults_ret
    | apply never_consults_raise
    | apply never_consults_lift
    | apply never_consults_agent_run_with; discriminate
    | apply never_consults_bind; [|intros ?]
    | apply never_consults_try_except; [|intros ?]
    | match goal with
      | |- never_consults _ (if ?b then _ else _) => destruct b
      | |- never_consults _ (match ?x with _ => _ end) => destruct x
      end ].

Section DecisionFacts.
Context `{PyBuiltins}.

Lemma never_consults_section
    (v : Variant) (sec : SectionId) (query analysis_text : str) :
  never_consults search_decision_agent
    (synthesize_section v sec query analysis_text).
Proof. unfold synthesize_section, agent_run. frame. Qed.

Lemma never_consults_synthesis (query analysis_text : str) :
  never_consults search_decision_agent
    (synthesize_with_openrouter query analysis_text).
Proof.
  unfold synthesize_with_openrouter, synthesize_with_openrouter_4_parts,
    synthesize_with_openrouter_fallback, agent_run.
  repeat first
    [ apply never_consults_section
    | apply never_consults_ret
    | apply never_consults_agent_run_with; discriminate
    | apply never_consults_bind; [|intros ?]
    | apply never_consults_try_except; [|intros ?]
    | match goal with
      | |- never_consults _ (if ?b then _ else _) => destruct b
      end ].
Qed.

Lemma never_consults_validation (query : LegalQuery) (response_text : str) :
  never_consults search_decision_agent
    (validate_and_respond query response_text).
Proof.
  unfold validate_and_respond, validate_with_openrouter,
    check_guardrails_with_openrouter, agent_run.
  frame.
Qed.

Lemma decision_is_dropped {A} (agent : AgentId) (prompt : str) (rest : M A)
    (w1 w2 : World) (log : list Call) :
  agree_except agent w1 w2 -> never_consults agent rest ->
  is_ok (w1 log (mkCall agent prompt None)) = true ->
  is_ok (w2 log (mkCall agent prompt None)) = true ->
  bind (agent_run agent prompt) (fun _ => rest) w1 log
  = bind (agent_run agent prompt) (fun _ => rest) w2 log.
Proof.
  intros Hagree Hrest H1 H2. unfold bind, agent_run, agent_run_with.
  destruct (w1 log _); [|discriminate H1].
  destruct (w2 log _); [|discriminate H2].
  apply Hrest, Hagree.
Qed.

(** X28. The search decision of stage 1 is never consulted: when the
    decision call returns, the run makes the same calls and returns the
    same response whatever the decision agent answered, a decision against
    every search included. *)
Theorem search_decision_is_never_consulted
    (query : LegalQuery) (w1 w2 : World) (log : list Call) :
  agree_except search_decision_agent w1 w2 ->
  (forall c, call_agent c = search_decision_agent ->
             is_ok (w1 log c) = true /\ is_ok (w2 log c) = true) ->
  process_legal_query_hybrid_corrected query w1 log
  = process_legal_query_hybrid_corrected query w2 log.
Proof.
  intros Hagree Hdecided.
  assert (Hgather : gather_and_synthesize query w1 log
                    = gather_and_synthesize query w2 log).
  { unfold gather_and_synthesize.
    apply decision_is_dropped;
      [exact Hagree| |apply Hdecided; reflexivity..].
    unfold execute_vectordb_search_openrouter, execute_groq_searches,
      analyze_with_openrouter, agent_run, wait_for_agent_run.
    repeat first
      [ apply never_consults_synthesis
      | apply never_consults_ret
      | apply never_consults_lift
      | apply never_consults_agent_run_with; discriminate
      | apply never_consults_bind; [|intros ?]
      | apply never_consults_try_except; [|intros ?]
      | match goal with
        | |- never_consults _ (match ?x with _ => _ end) => destruct x
        end ]. }
  unfold process_legal_query_hybrid_corrected, try_except, bind.
  rewrite Hgather.
  destruct (gather_and_synthesize query w2 log) as [[response_text|e] log1].
  - rewrite (never_consults_validation query response_text w1 w2 log1 Hagree).
    reflexivity.
  - reflexivity.
Qed.

End DecisionFacts.

Lemma search_decision_is_never_consulted_witness :
  @process_legal_query_hybrid_corrected latin1_builtins sample_query
    (deciding_world (lit "VECTORDB: NAO") sample_answer) []
  = @process_legal_query_hybrid_corrected latin1_builtins sample_query
      (deciding_world (lit "VECTORDB: SIM") sample_answer) [].
Proof.
  apply (@search_decision_is_never_consulted latin1_builtins).
  - intros log c Hc. unfold deciding_world.
    destruct (call_agent c); try congruence; reflexivity.
  - intros c Hc. unfold deciding_world. rewrite Hc. split; reflexivity.
Defined.

(** ** What reaches the hybrid run *)

Section HybridApproachFacts.
Context `{PyBuiltins}.

Lemma hybrid_run_returns_valid
    (query : LegalQuery) (w : World) (log : list Call) :
  is_ok (check_overall_summary hybrid_failure_summary) = true ->
  exists r log',
    process_legal_query_hybrid_corrected query w log = (Ok r, log')
    /\ is_ok (check_overall_summary (overall_summary r)) = true.
Proof.
  intros Hfailure.
  assert (Hfailed : forall log1, exists r,
            lift (FinalResponse_init (Some (lq_id query))
                    (Some hybrid_failure_summary) None None
                    (Some (lit "Sistema indisponível. Tente novamente mais tarde."))
                    (Some [lit "Falha no sistema híbrido OpenRouter + Groq"])
                    (Some FAILED)) w log1 = (Ok r, log1)
            /\ overall_summary r = hybrid_failure_summary).
  { intros log1.
    destruct (FinalResponse_init_accepts (lq_id query) hybrid_failure_summary
                (Some (lit "Sistema indisponível. Tente novamente mais tarde."))
                (Some [lit "Falha no sistema híbrido OpenRouter + Groq"])
                (Some FAILED) Hfailure) as [r Hr].
    exists r. unfold lift. rewrite Hr. split; [reflexivity|].
    apply FinalResponse_init_ok in Hr
      as (q & s & _ & [= <-] & _ & _ & Hs & _).
    exact Hs. }
  unfold process_legal_query_hybrid_corrected, try_except.
  unfold bind at 1.
  destruct (gather_and_synthesize query w log) as [[response_text|e] log1].
  - destruct (is_ok (check_overall_summary response_text)) eqn:Hvalid.
    + destruct (validate_and_respond_completed query response_text w log1
                  Hvalid)
        as (qa & gc & r & log2 & _ & _ & Hrun & _ & Hsum & _).
      rewrite Hrun. exists r, log2. rewrite Hsum. auto.
    + destruct (validate_with_openrouter_returns response_text w log1)
        as (qa & Hqa & _).
      destruct (check_guardrails_with_openrouter_returns response_text w
                  (log1 ++ [mkCall quality_validator_agent
                              (validation_prompt response_text) None]))
        as (gc & Hgc).
      assert (Hexc : exists e log2,
                validate_and_respond query response_text w log1
                = (Exc e, log2)).
      { unfold validate_and_respond.
        unfold bind at 1. rewrite Hqa. cbn [fst snd].
        unfold bind at 1. rewrite Hgc. cbn [fst snd].
        unfold bind, lift, FinalResponse_init.
        destruct (check_overall_summary response_text); [discriminate|].
        eexists _, _. reflexivity. }
      destruct Hexc as (e & log2 & Hexc). rewrite Hexc.
      destruct (Hfailed log2) as (r & Hr & Hsum).
      rewrite Hr. exists r, log2. rewrite Hsum. auto.
  - destruct (Hfailed log1) as (r & Hr & Hsum).
    rewrite Hr. exists r, log1. rewrite Hsum. auto.
Qed.

Lemma hybrid_approach_main_path
    (fallback : str -> str -> str -> str -> M SimpleFinalResponse)
    (fresh_id query_text formatted_crag formatted_tavily formatted_lexml : str)
    (w : World) (log : list Call) :
  is_ok (check_overall_summary hybrid_failure_summary) = true ->
  is_ok (check_query_text (clean_text_for_json query_text)) = true ->
  exists legal_query r log',
    LegalQuery_init fresh_id (clean_text_for_json query_text) None None
    = Ok legal_query
    /\ process_legal_query_hybrid_corrected legal_query w log = (Ok r, log')
    /\ synthesize_with_hybrid_corrected_approach fallback fresh_id query_text
         formatted_crag formatted_tavily formatted_lexml w log
       = (Ok (mkSimpleFinalResponse (overall_summary r) (disclaimer r)), log').
Proof.
  intros Hfailure Hquery.
  unfold synthesize_with_hybrid_corrected_approach, LegalQuery_init.
  destruct (check_query_text (clean_text_for_json query_text)) as [v|]
    eqn:Hv; [|discriminate].
  eexists. 
  destruct (hybrid_run_returns_valid
              (mkLegalQuery fresh_id v MEDIUM PENDING) w log Hfailure)
    as (r & log' & Hrun & Hvalid).
  exists r, log'. split; [reflexivity|]. split; [exact Hrun|].
  unfold try_except, bind, lift. cbn [from_option id]. rewrite Hrun.
  unfold SimpleFinalResponse_init.
  destruct (check_overall_summary (overall_summary r)) as [s|] eqn:Hs;
    [|discriminate].
  apply check_overall_summary_ok in Hs as (_ & Hmin & Hmax & _).
  apply Nat.ltb_ge in Hmin as ->. apply Z.ltb_ge in Hmax as ->.
  reflexivity.
Qed.

(** X29. What the synthesis node hands to the hybrid run is the cleaned
    text of the query and nothing else. When [LegalQuery] accepts that text
    (and the failure summary of the hybrid run passes validation), two
    states with the same query get the same calls and the same final
    response, whatever documents, web results and jurisprudence they hold,
    and the simulation fallback is not run. When [LegalQuery] refuses it,
    for instance because fewer than 10 characters are left, the hybrid run
    is not started and the synthesis is the simulation, which is given the
    cleaned text and the three formatted blocks. *)
Theorem synthesis_ignores_retrieved_material
    (fallback1 fallback2 : str -> str -> str -> str -> M SimpleFinalResponse)
    (fresh_id : str) (state1 state2 : AgentState) (query : LegalQuery)
    (w : World) (log : list Call) :
  is_ok (check_overall_summary hybrid_failure_summary) = true ->
  get (st_query state1) = Some query ->
  same_query state1 state2 ->
  if is_ok (check_query_text (clean_text_for_json (lq_text query)))
  then
    synthesize_response
      (synthesize_with_hybrid_corrected_approach fallback1 fresh_id)
      format_crag_docs_for_prompt format_tavily_results_for_prompt
      format_lexml_results_for_prompt state1 w log
    = synthesize_response
        (synthesize_with_hybrid_corrected_approach fallback2 fresh_id)
        format_crag_docs_for_prompt format_tavily_results_for_prompt
        format_lexml_results_for_prompt state2 w log
  else
    forall formatted_crag formatted_tavily formatted_lexml,
      synthesize_with_hybrid_corrected_approach fallback1 fresh_id
        (lq_text query) formatted_crag formatted_tavily formatted_lexml w log
      = fallback1 (clean_text_for_json (lq_text query)) formatted_crag
          formatted_tavily formatted_lexml w log.
Proof.
  intros Hfailure Hq1 Hsame. unfold same_query in Hsame.
  destruct (is_ok (check_query_text (clean_text_for_json (lq_text query))))
    eqn:Hquery.
  2: { intros c t l.
       unfold synthesize_with_hybrid_corrected_approach, LegalQuery_init,
         try_except, bind, lift.
       destruct (check_query_text (clean_text_for_json (lq_text query)));
         [discriminate|reflexivity]. }
  assert (Hsynth : forall c1 t1 l1 c2 t2 l2,
            synthesize_with_hybrid_corrected_approach fallback1 fresh_id
              (lq_text query) c1 t1 l1 w log
            = synthesize_with_hybrid_corrected_approach fallback2 fresh_id
                (lq_text query) c2 t2 l2 w log).
  { intros c1 t1 l1 c2 t2 l2.
    destruct (hybrid_approach_main_path fallback1 fresh_id (lq_text query)
                c1 t1 l1 w log Hfailure Hquery)
      as (lq1 & r1 & log1 & Hlq1 & Hrun1 & ->).
    destruct (hybrid_approach_main_path fallback2 fresh_id (lq_text query)
                c2 t2 l2 w log Hfailure Hquery)
      as (lq2 & r2 & log2 & Hlq2 & Hrun2 & ->).
    rewrite Hlq1 in Hlq2. injection Hlq2 as <-.
    rewrite Hrun1 in Hrun2. injection Hrun2 as <- <-.
    reflexivity. }
  unfold synthesize_response. rewrite <- Hsame, Hq1.
  unfold try_except, bind.
  match goal with
  | |- context [synthesize_with_hybrid_corrected_approach fallback1 fresh_id
                  _ ?c1 ?t1 ?l1 w log] =>
    match goal with
    | |- context [synthesize_with_hybrid_corrected_approach fallback2
                    fresh_id _ ?c2 ?t2 ?l2 w log] =>
      rewrite (Hsynth c1 t1 l1 c2 t2 l2)
    end
  end.
  reflexivity.
Qed.

End HybridApproachFacts.

Lemma synthesis_ignores_retrieved_material_witness :
  @synthesize_response latin1_builtins
    (@synthesize_with_hybrid_corrected_approach latin1_builtins
       failing_synthesis (lit "q-2"))
    format_crag_docs_for_prompt format_tavily_results_for_prompt
    format_lexml_results_for_prompt state_with_one_document
    (constant_world sample_answer) []
  = @synthesize_response latin1_builtins
      (@synthesize_with_hybrid_corrected_approach latin1_builtins
         no_simulation (lit "q-2"))
      format_crag_docs_for_prompt format_tavily_results_for_prompt
      format_lexml_results_for_prompt state_with_all_results
      (constant_world sample_answer) [].
Proof.
  pose proof (@synthesis_ignores_retrieved_material latin1_builtins
                failing_synthesis no_simulation (lit "q-2")
                state_with_one_document state_with_all_results sample_query
                (constant_world sample_answer) []) as Hsame.
  assert (Haccepted : is_ok (@check_query_text
                               (clean_text_for_json (lq_text sample_query)))
                      = true) by (vm_compute; reflexivity).
  rewrite Haccepted in Hsame. apply Hsame.
  - vm_compute. reflexivity.
  - reflexivity.
  - reflexivity.
Defined.

(** ** The streaming run *)

Lemma streamed_chunks (chunks : list str) :
  streamed (List.map StreamingEvent chunks) = chunks.
Proof.
  unfold streamed. induction chunks as [|c chunks IH]; [reflexivity|].
  cbn [List.map omap]. cbn. f_equal. exact IH.
Qed.

Lemma streamed_app (a b : list Event) :
  streamed (a ++ b) = streamed a ++ streamed b.
Proof. unfold streamed. apply omap_app. Qed.

Lemma no_final_in_chunks (chunks : list str) :
  forallb (fun event => negb (is_final event))
    (List.map StreamingEvent chunks) = true.
Proof. induction chunks as [|c chunks IH]; [reflexivity|exact IH]. Qed.

Lemma streamed_progress (content : str) :
  streamed [ProgressEvent content] = [].
Proof. reflexivity. Qed.

Ltac drop_final E :=
  lazymatch E with
  | [FinalEvent _] => constr:(@nil Event)
  | [] ++ ?Y => drop_final Y
  | ?X ++ ?Y => let Y' := drop_final Y in constr:(X ++ Y')
  end.

Ltac close_run :=
  cbv beta iota zeta;
  match goal with
  | |- exists events r log', (_, ?l, ?E) = _ /\ _ =>
    let pre := drop_final E in
    match E with
    | context [FinalEvent ?R] => exists pre, R, l
    end
  end;
  split; [rewrite ?app_nil_l; rewrite <- ?app_assoc; reflexivity|];
  split; [rewrite ?forallb_app, ?no_final_in_chunks; reflexivity|];
  split; [reflexivity|].

Ltac close_failed :=
  close_run; split; [assumption|right; split; assumption].

Section StreamingRunFacts.
Context `{PyBuiltins}.

(** X30. Provided its fixed failure summary passes validation, the
    streaming run never raises and yields exactly one final event, as its
    last event, after at least the first progress event. The final response
    carries the id of the query. It is either [COMPLETED], and then its
    summary is the concatenation of the chunks that were streamed, or
    [FAILED] with the failure summary, whatever was streamed before. *)
Theorem streaming_run_ends_with_final
    (query : LegalQuery) (w : World) (log : list Call) :
  is_ok (check_overall_summary hybrid_failure_summary) = true ->
  exists events r log',
    process_legal_query_hybrid_corrected_streaming query w log
    = (Ok tt, log', events ++ [FinalEvent r])
    /\ forallb (fun event => negb (is_final event)) events = true
    /\ head events
       = Some (ProgressEvent (lit "🧠 Analisando consulta (OpenRouter)..."))
    /\ query_id r = lq_id query
    /\ ((status r = COMPLETED
         /\ overall_summary r = concat (streamed events))
        \/ (status r = FAILED
            /\ overall_summary r = hybrid_failure_summary)).
Proof.
  intros Hfailure.
  destruct (FinalResponse_init (Some (lq_id query))
              (Some hybrid_failure_summary) None None
              (Some (lit "Sistema indisponível. Tente novamente mais tarde."))
              (Some [lit "Falha no sistema híbrido OpenRouter + Groq"])
              (Some FAILED)) as [r0|e0] eqn:Hr0.
  2: { exfalso. revert Hr0. unfold FinalResponse_init.
       destruct (check_overall_summary hybrid_failure_summary);
         [|discriminate Hfailure].
       cbn [from_option id]. change (unit_interval (FFinite 0)) with true.
       cbn [negb]. discriminate. }
  pose proof Hr0 as Hfields.
  apply FinalResponse_init_ok in Hfields
    as (q & s & [= <-] & [= <-] & _ & Hq0 & Hs0 & Hst0 & _).
  cbn [from_option id] in Hst0.
  unfold process_legal_query_hybrid_corrected_streaming, gen_try, gen_bind,
    gen_yield, gen_await, gen_stream, lift.
  rewrite Hr0.
  destruct (agent_run search_decision_agent _ w log)
    as [[decision_text|e] l1]; [|close_failed].
  cbv beta iota zeta.
  destruct (execute_vectordb_search_openrouter _ w l1)
    as [[vectordb_results|e] l2]; [|close_failed].
  cbv beta iota zeta.
  destruct (execute_groq_searches _ w l2) as [[groq_results|e] l3];
    [|close_failed].
  cbv beta iota zeta.
  destruct (analyze_with_openrouter _ _ _ w l3) as [[analysis_text|e] l4];
    [|close_failed].
  cbv beta iota zeta.
  destruct (synthesize_with_openrouter_streaming _ _ w l4)
    as [[chunks|e] l5]; [|close_failed].
  cbv beta iota zeta.
  destruct (validate_with_openrouter _ w l5) as [[quality_assessment|e] l6];
    [|close_failed].
  cbv beta iota zeta.
  destruct (check_guardrails_with_openrouter _ w l6)
    as [[guardrail_check|e] l7]; [|close_failed].
  cbv beta iota zeta.
  destruct (FinalResponse_init (Some (lq_id query)) (Some (concat chunks)) _ _
              _ _ _) as [r1|e] eqn:Hr1; [|close_failed].
  apply FinalResponse_init_ok in Hr1
    as (q1 & s1 & [= <-] & [= <-] & _ & Hq1 & Hs1 & Hst1 & _).
  cbn [from_option id] in Hst1.
  close_run. cbn [query_id status overall_summary].
  split; [exact Hq1|]. left. split; [exact Hst1|].
  rewrite !streamed_app, streamed_chunks, !streamed_progress.
  rewrite ?app_nil_l, ?app_nil_r. exact Hs1.
Qed.

End StreamingRunFacts.

Lemma streaming_run_ends_with_final_witness :
  exists events r log',
    @process_legal_query_hybrid_corrected_streaming latin1_builtins
      sample_query timing_out_world []
    = (Ok tt, log', events ++ [FinalEvent r])
    /\ query_id r = lq_id sample_query.
Proof.
  destruct (@streaming_run_ends_with_final latin1_builtins sample_query
              timing_out_world [])
    as (events & r & log' & Hrun & _ & _ & Hq & _).
  - vm_compute. reflexivity.
  - exists events, r, log'. auto.
Defined.
